(** * Notebook cell status bar: execution state and execution timer

    A shallow embedding of
    [vs/workbench/contrib/notebook/browser/contrib/cellStatusBar/executionStatusBarItemController.ts]
    and the properties of its specification.

    Conventions of the embedding.
    - A JavaScript [number] that holds a time stamp or a duration in
      milliseconds is an integer of [Z]; [Math.floor (a / b)] for a positive
      [b] is [Z.div], the remainder operator [%] is [Z.rem] (sign of the
      dividend), and [`${n}`] is the decimal numeral of [n].
    - An optional field ([T | undefined]) is an [option].
    - The objects of the workbench the file talks to (clock, execution state
      service, notebook view model, [setTimeout]) are the fields of one
      record, [Env], threaded through every method by a small state monad.
    - A callback handed to a timer is a constructor of [Handler]; running
      the handler is the body of the closure in the source. *)

From Stdlib Require Import ZArith String Ascii List Lia Bool DecimalString.
From stdpp Require Import base option list gmap strings.

Open Scope Z_scope.

(** ** JavaScript primitives used by the file *)

(** [`${n}`] for an integer [n]. *)
Definition Number_toString (n : Z) : string :=
  NilZero.string_of_int (Z.to_int n).

(** [Number.MAX_SAFE_INTEGER], 2^53 - 1. *)
Definition MAX_SAFE_INTEGER : Z := 9007199254740991.

(** [Number.isSafeInteger (n)]. The numbers of the source are IEEE doubles.
    On the safe integers the operations the file uses (difference and sum
    with a safe result, [Math.floor] of a quotient by a positive integer,
    the remainder, the decimal numeral) agree with the integer operations
    of the embedding. Beyond them a quotient is rounded before it is
    floored and the numeral is no longer that of the integer, and a
    duration with a fraction of a millisecond has no counterpart here: the
    properties of the formatted text are stated for safe integers. *)
Definition Number_isSafeInteger (n : Z) : Prop :=
  - MAX_SAFE_INTEGER <= n <= MAX_SAFE_INTEGER.

(** ** formatCellDuration (lines 24-38)

    [showMilliseconds] has the default value [true] in the source; callers
    that leave it out are modelled by passing [true]. The duration is a
    whole number of milliseconds in the safe range (see
    [Number_isSafeInteger]). *)
Definition formatCellDuration (duration : Z) (showMilliseconds : bool) : string :=
  if showMilliseconds && (duration <? 1000) then
    Number_toString duration +:+ "ms"
  else
    let minutes := duration / (1000 * 60) in
    let seconds := Z.rem (duration / 1000) 60 in
    let tenths := Z.rem duration 1000 / 100 in
    if 0 <? minutes then
      Number_toString minutes +:+ "m " +:+ Number_toString seconds +:+ "."
        +:+ Number_toString tenths +:+ "s"
    else
      Number_toString seconds +:+ "." +:+ Number_toString tenths +:+ "s".

(** The duration text as the specification words it: an optional minutes
    segment, then seconds, a dot, one tenths digit and the unit. *)
Definition durationText (minutes seconds tenth : Z) : string :=
  (if minutes =? 0 then EmptyString else Number_toString minutes +:+ "m ")
    +:+ Number_toString seconds +:+ "." +:+ Number_toString tenth +:+ "s".

(** ** Data model

    The types below are declared in [notebookCommon.ts],
    [notebookExecutionStateService.ts], [htmlContent.ts] and
    [themables.ts]; the file under study only imports them, and they are
    given here with the fields the file reads, as section 3 of the
    specification lists them. *)

(** Modelled from the spec: the enum [NotebookCellExecutionState] of
    [notebookCommon.ts]. The specification lists None, Unconfirmed, Pending
    and Executing; None is the case of a cell with no run state, which the
    source reads as [runState?.state] being [undefined] and tests with
    [!state]. A run state object is in one of the three other states, each
    of them truthy. *)
Module NotebookCellExecutionState.
Inductive t := Unconfirmed | Pending | Executing.

Definition eqb (a b : t) : bool :=
  match a, b with
  | Unconfirmed, Unconfirmed | Pending, Pending | Executing, Executing => true
  | _, _ => false
  end.
End NotebookCellExecutionState.

(** Modelled from the spec: [INotebookCellExecution], the run state of one
    cell, with the two fields the file reads. *)
Record INotebookCellExecution := {
  state : NotebookCellExecutionState.t;
  didPause : bool
}.

(** Modelled from the spec: [NotebookCellInternalMetadata]; every field is
    optional.
    [renderDuration] is a JavaScript object used as a map from renderer id
    to milliseconds; it is kept as the list of its entries in the order
    [for (const key in renderDuration)] visits them. *)
Record NotebookCellInternalMetadata := {
  lastRunSuccess : option bool;
  runStartTime : option Z;
  runStartTimeAdjustment : option Z;
  runEndTime : option Z;
  renderDuration : option (list (string * Z))
}.

Module CellStatusbarAlignment.
Inductive t := Left | Right.
End CellStatusbarAlignment.

Record ThemeIcon := { id : string }.
Record ThemeColor := { colorId : string }.
Record IMarkdownString := { value : string; isTrusted : bool }.

(** A tooltip is [string | IMarkdownString]. *)
Inductive Tooltip :=
  | PlainTooltip (s : string)
  | MarkdownTooltip (m : IMarkdownString).

(** Modelled from the spec: [INotebookCellStatusBarItem], with the fields
    the file writes; an item with the higher [priority] sorts first. *)
Record INotebookCellStatusBarItem := {
  text : string;
  color : option ThemeColor;
  tooltip : option Tooltip;
  alignment : CellStatusbarAlignment.t;
  priority : Z
}.

(** What [INotebookService.getRendererInfo] returns; [extensionId] is the
    [value] of the extension identifier. *)
Record RendererInfo := { displayName : string; extensionId : string }.

(** The constants and services of the workbench that the file imports and
    whose code is elsewhere: icons and colours, [localize], the display
    language, [Date.prototype.toLocaleTimeString], the renderer registry,
    [JSON.stringify] on an object of string fields and
    [encodeURIComponent]. *)
Class Workbench := {
  successStateIcon : ThemeIcon;
  errorStateIcon : ThemeIcon;
  pendingStateIcon : ThemeIcon;
  executingStateIcon : ThemeIcon;
  cellStatusIconSuccess : string;
  cellStatusIconError : string;
  localize : string -> string -> list string -> string;
  language : string;
  toLocaleTimeString : Z -> string -> string;
  getRendererInfo : string -> option RendererInfo;
  JSON_stringify : list (string * string) -> string;
  encodeURIComponent : string -> string
}.

Definition themeColorFromId (id : string) : ThemeColor := {| colorId := id |}.

(** [ThemeIcon.modify (icon, modifier)]: drop what follows the last ['~'] of
    the id, then append ['~'] and the modifier. *)
Fixpoint containsTilde (s : string) : bool :=
  match s with
  | EmptyString => false
  | String c r => if Ascii.eqb c "~" then true else containsTilde r
  end.

Fixpoint beforeLastTilde (s : string) : string :=
  match s with
  | EmptyString => EmptyString
  | String c r =>
      if containsTilde r then String c (beforeLastTilde r)
      else if Ascii.eqb c "~" then EmptyString
      else String c (beforeLastTilde r)
  end.

Definition ThemeIcon_modify (icon : ThemeIcon) (modifier : string) : ThemeIcon :=
  {| id := beforeLastTilde (id icon) +:+ "~" +:+ modifier |}.

(** A small state monad: every method of the source reads and writes its
    own object and the workbench around it. *)
Definition State (S A : Type) : Type := S -> A * S.

Definition ret {S A} (a : A) : State S A := fun s => (a, s).
Definition bind {S A B} (m : State S A) (k : A -> State S B) : State S B :=
  fun s => let '(a, s') := m s in k a s'.
Definition gets {S A} (f : S -> A) : State S A := fun s => (f s, s).
Definition modify {S} (f : S -> S) : State S unit := fun s => (tt, f s).
Definition exec {S A} (m : State S A) (s : S) : S := snd (m s).
Definition when {S} (b : bool) (m : State S unit) : State S unit :=
  if b then m else ret tt.

Declare Scope state_scope.
Delimit Scope state_scope with state.
Notation "'let*' x := m 'in' k" := (bind m (fun x => k))
  (at level 10, x name, m at level 100, k at level 200) : state_scope.
Notation "m ;; k" := (bind m (fun _ => k))
  (at level 100, k at level 200, right associativity) : state_scope.

(** ** ExecutionStateCellStatusBarItem._getItemForState (lines 161-200) *)

Definition iconText (icon : ThemeIcon) : string := "$(" +:+ id icon +:+ ")".

Definition stateIs (s : option NotebookCellExecutionState.t)
    (x : NotebookCellExecutionState.t) : bool :=
  match s with
  | Some y => NotebookCellExecutionState.eqb y x
  | None => false
  end.

(** [runState?.state === NotebookCellExecutionState.Executing] *)
Definition isExecuting (runState : option INotebookCellExecution) : bool :=
  stateIs (state <$> runState) NotebookCellExecutionState.Executing.

Definition _getItemForState `{Workbench}
    (runState : option INotebookCellExecution)
    (internalMetadata : NotebookCellInternalMetadata)
    : list INotebookCellStatusBarItem :=
  let state := state <$> runState in
  let lastRunSuccess := lastRunSuccess internalMetadata in
  if negb (bool_decide (is_Some state)) && bool_decide (lastRunSuccess = Some true) then
    [ {| text := iconText successStateIcon;
         color := Some (themeColorFromId cellStatusIconSuccess);
         tooltip := Some (PlainTooltip (localize "notebook.cell.status.success" "Success" []));
         alignment := CellStatusbarAlignment.Left;
         priority := MAX_SAFE_INTEGER |} ]
  else if negb (bool_decide (is_Some state)) && bool_decide (lastRunSuccess = Some false) then
    [ {| text := iconText errorStateIcon;
         color := Some (themeColorFromId cellStatusIconError);
         tooltip := Some (PlainTooltip (localize "notebook.cell.status.failed" "Failed" []));
         alignment := CellStatusbarAlignment.Left;
         priority := MAX_SAFE_INTEGER |} ]
  else if stateIs state NotebookCellExecutionState.Pending
          || stateIs state NotebookCellExecutionState.Unconfirmed then
    [ {| text := iconText pendingStateIcon;
         color := None;
         tooltip := Some (PlainTooltip (localize "notebook.cell.status.pending" "Pending" []));
         alignment := CellStatusbarAlignment.Left;
         priority := MAX_SAFE_INTEGER |} ]
  else if stateIs state NotebookCellExecutionState.Executing then
    let icon :=
      if from_option didPause false runState then executingStateIcon
      else ThemeIcon_modify executingStateIcon "spin" in
    [ {| text := iconText icon;
         color := None;
         tooltip := Some (PlainTooltip (localize "notebook.cell.status.executing" "Executing" []));
         alignment := CellStatusbarAlignment.Left;
         priority := MAX_SAFE_INTEGER |} ]
  else [].

(** ** TimerCellStatusBarItem._getTimeItem (lines 300-349) *)

Module RuntimeInformation.
Record t := {
  renderDuration : list (string * Z);
  executionDuration : Z;
  timerDuration : Z
}.
End RuntimeInformation.

Definition newline : string := String (ascii_of_nat 10) EmptyString.

(** [rendererInfo?.displayName ?? key] *)
Definition rendererLabel `{Workbench} (key : string) : string :=
  from_option displayName key (getRendererInfo key).

(** The argument of the issue reporter command (lines 314-321). *)
Definition issueReporterArgs `{Workbench} (executionDuration : Z)
    (key : string) (duration : Z) : string :=
  encodeURIComponent (JSON_stringify
    [ ("extensionId", from_option extensionId EmptyString (getRendererInfo key));
      ("issueBody",
        "Auto-generated text from notebook cell performance - Please add an explanation for the performance issue, including cell content if possible."
          +:+ newline
          +:+ "The duration for the renderer, " +:+ rendererLabel key
          +:+ ", is slower than expected." +:+ newline
          +:+ "Execution Time: " +:+ formatCellDuration executionDuration true +:+ newline
          +:+ "Renderer Duration: " +:+ formatCellDuration duration true +:+ newline) ]).

(** [renderIssueLink] (line 324). *)
Definition renderIssueLink (executionDuration duration : Z) : bool :=
  ((200 <? duration) && (executionDuration <? 2000)) || (1000 <? duration).

(** [rendererTitle] (lines 325-326). *)
Definition rendererTitle `{Workbench} (executionDuration : Z)
    (key : string) (duration : Z) : string :=
  let linkText := rendererLabel key in
  if renderIssueLink executionDuration duration then
    "[" +:+ linkText +:+ "](command:workbench.action.openIssueReporter?"
      +:+ issueReporterArgs executionDuration key duration +:+ ")"
  else "**" +:+ linkText +:+ "**".

(** Markdown reads a title that opens with a square bracket as a link; a
    title in bold opens with an asterisk. *)
Definition isMarkdownLink (title : string) : bool :=
  match title with
  | String c _ => Ascii.eqb c "["
  | EmptyString => false
  end.

(** One turn of the loop over the renderers (lines 311-328): the line that
    is appended to [renderTimes]. *)
Definition renderTimesLine `{Workbench} (executionDuration : Z)
    (entry : string * Z) : string :=
  "- " +:+ rendererTitle executionDuration entry.1 entry.2 +:+ " "
    +:+ formatCellDuration entry.2 true +:+ newline.

(** The footnote appended after the loop (line 330). *)
Definition renderTimesFooter `{Workbench} : string :=
  newline +:+ "*"
  +:+ localize "notebook.cell.statusBar.timerTooltip.reportIssueFootnote"
        "Use the links above to file an issue using the issue reporter." []
  +:+ "*" +:+ newline.

Definition renderTimes `{Workbench} (info : RuntimeInformation.t) : string :=
  fold_left
    (fun acc entry =>
       acc +:+ renderTimesLine (RuntimeInformation.executionDuration info) entry)
    (RuntimeInformation.renderDuration info) EmptyString
  +:+ renderTimesFooter.

(** The message of the tooltip (line 333). *)
Definition timerTooltipMessage : string :=
  "**Last Execution** {0}" +:+ newline +:+ newline
    +:+ "**Execution Time** {1}" +:+ newline +:+ newline
    +:+ "**Overhead Time** {2}" +:+ newline +:+ newline
    +:+ "**Render Times**" +:+ newline +:+ newline +:+ "{3}".

Definition timerTooltip `{Workbench} (lastExecution : string)
    (info : RuntimeInformation.t) : IMarkdownString :=
  {| value :=
       localize "notebook.cell.statusBar.timerTooltip" timerTooltipMessage
         [ lastExecution;
           formatCellDuration (RuntimeInformation.executionDuration info) true;
           formatCellDuration
             (RuntimeInformation.timerDuration info
                - RuntimeInformation.executionDuration info) true;
           renderTimes info ];
     isTrusted := true |}.

(** [executionText] (lines 339-341) *)
Definition executionText `{Workbench} (_isVerbose : bool)
    (lastExecution : string) (duration : Z) : string :=
  if _isVerbose then
    localize "notebook.cell.statusBar.timerVerbose"
      "Last Execution: {0}, Duration: {1}"
      [lastExecution; formatCellDuration duration false]
  else formatCellDuration duration false.

(** [adjustment] has the default value 0: [None] is a call that passes
    [undefined]. *)
Definition _getTimeItem `{Workbench} (_isVerbose : bool)
    (startTime endTime : Z) (adjustment : option Z)
    (runtimeInformation : option RuntimeInformation.t)
    : INotebookCellStatusBarItem :=
  let duration := endTime - startTime + default 0 adjustment in
  let lastExecution := toLocaleTimeString endTime language in
  let tooltip := MarkdownTooltip <$> (timerTooltip lastExecution <$> runtimeInformation) in
  {| text := executionText _isVerbose lastExecution duration;
     color := None;
     alignment := CellStatusbarAlignment.Left;
     priority := MAX_SAFE_INTEGER - 5;
     tooltip := tooltip |}.

(** ** The workbench around one cell

    The clock, the execution state service, the cell's metadata, the
    configuration, the status bar of the notebook view model and the pending
    [setTimeout] calls. *)

(** The closures the file hands to timers. *)
Inductive Handler :=
  | ClearExecutingState
      (** lines 144-148, [ExecutionStateCellStatusBarItem] *)
  | DeferredUpdate (items : list INotebookCellStatusBarItem)
      (** lines 288-291, [TimerCellStatusBarItem]; [items] is captured *)
  | SchedulerRun
      (** line 243, the runner of the [RunOnceScheduler] *).

Record Env := {
  now : Z;
  cellExecution : option INotebookCellExecution;
  internalMetadata : NotebookCellInternalMetadata;
  cellExecutionTimeVerbosity : string;
  statusBarItems : gmap nat (Z * INotebookCellStatusBarItem);
  nextItemId : nat;
  pushes : list (Z * list INotebookCellStatusBarItem);
  timeouts : gmap nat (Z * Handler);
  nextTimeout : nat
}.

Definition set_now (v : Z) (e : Env) : Env :=
  {| now := v; cellExecution := cellExecution e;
     internalMetadata := internalMetadata e;
     cellExecutionTimeVerbosity := cellExecutionTimeVerbosity e;
     statusBarItems := statusBarItems e; nextItemId := nextItemId e;
     pushes := pushes e; timeouts := timeouts e; nextTimeout := nextTimeout e |}.

Definition set_cellExecution (v : option INotebookCellExecution) (e : Env) : Env :=
  {| now := now e; cellExecution := v;
     internalMetadata := internalMetadata e;
     cellExecutionTimeVerbosity := cellExecutionTimeVerbosity e;
     statusBarItems := statusBarItems e; nextItemId := nextItemId e;
     pushes := pushes e; timeouts := timeouts e; nextTimeout := nextTimeout e |}.

Definition set_internalMetadata (v : NotebookCellInternalMetadata) (e : Env) : Env :=
  {| now := now e; cellExecution := cellExecution e;
     internalMetadata := v;
     cellExecutionTimeVerbosity := cellExecutionTimeVerbosity e;
     statusBarItems := statusBarItems e; nextItemId := nextItemId e;
     pushes := pushes e; timeouts := timeouts e; nextTimeout := nextTimeout e |}.

Definition set_cellExecutionTimeVerbosity (v : string) (e : Env) : Env :=
  {| now := now e; cellExecution := cellExecution e;
     internalMetadata := internalMetadata e;
     cellExecutionTimeVerbosity := v;
     statusBarItems := statusBarItems e; nextItemId := nextItemId e;
     pushes := pushes e; timeouts := timeouts e; nextTimeout := nextTimeout e |}.

Definition set_timeouts (v : gmap nat (Z * Handler)) (n : nat) (e : Env) : Env :=
  {| now := now e; cellExecution := cellExecution e;
     internalMetadata := internalMetadata e;
     cellExecutionTimeVerbosity := cellExecutionTimeVerbosity e;
     statusBarItems := statusBarItems e; nextItemId := nextItemId e;
     pushes := pushes e; timeouts := v; nextTimeout := n |}.

(** [Date.now ()] *)
Definition Date_now : State Env Z := gets now.

(** [INotebookExecutionStateService.getCellExecution (cell.uri)] *)
Definition getCellExecution : State Env (option INotebookCellExecution) :=
  gets cellExecution.

(** Modelled from the spec: the scheduling primitive, a callback scheduled
    after a duration and cancelable. [setTimeout (handler, delay)]: the
    handler may run once the clock has reached [now + delay]; identifiers
    are never reused. *)
Definition setTimeout (h : Handler) (delay : Z) : State Env nat :=
  fun e =>
    let id := nextTimeout e in
    (id, set_timeouts (<[id := (now e + delay, h)]> (timeouts e)) (S id) e).

(** [clearTimeout (id)] *)
Definition clearTimeout (id : nat) : State Env unit :=
  modify (fun e => set_timeouts (delete id (timeouts e)) (nextTimeout e) e).

(** Attaching items to a cell under the given tokens. *)
Definition attach (handle : Z) (entries : list (nat * INotebookCellStatusBarItem))
    (m : gmap nat (Z * INotebookCellStatusBarItem))
    : gmap nat (Z * INotebookCellStatusBarItem) :=
  foldr (fun entry m => <[entry.1 := (handle, entry.2)]> m) m entries.

(** Modelled from the spec: [INotebookViewModel.deltaCellStatusBarItems],
    whose code is in the notebook view model. The specification gives it as
    [deltaStatusItems (previousHandles, [{cellHandle, items}]) -> newHandles],
    an atomic replacement by cell: the items behind the previous handle
    tokens are removed, the new items are attached to the cell under fresh
    tokens, and the fresh tokens are returned. [pushes] records every call,
    the most recent first. *)
Definition deltaCellStatusBarItems (oldItems : list nat) (handle : Z)
    (items : list INotebookCellStatusBarItem) : State Env (list nat) :=
  fun e =>
    let ids := seq (nextItemId e) (length items) in
    let kept := foldr delete (statusBarItems e) oldItems in
    let attached := attach handle (zip ids items) kept in
    (ids,
     {| now := now e; cellExecution := cellExecution e;
        internalMetadata := internalMetadata e;
        cellExecutionTimeVerbosity := cellExecutionTimeVerbosity e;
        statusBarItems := attached;
        nextItemId := (nextItemId e + length items)%nat;
        pushes := (handle, items) :: pushes e;
        timeouts := timeouts e; nextTimeout := nextTimeout e |}).

(** The items attached to the notebook under the given tokens. *)
Definition attachedItems (ids : list nat) (e : Env) : list INotebookCellStatusBarItem :=
  omap (fun i => snd <$> statusBarItems e !! i) ids.

(** Methods of an object of type [T] living in the workbench. *)
Definition onEnv {T A} (m : State Env A) : State (T * Env) A :=
  fun s => let '(a, e) := m s.2 in (a, (s.1, e)).
Definition getThis {T A} (f : T -> A) : State (T * Env) A :=
  gets (fun s => f s.1).
Definition setThis {T} (f : T -> T) : State (T * Env) unit :=
  modify (fun s => (f s.1, s.2)).

(** What can happen to a session: the clock advances, a pending timeout
    fires, the execution state service or the cell model announces a change,
    the configuration changes, the session is disposed. *)
Inductive Event :=
  | Tick (t : Z)
  | Timeout (id : nat)
  | DidChangeExecution (runState : option INotebookCellExecution)
  | DidChangeInternalMetadata (metadata : NotebookCellInternalMetadata)
  | DidChangeConfiguration (verbosity : string)
  | Dispose.

(** Modelled from the spec: single-shot timers. A pending timeout fires
    once the clock has reached its due time; it leaves the table of pending
    timeouts before its handler runs. A timeout that was cleared, or that is
    not due, does not fire. *)
Definition fireTimeout {T} (handler : nat -> Handler -> State (T * Env) unit)
    (id : nat) : State (T * Env) unit :=
  (let* pending := onEnv (gets (fun e => timeouts e !! id)) in
   let* n := onEnv Date_now in
   match pending with
   | Some (due, h) =>
       if due <=? n then (onEnv (clearTimeout id) ;; handler id h) else ret tt
   | None => ret tt
   end)%state.

(** Modelled from the spec: [MutableDisposable<IDisposable>] of
    [base/common/lifecycle.ts], the holder of the timer handle of a session
    (cancelable, and cancelled when the session is disposed). The value is
    the disposable of a [disposableTimeout], that is, the identifier of the
    timeout; disposing the value clears the timeout. *)
Record MutableDisposable := {
  _value : option nat;
  _mutableIsDisposed : bool
}.

(** ** class ExecutionStateCellStatusBarItem (lines 100-207) *)
Module ExecutionStateCellStatusBarItem.

Definition MIN_SPINNER_TIME : Z := 500.

Record t := {
  _handle : Z;                                 (** [this._cell.handle] *)
  _currentItemIds : list nat;
  _showedExecutingStateTime : option Z;
  _clearExecutingStateTimer : MutableDisposable;
  _isDisposed : bool                           (** the listeners are gone *)
}.

Definition set_currentItemIds (v : list nat) (s : t) : t :=
  {| _handle := _handle s; _currentItemIds := v;
     _showedExecutingStateTime := _showedExecutingStateTime s;
     _clearExecutingStateTimer := _clearExecutingStateTimer s;
     _isDisposed := _isDisposed s |}.

Definition set_showedExecutingStateTime (v : option Z) (s : t) : t :=
  {| _handle := _handle s; _currentItemIds := _currentItemIds s;
     _showedExecutingStateTime := v;
     _clearExecutingStateTimer := _clearExecutingStateTimer s;
     _isDisposed := _isDisposed s |}.

Definition set_clearExecutingStateTimer (v : MutableDisposable) (s : t) : t :=
  {| _handle := _handle s; _currentItemIds := _currentItemIds s;
     _showedExecutingStateTime := _showedExecutingStateTime s;
     _clearExecutingStateTimer := v;
     _isDisposed := _isDisposed s |}.

Definition set_isDisposed (v : bool) (s : t) : t :=
  {| _handle := _handle s; _currentItemIds := _currentItemIds s;
     _showedExecutingStateTime := _showedExecutingStateTime s;
     _clearExecutingStateTimer := _clearExecutingStateTimer s;
     _isDisposed := v |}.

(** [this._clearExecutingStateTimer.value]: [undefined] once disposed. *)
Definition timerValue (s : t) : option nat :=
  let m := _clearExecutingStateTimer s in
  if _mutableIsDisposed m then None else _value m.

(** [this._clearExecutingStateTimer.value = disposableTimeout (...)]: the
    setter ignores the new value on a disposed holder and disposes the
    previous value otherwise. *)
Definition setTimerValue (id : nat) : State (t * Env) unit :=
  (let* m := getThis _clearExecutingStateTimer in
   if _mutableIsDisposed m then ret tt
   else
     (match _value m with
      | Some old => onEnv (clearTimeout old)
      | None => ret tt
      end ;;
      setThis (set_clearExecutingStateTimer
                 {| _value := Some id; _mutableIsDisposed := false |})))%state.

(** [this._clearExecutingStateTimer.clear ()] *)
Definition clearTimer : State (t * Env) unit :=
  (let* m := getThis _clearExecutingStateTimer in
   if _mutableIsDisposed m then ret tt
   else
     (match _value m with
      | Some old => onEnv (clearTimeout old)
      | None => ret tt
      end ;;
      setThis (set_clearExecutingStateTimer
                 {| _value := None; _mutableIsDisposed := false |})))%state.

(** [_getItemsForCell] (lines 134-159): [None] is [undefined], no change. *)
Definition _getItemsForCell `{Workbench}
    : State (t * Env) (option (list INotebookCellStatusBarItem)) :=
  (let* runState := onEnv getCellExecution in
   let* showed := getThis _showedExecutingStateTime in
   let executing := isExecuting runState in
   let items :=
     (let* metadata := onEnv (gets internalMetadata) in
      ret (Some (_getItemForState runState metadata))) in
   if executing && negb (bool_decide (is_Some showed)) then
     (let* n := onEnv Date_now in
      setThis (set_showedExecutingStateTime (Some n)) ;;
      items)
   else if negb executing && bool_decide (is_Some showed) then
     (let* n := onEnv Date_now in
      let timeUntilMin := MIN_SPINNER_TIME - (n - default 0 showed) in
      if 0 <? timeUntilMin then
        (let* pending := getThis timerValue in
         when (negb (bool_decide (is_Some pending)))
           (let* id := onEnv (setTimeout ClearExecutingState timeUntilMin) in
            setTimerValue id) ;;
         ret None)
      else
        (setThis (set_showedExecutingStateTime None) ;;
         items))
   else items)%state.

(** [_update] (lines 124-129); the method is [async] but never awaits, so
    its body runs to the end when it is called. *)
Definition _update `{Workbench} : State (t * Env) unit :=
  (let* items := _getItemsForCell in
   match items with
   | Some items =>
       let* old := getThis _currentItemIds in
       let* handle := getThis _handle in
       let* ids := onEnv (deltaCellStatusBarItems old handle items) in
       setThis (set_currentItemIds ids)
   | None => ret tt
   end)%state.

(** The constructor (lines 108-122): the first [_update], then the two
    listeners, which stay registered until disposal. *)
Definition new `{Workbench} (handle : Z) (e : Env) : t * Env :=
  exec _update
    ({| _handle := handle; _currentItemIds := [];
        _showedExecutingStateTime := None;
        _clearExecutingStateTimer := {| _value := None; _mutableIsDisposed := false |};
        _isDisposed := false |}, e).

(** Modelled from the spec: [Disposable.dispose] of
    [base/common/lifecycle.ts], the teardown that calls every handle the
    session holds. [super.dispose ()]: the store disposes what was
    registered, the timer holder (which cancels its timeout) and the two
    listeners. *)
Definition super_dispose : State (t * Env) unit :=
  (let* m := getThis _clearExecutingStateTimer in
   match _value m with
   | Some old => onEnv (clearTimeout old)
   | None => ret tt
   end ;;
   setThis (set_clearExecutingStateTimer
              {| _value := None; _mutableIsDisposed := true |}) ;;
   setThis (set_isDisposed true))%state.

(** [dispose] (lines 202-207); the tokens returned by the last call are
    dropped. *)
Definition dispose : State (t * Env) unit :=
  (super_dispose ;;
   let* old := getThis _currentItemIds in
   let* handle := getThis _handle in
   let* _ids := onEnv (deltaCellStatusBarItems old handle []) in
   ret tt)%state.

(** The closure of lines 144-148. *)
Definition handler `{Workbench} (id : nat) (h : Handler) : State (t * Env) unit :=
  match h with
  | ClearExecutingState =>
      (setThis (set_showedExecutingStateTime None) ;;
       clearTimer ;;
       _update)%state
  | _ => ret tt
  end.

(** The listeners of lines 116-121 call [_update] while registered. *)
Definition notify `{Workbench} : State (t * Env) unit :=
  (let* disposed := getThis _isDisposed in
   if disposed then ret tt else _update)%state.

Definition step `{Workbench} (ev : Event) : State (t * Env) unit :=
  match ev with
  | Tick t' => onEnv (modify (fun e => set_now (Z.max (now e) t') e))
  | Timeout id => fireTimeout handler id
  | DidChangeExecution runState =>
      (onEnv (modify (set_cellExecution runState)) ;; notify)%state
  | DidChangeInternalMetadata metadata =>
      (onEnv (modify (set_internalMetadata metadata)) ;; notify)%state
  | DidChangeConfiguration verbosity =>
      onEnv (modify (set_cellExecutionTimeVerbosity verbosity))
  | Dispose => dispose
  end.

Fixpoint run `{Workbench} (evs : list Event) (s : t * Env) : t * Env :=
  match evs with
  | [] => s
  | ev :: evs' => run evs' (exec (step ev) s)
  end.

End ExecutionStateCellStatusBarItem.

Definition UPDATE_TIMER_GRACE_PERIOD : Z := 200.

(** ** class TimerCellStatusBarItem (lines 223-357) *)
Module TimerCellStatusBarItem.

Definition UPDATE_INTERVAL : Z := 100.

Record t := {
  _handle : Z;                     (** [this._cell.handle] *)
  _currentItemIds : list nat;
  _scheduler : option nat;         (** [timeoutToken] of the [RunOnceScheduler] *)
  _deferredUpdate : option nat;
  _isVerbose : bool;
  _store : list nat;               (** timeouts registered in [this._store] *)
  _isDisposed : bool               (** the listeners are gone *)
}.

Definition set_currentItemIds (v : list nat) (s : t) : t :=
  {| _handle := _handle s; _currentItemIds := v; _scheduler := _scheduler s;
     _deferredUpdate := _deferredUpdate s; _isVerbose := _isVerbose s;
     _store := _store s; _isDisposed := _isDisposed s |}.

Definition set_scheduler (v : option nat) (s : t) : t :=
  {| _handle := _handle s; _currentItemIds := _currentItemIds s; _scheduler := v;
     _deferredUpdate := _deferredUpdate s; _isVerbose := _isVerbose s;
     _store := _store s; _isDisposed := _isDisposed s |}.

Definition set_deferredUpdate (v : option nat) (s : t) : t :=
  {| _handle := _handle s; _currentItemIds := _currentItemIds s;
     _scheduler := _scheduler s;
     _deferredUpdate := v; _isVerbose := _isVerbose s;
     _store := _store s; _isDisposed := _isDisposed s |}.

Definition set_isVerbose (v : bool) (s : t) : t :=
  {| _handle := _handle s; _currentItemIds := _currentItemIds s;
     _scheduler := _scheduler s;
     _deferredUpdate := _deferredUpdate s; _isVerbose := v;
     _store := _store s; _isDisposed := _isDisposed s |}.

Definition set_store (v : list nat) (s : t) : t :=
  {| _handle := _handle s; _currentItemIds := _currentItemIds s;
     _scheduler := _scheduler s;
     _deferredUpdate := _deferredUpdate s; _isVerbose := _isVerbose s;
     _store := v; _isDisposed := _isDisposed s |}.

Definition set_isDisposed (v : bool) (s : t) : t :=
  {| _handle := _handle s; _currentItemIds := _currentItemIds s;
     _scheduler := _scheduler s;
     _deferredUpdate := _deferredUpdate s; _isVerbose := _isVerbose s;
     _store := _store s; _isDisposed := v |}.

(** Modelled from the spec: [RunOnceScheduler] of [base/common/async.ts],
    the re-scheduler of the timer indicator, which fires 100 ms after it was
    scheduled. [RunOnceScheduler.cancel ()] clears the pending timeout. *)
Definition scheduler_cancel : State (t * Env) unit :=
  (let* token := getThis _scheduler in
   match token with
   | Some id => onEnv (clearTimeout id) ;; setThis (set_scheduler None)
   | None => ret tt
   end)%state.

(** [this._scheduler.schedule ()]: cancel, then a timeout of
    [UPDATE_INTERVAL] for the runner. *)
Definition scheduler_schedule : State (t * Env) unit :=
  (scheduler_cancel ;;
   let* id := onEnv (setTimeout SchedulerRun UPDATE_INTERVAL) in
   setThis (set_scheduler (Some id)))%state.

(** Modelled from the spec: [disposableTimeout] of [base/common/async.ts],
    a callback scheduled after a duration, cancelable through the disposable
    it returns. [disposableTimeout (handler, timeout, this._store)]: the
    timeout is registered in the store until it fires or is disposed. *)
Definition disposableTimeout (h : Handler) (timeout : Z) : State (t * Env) nat :=
  (let* id := onEnv (setTimeout h timeout) in
   setThis (fun s => set_store (_store s ++ [id]) s) ;;
   ret id)%state.

(** Disposing the disposable of such a timeout. *)
Definition disposeTimeout (id : nat) : State (t * Env) unit :=
  (onEnv (clearTimeout id) ;;
   setThis (fun s => set_store (filter (fun j => j ≠ id) (_store s)) s))%state.

(** [this._deferredUpdate?.dispose ()] *)
Definition disposeDeferredUpdate : State (t * Env) unit :=
  (let* deferred := getThis _deferredUpdate in
   match deferred with
   | Some id => disposeTimeout id
   | None => ret tt
   end)%state.

(** [this._currentItemIds = this._notebookViewModel.deltaCellStatusBarItems
    (this._currentItemIds, [{ handle, items }])] *)
Definition pushItems (items : list INotebookCellStatusBarItem) : State (t * Env) unit :=
  (let* old := getThis _currentItemIds in
   let* handle := getThis _handle in
   let* ids := onEnv (deltaCellStatusBarItems old handle items) in
   setThis (set_currentItemIds ids))%state.

(** First half of [_update] (lines 256-282): the value of [timerItem]. *)
Definition computeTimerItem `{Workbench}
    : State (t * Env) (option INotebookCellStatusBarItem) :=
  (let* runState := onEnv getCellExecution in
   let state := state <$> runState in
   let* metadata := onEnv (gets internalMetadata) in
   let startTime := runStartTime metadata in
   let adjustment := default 0 (runStartTimeAdjustment metadata) in
   let endTime := runEndTime metadata in
   let* isVerbose := getThis _isVerbose in
   if from_option didPause false runState then ret None
   else if stateIs state NotebookCellExecutionState.Executing then
     match startTime with
     | Some startTime =>
         let* n := onEnv Date_now in
         let timerItem := _getTimeItem isVerbose startTime n (Some adjustment) None in
         scheduler_schedule ;;
         ret (Some timerItem)
     | None => ret None
     end
   else if negb (bool_decide (is_Some state)) then
     match startTime, endTime with
     | Some startTime, Some endTime =>
         let* n := onEnv Date_now in
         let timerDuration := n - startTime + adjustment in
         let executionDuration := endTime - startTime in
         let renderDuration := default [] (renderDuration metadata) in
         ret (Some (_getTimeItem isVerbose startTime endTime None
                      (Some {| RuntimeInformation.timerDuration := timerDuration;
                               RuntimeInformation.executionDuration := executionDuration;
                               RuntimeInformation.renderDuration := renderDuration |})))
     | _, _ => ret None
     end
   else ret None)%state.

(** [this._deferredUpdate?.dispose (); this._deferredUpdate = undefined]
    (lines 294-295) *)
Definition cancelDeferredUpdate : State (t * Env) unit :=
  (disposeDeferredUpdate ;;
   setThis (set_deferredUpdate None))%state.

(** Second half of [_update] (lines 284-297): the grace period. *)
Definition applyTimerItem (timerItem : option INotebookCellStatusBarItem)
    : State (t * Env) unit :=
  (let* runState := onEnv getCellExecution in
   let items := match timerItem with Some item => [item] | None => [] end in
   if (length items =? 0)%nat && bool_decide (is_Some runState) then
     (let* deferred := getThis _deferredUpdate in
      when (negb (bool_decide (is_Some deferred)))
        (let* id := disposableTimeout (DeferredUpdate items) UPDATE_TIMER_GRACE_PERIOD in
         setThis (set_deferredUpdate (Some id))))
   else
     (cancelDeferredUpdate ;;
      pushItems items))%state.

(** [_update] (lines 255-298) *)
Definition _update `{Workbench} : State (t * Env) unit :=
  (let* timerItem := computeTimerItem in applyTimerItem timerItem)%state.

Definition isVerbose (e : Env) : bool :=
  String.eqb (cellExecutionTimeVerbosity e) "verbose".

(** The constructor (lines 233-253). *)
Definition new `{Workbench} (handle : Z) (e : Env) : t * Env :=
  exec _update
    ({| _handle := handle; _currentItemIds := []; _scheduler := None;
        _deferredUpdate := None; _isVerbose := isVerbose e;
        _store := []; _isDisposed := false |}, e).

(** Modelled from the spec: [Disposable.dispose] of
    [base/common/lifecycle.ts], the teardown that calls every handle the
    session holds. [super.dispose ()]: the store disposes the scheduler, the
    listeners and the timeouts registered in it. *)
Definition super_dispose : State (t * Env) unit :=
  (scheduler_cancel ;;
   let* registered := getThis _store in
   onEnv (modify (fun e =>
     set_timeouts (foldr delete (timeouts e) registered) (nextTimeout e) e)) ;;
   setThis (set_store []) ;;
   setThis (set_isDisposed true))%state.

(** [dispose] (lines 351-357) *)
Definition dispose : State (t * Env) unit :=
  (super_dispose ;;
   disposeDeferredUpdate ;;
   let* old := getThis _currentItemIds in
   let* handle := getThis _handle in
   let* _ids := onEnv (deltaCellStatusBarItems old handle []) in
   ret tt)%state.

(** The closures of lines 288-291 (followed by the disposal that
    [disposableTimeout] adds for a timeout with a store) and of line 243. *)
Definition handler `{Workbench} (id : nat) (h : Handler) : State (t * Env) unit :=
  match h with
  | DeferredUpdate items =>
      (setThis (set_deferredUpdate None) ;;
       pushItems items ;;
       disposeTimeout id)%state
  | SchedulerRun =>
      (setThis (set_scheduler None) ;; _update)%state
  | ClearExecutingState => ret tt
  end.

(** The listeners of lines 245-252 while registered; the class does not
    listen to the execution state service. *)
Definition notify `{Workbench} : State (t * Env) unit :=
  (let* disposed := getThis _isDisposed in
   if disposed then ret tt else _update)%state.

Definition step `{Workbench} (ev : Event) : State (t * Env) unit :=
  match ev with
  | Tick t' => onEnv (modify (fun e => set_now (Z.max (now e) t') e))
  | Timeout id => fireTimeout handler id
  | DidChangeExecution runState =>
      onEnv (modify (set_cellExecution runState))
  | DidChangeInternalMetadata metadata =>
      (onEnv (modify (set_internalMetadata metadata)) ;; notify)%state
  | DidChangeConfiguration verbosity =>
      (onEnv (modify (set_cellExecutionTimeVerbosity verbosity)) ;;
       let* disposed := getThis _isDisposed in
       if disposed then ret tt
       else
         (let* v := onEnv (gets isVerbose) in
          setThis (set_isVerbose v) ;;
          _update))%state
  | Dispose => dispose
  end.

Fixpoint run `{Workbench} (evs : list Event) (s : t * Env) : t * Env :=
  match evs with
  | [] => s
  | ev :: evs' => run evs' (exec (step ev) s)
  end.

End TimerCellStatusBarItem.

(** [for (const x of l) { f (x) }] *)
Fixpoint forEach {S A} (l : list A) (f : A -> State S unit) : State S unit :=
  match l with
  | [] => ret tt
  | x :: l' => (f x ;; forEach l' f)%state
  end.

(** ** class NotebookStatusBarController (lines 40-83)

    A cell is identified by its [handle]. The controller is generic in the
    sessions it manages: [_itemFactory] returns an [IDisposable]. The
    embedding gives every object built by the factory a fresh identity and
    keeps, in [live], the sessions that were built and not disposed yet,
    each with the cell it was built for. *)
Module NotebookStatusBarController.

Record ICellVisibilityChangeEvent := {
  added : list Z;
  removed : list Z
}.

(** The notebook editor as the controller sees it: whether
    [getViewModel ()] returns a view model, and the sessions alive. *)
Record Editor := {
  hasViewModel : bool;
  live : gmap nat Z;
  nextSession : nat
}.

(** The controller: the map of the sessions, and whether the controller is
    disposed. The observer of the visible cells and the listener on its
    deltas (lines 49-50) are registered in the store of the controller and
    stay registered until [super.dispose ()]. *)
Record t := {
  _visibleCells : gmap Z nat;
  _isDisposed : bool
}.

(** [this._itemFactory (vm, cell)] *)
Definition _itemFactory (cell : Z) : State (t * Editor) nat :=
  fun s =>
    let ed := s.2 in
    let sid := nextSession ed in
    (sid, (s.1, {| hasViewModel := hasViewModel ed;
                   live := <[sid := cell]> (live ed);
                   nextSession := S sid |})).

(** [session.dispose ()] *)
Definition disposeSession (sid : nat) : State (t * Editor) unit :=
  modify (fun s =>
    (s.1, {| hasViewModel := hasViewModel s.2;
             live := delete sid (live s.2);
             nextSession := nextSession s.2 |})).

Definition setVisibleCells (m : gmap Z nat) : State (t * Editor) unit :=
  modify (fun s => ({| _visibleCells := m; _isDisposed := _isDisposed s.1 |}, s.2)).

(** The body of the loop over [e.removed] (lines 68-69). *)
Definition removeCell (oldCell : Z) : State (t * Editor) unit :=
  (let* cells := gets (fun s => _visibleCells s.1) in
   match cells !! oldCell with
   | Some session => disposeSession session
   | None => ret tt
   end ;;
   setVisibleCells (delete oldCell cells))%state.

(** The body of the loop over [e.added] (line 73). *)
Definition addCell (newCell : Z) : State (t * Editor) unit :=
  (let* session := _itemFactory newCell in
   let* cells := gets (fun s => _visibleCells s.1) in
   setVisibleCells (<[newCell := session]> cells))%state.

(** [_updateVisibleCells] (lines 61-75) *)
Definition _updateVisibleCells (e : ICellVisibilityChangeEvent) : State (t * Editor) unit :=
  (let* vm := gets (fun s => hasViewModel s.2) in
   if negb vm then ret tt
   else
     (forEach (removed e) removeCell ;;
      forEach (added e) addCell))%state.

(** [this._visibleCells.forEach (dispose); this._visibleCells.clear ()] *)
Definition disposeAll : State (t * Editor) unit :=
  (let* cells := gets (fun s => _visibleCells s.1) in
   forEach (map_to_list cells) (fun entry => disposeSession entry.2) ;;
   setVisibleCells ∅)%state.

(** [_updateEverything] (lines 55-59); [visibleCells] is
    [this._observer.visibleCells]. *)
Definition _updateEverything (visibleCells : list Z) : State (t * Editor) unit :=
  (disposeAll ;;
   _updateVisibleCells {| added := visibleCells; removed := [] |})%state.

(** The constructor (lines 44-53): the observer and the listener are
    registered, then [_updateEverything] runs. *)
Definition new (visibleCells : list Z) (ed : Editor) : t * Editor :=
  exec (_updateEverything visibleCells)
    ({| _visibleCells := ∅; _isDisposed := false |}, ed).

(** Modelled from the spec: [Disposable.dispose] of
    [base/common/lifecycle.ts], the teardown that calls every handle the
    controller holds. [super.dispose ()] (line 78): the store disposes the
    observer and the listener on its deltas. *)
Definition super_dispose : State (t * Editor) unit :=
  modify (fun s => ({| _visibleCells := _visibleCells s.1; _isDisposed := true |}, s.2)).

(** [dispose] (lines 77-82) *)
Definition dispose : State (t * Editor) unit :=
  (super_dispose ;; disposeAll)%state.

(** The listener of line 50 calls [_updateVisibleCells] with the delta
    while it is registered. *)
Definition notify (e : ICellVisibilityChangeEvent) : State (t * Editor) unit :=
  (let* disposed := gets (fun s => _isDisposed s.1) in
   if disposed then ret tt else _updateVisibleCells e)%state.

(** The deltas of the observer reach the controller one by one. *)
Fixpoint run (es : list ICellVisibilityChangeEvent) (s : t * Editor) : t * Editor :=
  match es with
  | [] => s
  | e :: es' => run es' (exec (notify e) s)
  end.

(** Modelled from the spec: the visible set of the tracker
    ([NotebookVisibleCellObserver], whose code is in another file). A
    delta [{added, removed}] takes the visible set [V] to
    [(V minus removed) plus added]. *)
Definition applyDelta (V : gset Z) (e : ICellVisibilityChangeEvent) : gset Z :=
  (V ∖ list_to_set (removed e)) ∪ list_to_set (added e).

Definition visibleAfter (V : gset Z) (es : list ICellVisibilityChangeEvent) : gset Z :=
  foldl applyDelta V es.

(** Modelled from the spec: a delta of the tracker adds each cell once,
    and only cells that are not visible (or that the same delta removes). *)
Definition deltaOf (V : gset Z) (e : ICellVisibilityChangeEvent) : Prop :=
  NoDup (added e) ∧ ∀ h, h ∈ added e → h ∈ V → h ∈ removed e.

Fixpoint deltasOf (V : gset Z) (es : list ICellVisibilityChangeEvent) : Prop :=
  match es with
  | [] => True
  | e :: es' => deltaOf V e ∧ deltasOf (applyDelta V e) es'
  end.

(** Lockstep of sessions and visibility: the cells of the map are the
    visible cells, and the sessions alive are exactly those of the map. *)
Definition lockstep (V : gset Z) (s : t * Editor) : Prop :=
  dom (_visibleCells s.1) = V ∧
  ∀ sid h, live s.2 !! sid = Some h ↔ _visibleCells s.1 !! h = Some sid.

(** The invariant behind the lockstep: the sessions alive are those of the
    map, and the identities not handed out yet are larger than theirs. *)
Definition sessionsOfMap (s : t * Editor) : Prop :=
  (∀ sid h, live s.2 !! sid = Some h ↔ _visibleCells s.1 !! h = Some sid) ∧
  (∀ sid h, live s.2 !! sid = Some h → (sid < nextSession s.2)%nat).

(** An editor with a view model and no session yet. *)
Definition editorWithViewModel : Editor :=
  {| hasViewModel := true; live := ∅; nextSession := 0 |}.

End NotebookStatusBarController.

(** ** A workbench to run the definitions on

    The icon and colour identifiers are those the notebook contributes;
    [localize] fills the placeholders [{0}] to [{9}] of the English
    message; the time of day, JSON and URI encoding are kept symbolic. *)
Fixpoint fillPlaceholders (message : string) (args : list string) : string :=
  match message with
  | String "{" (String d (String "}" rest as tail)) =>
      let n := (nat_of_ascii d - 48)%nat in
      if (48 <=? nat_of_ascii d)%nat && (nat_of_ascii d <=? 57)%nat then
        nth n args EmptyString +:+ fillPlaceholders rest args
      else String "{" (String d (fillPlaceholders tail args))
  | String c rest => String c (fillPlaceholders rest args)
  | EmptyString => EmptyString
  end.

Definition exampleWorkbench : Workbench := {|
  successStateIcon := {| id := "notebook-state-success" |};
  errorStateIcon := {| id := "notebook-state-error" |};
  pendingStateIcon := {| id := "notebook-state-pending" |};
  executingStateIcon := {| id := "notebook-state-executing" |};
  cellStatusIconSuccess := "notebookStatusSuccessIcon.foreground";
  cellStatusIconError := "notebookStatusErrorIcon.foreground";
  localize := fun _ message args => fillPlaceholders message args;
  language := "en";
  toLocaleTimeString := fun time _ => "T" +:+ Number_toString time;
  getRendererInfo := fun _ => None;
  JSON_stringify := fun fields =>
    fold_right (fun field acc => field.1 +:+ "=" +:+ field.2 +:+ ";" +:+ acc)
      EmptyString fields;
  encodeURIComponent := fun s => s
|}.

(** An idle cell that was never run, in a notebook with no status bar items
    and no pending timeout. *)
Definition noMetadata : NotebookCellInternalMetadata :=
  {| lastRunSuccess := None; runStartTime := None;
     runStartTimeAdjustment := None; runEndTime := None;
     renderDuration := None |}.

Definition initialEnv (time : Z) (runState : option INotebookCellExecution)
    (metadata : NotebookCellInternalMetadata) : Env :=
  {| now := time; cellExecution := runState; internalMetadata := metadata;
     cellExecutionTimeVerbosity := "default";
     statusBarItems := ∅; nextItemId := 0; pushes := [];
     timeouts := ∅; nextTimeout := 0 |}.

(** Modelled from the spec: the order of the status bar, which is computed
    outside this file. The data model of the specification gives
    [priority] as an integer where the higher value sorts first. *)
Definition sortsBefore (a b : INotebookCellStatusBarItem) : bool :=
  priority b <? priority a.

(** ** Vocabulary of the properties *)

(** While the spinner is held: the clock stays below the deadline, the cell
    is not executing, and the session is not disposed. Timeouts may be tried
    at any moment; they fire only when due. *)
Definition holdEvent (deadline : Z) (ev : Event) : bool :=
  match ev with
  | Tick t => t <? deadline
  | Timeout _ => true
  | DidChangeExecution runState => negb (isExecuting runState)
  | DidChangeInternalMetadata _ => true
  | DidChangeConfiguration _ => true
  | Dispose => false
  end.

(** A session of the execution state indicator that is not disposed owns the
    items of the status bar and every pending timeout. *)
Definition executionStateSessionOk (w : ExecutionStateCellStatusBarItem.t * Env) : Prop :=
  ExecutionStateCellStatusBarItem._isDisposed w.1 = false ∧
  _mutableIsDisposed (ExecutionStateCellStatusBarItem._clearExecutingStateTimer w.1) = false ∧
  dom (statusBarItems w.2)
    = list_to_set (ExecutionStateCellStatusBarItem._currentItemIds w.1) ∧
  ∀ id, is_Some (timeouts w.2 !! id) →
    _value (ExecutionStateCellStatusBarItem._clearExecutingStateTimer w.1) = Some id.

(** After disposal nothing of the session is left in the workbench. *)
Definition executionStateSessionGone (w : ExecutionStateCellStatusBarItem.t * Env) : Prop :=
  ExecutionStateCellStatusBarItem._isDisposed w.1 = true ∧
  statusBarItems w.2 = ∅ ∧ timeouts w.2 = ∅.

(** The same for a session of the timer indicator: a pending timeout is
    either the one of the scheduler or the deferred update, which carries
    the empty list and is registered in the store. *)
Definition timerSessionOk (w : TimerCellStatusBarItem.t * Env) : Prop :=
  TimerCellStatusBarItem._isDisposed w.1 = false ∧
  dom (statusBarItems w.2)
    = list_to_set (TimerCellStatusBarItem._currentItemIds w.1) ∧
  ∀ id due h, timeouts w.2 !! id = Some (due, h) →
    (id < nextTimeout w.2)%nat ∧
    match h with
    | SchedulerRun => TimerCellStatusBarItem._scheduler w.1 = Some id
    | DeferredUpdate items =>
        items = [] ∧ TimerCellStatusBarItem._deferredUpdate w.1 = Some id ∧
        id ∈ TimerCellStatusBarItem._store w.1
    | ClearExecutingState => False
    end.

Definition timerSessionGone (w : TimerCellStatusBarItem.t * Env) : Prop :=
  TimerCellStatusBarItem._isDisposed w.1 = true ∧
  statusBarItems w.2 = ∅ ∧ timeouts w.2 = ∅.

(** The recomputation of the timer yields an item: the cell is executing,
    not paused, with a start time, or it has no run state and both a start
    and an end time. *)
Definition timerItemDue (e : Env) : bool :=
  match cellExecution e with
  | Some execution =>
      negb (didPause execution)
      && NotebookCellExecutionState.eqb (state execution)
           NotebookCellExecutionState.Executing
      && bool_decide (is_Some (runStartTime (internalMetadata e)))
  | None =>
      bool_decide (is_Some (runStartTime (internalMetadata e)))
      && bool_decide (is_Some (runEndTime (internalMetadata e)))
  end.

(** The condition of the grace period: a run state is there and the
    recomputation yields no item. *)
Definition inGracePeriod (e : Env) : bool :=
  bool_decide (is_Some (cellExecution e)) && negb (timerItemDue e).

(** The event runs [_update] (lines 255-298) of a session of the timer
    indicator that is not disposed: a change of the metadata or of the
    configuration (the listeners of lines 245-252), or the timeout of the
    scheduler once it is due (line 243). A change of the run state runs
    none: the class does not listen to the execution state service. *)
Definition runsTimerUpdate (ev : Event) (e : Env) : bool :=
  match ev with
  | DidChangeInternalMetadata _ | DidChangeConfiguration _ => true
  | Timeout id =>
      match timeouts e !! id with
      | Some (due, SchedulerRun) => due <=? now e
      | _ => false
      end
  | Tick _ | DidChangeExecution _ | Dispose => false
  end.

(** An episode of the grace period, as the session sees it: the session is
    not disposed, every update that runs finds the condition, and the clock
    stays below the deadline. *)
Fixpoint graceEpisode `{Workbench} (deadline : Z) (evs : list Event)
    (w : TimerCellStatusBarItem.t * Env) : Prop :=
  match evs with
  | [] => True
  | ev :: evs' =>
      let w' := exec (TimerCellStatusBarItem.step ev) w in
      ev ≠ Dispose ∧
      (runsTimerUpdate ev w.2 = true → inGracePeriod w'.2 = true) ∧
      now w'.2 < deadline ∧
      graceEpisode deadline evs' w'
  end.

(** No deferred update is pending. *)
Definition noDeferredUpdatePending (e : Env) : Prop :=
  ∀ id due items, timeouts e !! id ≠ Some (due, DeferredUpdate items).

(** The clock, the run state and the metadata of the cell are the same in
    two states of the workbench. *)
Definition sameCell (e e' : Env) : Prop :=
  now e' = now e ∧ cellExecution e' = cellExecution e ∧
  internalMetadata e' = internalMetadata e.

(** The timeout held by a session of the execution state indicator is
    pending, runs the closure that ends the display of the executing state,
    and is due no later than the end of the minimum display time (when a
    display start is recorded) or is overdue (when none is). *)
Definition clearTimerBacked (w : ExecutionStateCellStatusBarItem.t * Env) : Prop :=
  ∀ id,
    _value (ExecutionStateCellStatusBarItem._clearExecutingStateTimer w.1) = Some id →
    ∃ due, timeouts w.2 !! id = Some (due, ClearExecutingState) ∧
      due <= match ExecutionStateCellStatusBarItem._showedExecutingStateTime w.1 with
             | Some showed => showed + ExecutionStateCellStatusBarItem.MIN_SPINNER_TIME
             | None => now w.2
             end.

(** The display start is recorded while the cell is executing, and a display
    that outlasts the execution holds a timeout. *)
Definition displayStartAccounted (w : ExecutionStateCellStatusBarItem.t * Env) : Prop :=
  (isExecuting (cellExecution w.2) = true →
   is_Some (ExecutionStateCellStatusBarItem._showedExecutingStateTime w.1)) ∧
  (isExecuting (cellExecution w.2) = false →
   is_Some (ExecutionStateCellStatusBarItem._showedExecutingStateTime w.1) →
   is_Some (_value (ExecutionStateCellStatusBarItem._clearExecutingStateTimer w.1))).

(** The scheduler of a session of the timer indicator fires at each of the
    given times: the clock advances to the time, then the pending timeout
    runs. Every firing while the cell is executing re-arms the scheduler
    under the next identifier, counted up from [id]. *)
Fixpoint schedulerFirings (id : nat) (times : list Z) : list Event :=
  match times with
  | [] => []
  | time :: times' => Tick time :: Timeout id :: schedulerFirings (S id) times'
  end.

(** Each of the times is at least [interval] after the one before it, the
    first one after [time]. *)
Fixpoint spacedBy (interval : Z) (time : Z) (times : list Z) : Prop :=
  match times with
  | [] => True
  | time' :: times' => time + interval <= time' ∧ spacedBy interval time' times'
  end.

(** The items of the cell in the status bar are those of its current state,
    unless the display of the executing state is being held (a display
    start is recorded and the cell is not executing). *)
Definition displayUpToDate `{Workbench}
    (w : ExecutionStateCellStatusBarItem.t * Env) : Prop :=
  isExecuting (cellExecution w.2) = true
  ∨ ExecutionStateCellStatusBarItem._showedExecutingStateTime w.1 = None →
  attachedItems (ExecutionStateCellStatusBarItem._currentItemIds w.1) w.2
    = _getItemForState (cellExecution w.2) (internalMetadata w.2).

(** * Properties *)

(** ** Duration formatting *)

Lemma append_assoc (a b c : string) : (a +:+ b) +:+ c = a +:+ (b +:+ c).
Proof.
  induction a as [|ch a IH]; [reflexivity |].
  change (String ch ((a +:+ b) +:+ c) = String ch (a +:+ (b +:+ c))).
  by rewrite IH.
Qed.

Lemma formatCellDuration_ms (d : Z) :
  d < 1000 -> formatCellDuration d true = Number_toString d +:+ "ms".
Proof.
  intros Hd. unfold formatCellDuration.
  destruct (Z.ltb_spec d 1000); [reflexivity | lia].
Qed.

Lemma formatCellDuration_long (d : Z) (showMs : bool) :
  showMs = false \/ 1000 <= d -> 0 <= d ->
  formatCellDuration d showMs =
    durationText (d / 60000) ((d / 1000) mod 60) ((d mod 1000) / 100).
Proof.
  intros Hc Hd. unfold formatCellDuration, durationText.
  assert ((showMs && (d <? 1000)) = false) as ->.
  { destruct Hc as [-> | H]; [reflexivity|]. apply andb_false_iff. right. lia. }
  cbv zeta. change (1000 * 60) with 60000.
  assert (0 <= d / 1000) by (apply Z.div_pos; lia).
  assert (0 <= d / 60000) by (apply Z.div_pos; lia).
  rewrite !Z.rem_mod_nonneg by lia.
  destruct (Z.ltb_spec 0 (d / 60000)) as [Hm | Hm].
  - assert ((d / 60000 =? 0) = false) as -> by lia.
    by rewrite !append_assoc.
  - assert (d / 60000 = 0) as -> by lia.
    reflexivity.
Qed.

Lemma duration_parts (d : Z) :
  0 <= d ->
  let m := d / 60000 in
  let s := (d / 1000) mod 60 in
  let t := (d mod 1000) / 100 in
  0 <= m /\ 0 <= s < 60 /\ 0 <= t < 10 /\
  0 <= d - (60000 * m + 1000 * s + 100 * t) < 100.
Proof.
  intros Hd m s t. subst m s t.
  pose proof (Z.div_mod d 1000 ltac:(lia)) as H1.
  pose proof (Z.mod_pos_bound d 1000 ltac:(lia)) as H2.
  pose proof (Z.div_mod (d / 1000) 60 ltac:(lia)) as H3.
  pose proof (Z.mod_pos_bound (d / 1000) 60 ltac:(lia)) as H4.
  pose proof (Z.div_mod (d mod 1000) 100 ltac:(lia)) as H5.
  pose proof (Z.mod_pos_bound (d mod 1000) 100 ltac:(lia)) as H6.
  assert (d / 60000 = d / 1000 / 60) as H7.
  { rewrite Z.div_div by lia. reflexivity. }
  assert (0 <= d / 60000) by (apply Z.div_pos; lia).
  assert (0 <= d mod 1000 / 100 < 10).
  { split; [apply Z.div_pos; lia | apply Z.div_lt_upper_bound; lia]. }
  rewrite H7 in *. lia.
Qed.

(** C4, as amended. The duration is a whole number of milliseconds in the
    safe integer range, where the arithmetic of the source is exact. With
    [showMilliseconds] true, the default, a duration under 1000 ms is
    rendered as its number followed by [ms]. In every other case (the flag
    is false, or the duration is at least 1000 ms) a duration that is not
    negative splits as
    [60000 * minutes + 1000 * seconds + 100 * tenth + rest] with
    [seconds < 60], [tenth < 10] and [rest < 100], the rest is dropped
    (truncation, no rounding), and the text is the minutes followed by [m]
    and a space (left out when the minutes are zero), the seconds, a dot,
    the tenth and [s]. The three examples of the specification hold. *)
Theorem formatCellDuration_spec (d : Z) (showMs : bool) :
  Number_isSafeInteger d ->
  (showMs = true -> d < 1000 ->
     formatCellDuration d showMs = Number_toString d +:+ "ms") /\
  (showMs = false \/ 1000 <= d -> 0 <= d ->
     exists minutes seconds tenth rest,
       d = 60000 * minutes + 1000 * seconds + 100 * tenth + rest /\
       0 <= minutes /\ 0 <= seconds < 60 /\ 0 <= tenth < 10 /\ 0 <= rest < 100 /\
       formatCellDuration d showMs = durationText minutes seconds tenth) /\
  formatCellDuration 50 true = "50ms" /\
  formatCellDuration 1500 false = "1.5s" /\
  formatCellDuration 65250 true = "1m 5.2s".
Proof.
  intros _. split; [| split; [| by vm_compute]].
  - intros -> Hd. by apply formatCellDuration_ms.
  - intros Hc Hd.
    exists (d / 60000), ((d / 1000) mod 60), ((d mod 1000) / 100),
      (d - (60000 * (d / 60000) + 1000 * ((d / 1000) mod 60) + 100 * ((d mod 1000) / 100))).
    pose proof (duration_parts d Hd) as (? & ? & ? & ?).
    repeat split; try lia.
    by apply formatCellDuration_long.
Qed.

Lemma formatCellDuration_spec_witness :
  (formatCellDuration 500 true = Number_toString 500 +:+ "ms") /\
  exists minutes seconds tenth rest,
    65250 = 60000 * minutes + 1000 * seconds + 100 * tenth + rest /\
    0 <= minutes /\ 0 <= seconds < 60 /\ 0 <= tenth < 10 /\ 0 <= rest < 100 /\
    formatCellDuration 65250 false = durationText minutes seconds tenth.
Proof.
  assert (Hsafe : forall d, 0 <= d <= 100000 -> Number_isSafeInteger d).
  { intros d Hd. unfold Number_isSafeInteger, MAX_SAFE_INTEGER. lia. }
  split.
  - apply (proj1 (formatCellDuration_spec 500 true (Hsafe 500 ltac:(lia))));
      [reflexivity | lia].
  - apply (proj1 (proj2 (formatCellDuration_spec 65250 false (Hsafe 65250 ltac:(lia)))));
      [by left | lia].
Defined.

(** C4 as it is stated fails: with [showMilliseconds] false, which is how
    the timer calls the helper, 500 ms is not rendered as [500ms]. *)
Lemma formatCellDuration_under_1000_not_ms :
  formatCellDuration 500 false = "0.5s" /\
  formatCellDuration 500 false <> Number_toString 500 +:+ "ms".
Proof. split; [reflexivity | discriminate]. Qed.


(** ** The items of the two indicators *)

Lemma getItemForState_priority `{Workbench}
    (runState : option INotebookCellExecution)
    (metadata : NotebookCellInternalMetadata) :
  Forall (fun item =>
            priority item = MAX_SAFE_INTEGER /\
            alignment item = CellStatusbarAlignment.Left)
    (_getItemForState runState metadata).
Proof.
  unfold _getItemForState.
  repeat (match goal with |- context [if ?b then _ else _] => destruct b end);
    repeat constructor.
Qed.


(** C9. A timer item has priority [MAX_SAFE_INTEGER - 5], every execution
    state item has priority [MAX_SAFE_INTEGER], which is larger; with the
    higher priority first, the execution state item sorts before the timer
    item. *)
Theorem timer_item_priority_below_state_items `{Workbench}
    (verbose : bool) (startTime endTime : Z) (adjustment : option Z)
    (info : option RuntimeInformation.t)
    (runState : option INotebookCellExecution)
    (metadata : NotebookCellInternalMetadata) :
  let timerItem := _getTimeItem verbose startTime endTime adjustment info in
  priority timerItem = MAX_SAFE_INTEGER - 5 /\
  Forall (fun stateItem =>
            priority stateItem = MAX_SAFE_INTEGER /\
            priority timerItem < priority stateItem /\
            sortsBefore stateItem timerItem = true /\
            sortsBefore timerItem stateItem = false)
    (_getItemForState runState metadata).
Proof.
  split; [reflexivity |].
  eapply Forall_impl; [apply getItemForState_priority |].
  intros item [Hp _]. unfold sortsBefore. rewrite Hp. simpl.
  by vm_compute.
Qed.

(** ** The tooltip of a finished run *)

Lemma fold_left_append {A} (f : A -> string) (l : list A) (acc rest : string) :
  fold_left (fun acc x => acc +:+ f x) l acc +:+ rest =
  acc +:+ fold_right (fun x rest => f x +:+ rest) rest l.
Proof.
  revert acc. induction l as [|x l IH]; intros acc; simpl; [reflexivity |].
  rewrite IH. apply append_assoc.
Qed.

(** The breakdown of the tooltip is one line per renderer, in the order of
    the loop, followed by the footnote. *)
Lemma renderTimes_lines `{Workbench} (info : RuntimeInformation.t) :
  renderTimes info =
  fold_right
    (fun entry rest =>
       renderTimesLine (RuntimeInformation.executionDuration info) entry +:+ rest)
    renderTimesFooter (RuntimeInformation.renderDuration info).
Proof. unfold renderTimes. by rewrite fold_left_append. Qed.

(** C8. In the breakdown of the tooltip of a finished run, the title of a
    renderer is a link to the issue reporter exactly when its render
    duration is over 200 ms with an execution under 2000 ms, or over
    1000 ms; otherwise the title is the label in bold. *)
Theorem renderer_title_issue_link `{Workbench}
    (info : RuntimeInformation.t) :
  let executionDuration := RuntimeInformation.executionDuration info in
  renderTimes info =
    fold_right
      (fun entry rest =>
         "- " +:+ rendererTitle executionDuration entry.1 entry.2 +:+ " "
           +:+ formatCellDuration entry.2 true +:+ newline +:+ rest)
      renderTimesFooter (RuntimeInformation.renderDuration info) /\
  Forall (fun entry =>
            let slow :=
              bool_decide ((200 < entry.2 /\ executionDuration < 2000)
                           \/ 1000 < entry.2) in
            rendererTitle executionDuration entry.1 entry.2 =
              (if slow then
                 "[" +:+ rendererLabel entry.1
                   +:+ "](command:workbench.action.openIssueReporter?"
                   +:+ issueReporterArgs executionDuration entry.1 entry.2 +:+ ")"
               else "**" +:+ rendererLabel entry.1 +:+ "**") /\
            isMarkdownLink (rendererTitle executionDuration entry.1 entry.2) = slow)
    (RuntimeInformation.renderDuration info).
Proof.
  intros executionDuration. split.
  - rewrite renderTimes_lines. fold executionDuration.
    induction (RuntimeInformation.renderDuration info) as [|entry l IH];
      simpl; [reflexivity |].
    rewrite IH. unfold renderTimesLine. by rewrite !append_assoc.
  - apply Forall_forall. intros [key duration] _. simpl.
    unfold rendererTitle, renderIssueLink.
    destruct (Z.ltb_spec 200 duration), (Z.ltb_spec executionDuration 2000),
      (Z.ltb_spec 1000 duration); simpl;
      (rewrite bool_decide_eq_true_2 by lia) || (rewrite bool_decide_eq_false_2 by lia);
      split; reflexivity.
Qed.

(** ** The recomputation of the timer indicator *)

Section TimerRecompute.
Context `{Workbench}.
Import TimerCellStatusBarItem.

Lemma computeTimerItem_paused (s : t) (e : Env) (execution : INotebookCellExecution) :
  cellExecution e = Some execution -> didPause execution = true ->
  computeTimerItem (s, e) = (None, (s, e)).
Proof.
  intros He Hp. unfold computeTimerItem, bind, onEnv, getThis, gets, getCellExecution.
  simpl. rewrite He. simpl. by rewrite Hp.
Qed.

Lemma computeTimerItem_executing (s : t) (e : Env)
    (execution : INotebookCellExecution) (startTime : Z) :
  cellExecution e = Some execution -> didPause execution = false ->
  state execution = NotebookCellExecutionState.Executing ->
  runStartTime (internalMetadata e) = Some startTime ->
  computeTimerItem (s, e) =
    (Some (_getTimeItem (_isVerbose s) startTime (now e)
             (Some (default 0 (runStartTimeAdjustment (internalMetadata e)))) None),
     exec scheduler_schedule (s, e)).
Proof.
  intros He Hp Hs Ht.
  unfold computeTimerItem, bind, onEnv, getThis, gets, getCellExecution, Date_now.
  simpl. rewrite He. simpl. rewrite Hp, Hs, Ht. simpl.
  unfold exec. by destruct (scheduler_schedule (s, e)) as [[] ?].
Qed.

Lemma computeTimerItem_not_started (s : t) (e : Env)
    (execution : INotebookCellExecution) :
  cellExecution e = Some execution ->
  state execution <> NotebookCellExecutionState.Executing
    \/ runStartTime (internalMetadata e) = None ->
  computeTimerItem (s, e) = (None, (s, e)).
Proof.
  intros He Hc.
  unfold computeTimerItem, bind, onEnv, getThis, gets, getCellExecution.
  simpl. rewrite He. simpl.
  destruct (didPause execution); [reflexivity |].
  destruct (state execution), (runStartTime (internalMetadata e));
    try reflexivity; destruct Hc; congruence.
Qed.

Lemma computeTimerItem_finished (s : t) (e : Env) (startTime endTime : Z) :
  cellExecution e = None ->
  runStartTime (internalMetadata e) = Some startTime ->
  runEndTime (internalMetadata e) = Some endTime ->
  computeTimerItem (s, e) =
    (Some (_getTimeItem (_isVerbose s) startTime endTime None
             (Some {| RuntimeInformation.timerDuration :=
                        now e - startTime
                          + default 0 (runStartTimeAdjustment (internalMetadata e));
                      RuntimeInformation.executionDuration := endTime - startTime;
                      RuntimeInformation.renderDuration :=
                        default [] (renderDuration (internalMetadata e)) |})),
     (s, e)).
Proof.
  intros He Hs Ht.
  unfold computeTimerItem, bind, onEnv, getThis, gets, getCellExecution, Date_now.
  simpl. rewrite He. simpl. by rewrite Hs, Ht.
Qed.

Lemma computeTimerItem_idle (s : t) (e : Env) :
  cellExecution e = None ->
  runStartTime (internalMetadata e) = None
    \/ runEndTime (internalMetadata e) = None ->
  computeTimerItem (s, e) = (None, (s, e)).
Proof.
  intros He Hc.
  unfold computeTimerItem, bind, onEnv, getThis, gets, getCellExecution.
  simpl. rewrite He. simpl.
  destruct (runStartTime (internalMetadata e)), (runEndTime (internalMetadata e));
    try reflexivity; destruct Hc; congruence.
Qed.

(** What [this._scheduler.schedule ()] leaves behind: the previous timeout
    of the scheduler is gone and a new one is due [UPDATE_INTERVAL] later. *)
Lemma scheduler_schedule_result (s : t) (e : Env) :
  exec scheduler_schedule (s, e) =
    (set_scheduler (Some (nextTimeout e)) s,
     set_timeouts
       (<[nextTimeout e := (now e + UPDATE_INTERVAL, SchedulerRun)]>
          (match _scheduler s with
           | Some old => delete old (timeouts e)
           | None => timeouts e
           end))
       (S (nextTimeout e)) e).
Proof.
  unfold exec, scheduler_schedule, scheduler_cancel, bind, onEnv, getThis,
    setThis, gets, modify, setTimeout, clearTimeout, ret.
  destruct s as [h ids [old|] d v st dis], e; reflexivity.
Qed.

End TimerRecompute.

(** C5. The recomputation of the timer indicator: nothing for a paused
    cell; for an executing cell with a start time, the item whose text is
    the formatted [now - start + adjustment] (inside the message with the
    time of the last execution when the setting is verbose), with no
    tooltip, and a new run of the scheduler 100 ms later; with no run state
    and both a start and an end time, the item whose text is the formatted
    [end - start] and whose tooltip is the trusted markdown of a finished
    run (last execution, execution time, overhead time, and one line per
    renderer followed by the footnote), and nothing scheduled; nothing in
    every other case. Where no item is
    computed and in the finished case the session and its timeouts are left
    as they were. *)
Theorem timer_recompute_cases `{Workbench}
    (s : TimerCellStatusBarItem.t) (e : Env) :
  let metadata := internalMetadata e in
  let adjustment := default 0 (runStartTimeAdjustment metadata) in
  let verbose := TimerCellStatusBarItem._isVerbose s in
  let result := TimerCellStatusBarItem.computeTimerItem (s, e) in
  let durationItem (lastExecution : string) (duration : Z) (tip : option Tooltip) :=
    {| text :=
         if verbose then
           localize "notebook.cell.statusBar.timerVerbose"
             "Last Execution: {0}, Duration: {1}"
             [lastExecution; formatCellDuration duration false]
         else formatCellDuration duration false;
       color := None;
       tooltip := tip;
       alignment := CellStatusbarAlignment.Left;
       priority := MAX_SAFE_INTEGER - 5 |} in
  match cellExecution e with
  | Some execution =>
      if didPause execution then result = (None, (s, e))
      else
        match state execution, runStartTime metadata with
        | NotebookCellExecutionState.Executing, Some startTime =>
            result.1
              = Some (durationItem (toLocaleTimeString (now e) language)
                        (now e - startTime + adjustment) None) /\
            TimerCellStatusBarItem._scheduler result.2.1 = Some (nextTimeout e) /\
            timeouts result.2.2 !! nextTimeout e
              = Some (now e + 100, SchedulerRun) /\
            pushes result.2.2 = pushes e
        | _, _ => result = (None, (s, e))
        end
  | None =>
      match runStartTime metadata, runEndTime metadata with
      | Some startTime, Some endTime =>
          let lastExecution := toLocaleTimeString endTime language in
          let executionDuration := endTime - startTime in
          let timerDuration := now e - startTime + adjustment in
          result
            = (Some (durationItem lastExecution executionDuration
                 (Some (MarkdownTooltip
                    {| value :=
                         localize "notebook.cell.statusBar.timerTooltip"
                           ("**Last Execution** {0}" +:+ newline +:+ newline
                            +:+ "**Execution Time** {1}" +:+ newline +:+ newline
                            +:+ "**Overhead Time** {2}" +:+ newline +:+ newline
                            +:+ "**Render Times**" +:+ newline +:+ newline +:+ "{3}")
                           [ lastExecution;
                             formatCellDuration executionDuration true;
                             formatCellDuration (timerDuration - executionDuration) true;
                             fold_left
                               (fun lines entry =>
                                  lines +:+
                                  ("- "
                                   +:+ rendererTitle executionDuration entry.1 entry.2
                                   +:+ " " +:+ formatCellDuration entry.2 true
                                   +:+ newline))
                               (default [] (renderDuration metadata)) EmptyString
                             +:+ (newline +:+ "*"
                                  +:+ localize
                                        "notebook.cell.statusBar.timerTooltip.reportIssueFootnote"
                                        "Use the links above to file an issue using the issue reporter."
                                        []
                                  +:+ "*" +:+ newline) ];
                       isTrusted := true |}))),
               (s, e))
      | _, _ => result = (None, (s, e))
      end
  end.
Proof.
  intros metadata adjustment verbose result durationItem. subst result.
  destruct (cellExecution e) as [execution|] eqn:He.
  - destruct (didPause execution) eqn:Hp.
    { by apply computeTimerItem_paused with execution. }
    destruct (state execution) eqn:Hs;
      try (apply computeTimerItem_not_started with execution;
           [done | left; congruence]).
    destruct (runStartTime metadata) as [startTime|] eqn:Ht;
      [| apply computeTimerItem_not_started with execution; [done | by right]].
    rewrite (computeTimerItem_executing s e execution startTime) by done.
    rewrite scheduler_schedule_result. simpl.
    split_and!; try reflexivity.
    by rewrite lookup_insert_eq.
  - destruct (runStartTime metadata) as [startTime|] eqn:Ht;
      [| apply computeTimerItem_idle; [done | by left]].
    destruct (runEndTime metadata) as [endTime|] eqn:Hn;
      [| apply computeTimerItem_idle; [done | by right]].
    rewrite (computeTimerItem_finished s e startTime endTime) by done.
    subst durationItem. unfold _getTimeItem, executionText, timerTooltip. simpl.
    by rewrite Z.add_0_r.
Qed.

(** C10. For a finished run the text of the timer item is
    [formatCellDuration (runEndTime - runStartTime, false)], by itself or,
    when the setting is verbose, as the duration of the message with the
    time of the last execution; the adjustment of the start time is not
    added, and enters the item only through the overhead of the tooltip,
    [now - runStartTime + adjustment] minus the execution duration. For an
    executing cell the text is
    [formatCellDuration (now - runStartTime + adjustment, false)] in the
    same way. *)
Theorem timer_text_and_adjustment `{Workbench}
    (s : TimerCellStatusBarItem.t) (e : Env) :
  let metadata := internalMetadata e in
  let adjustment := default 0 (runStartTimeAdjustment metadata) in
  let verbose := TimerCellStatusBarItem._isVerbose s in
  let result := TimerCellStatusBarItem.computeTimerItem (s, e) in
  let displayed (lastExecution : string) (duration : Z) :=
    if verbose then
      localize "notebook.cell.statusBar.timerVerbose"
        "Last Execution: {0}, Duration: {1}"
        [lastExecution; formatCellDuration duration false]
    else formatCellDuration duration false in
  match cellExecution e, runStartTime metadata, runEndTime metadata with
  | None, Some startTime, Some endTime =>
      let lastExecution := toLocaleTimeString endTime language in
      result.1 = Some
        {| text := displayed lastExecution (endTime - startTime);
           color := None;
           tooltip := Some (MarkdownTooltip
             {| value :=
                  localize "notebook.cell.statusBar.timerTooltip"
                    ("**Last Execution** {0}" +:+ newline +:+ newline
                     +:+ "**Execution Time** {1}" +:+ newline +:+ newline
                     +:+ "**Overhead Time** {2}" +:+ newline +:+ newline
                     +:+ "**Render Times**" +:+ newline +:+ newline +:+ "{3}")
                    [ lastExecution;
                      formatCellDuration (endTime - startTime) true;
                      formatCellDuration
                        (now e - startTime + adjustment - (endTime - startTime)) true;
                      renderTimes
                        {| RuntimeInformation.renderDuration :=
                             default [] (renderDuration metadata);
                           RuntimeInformation.executionDuration := endTime - startTime;
                           RuntimeInformation.timerDuration :=
                             now e - startTime + adjustment |} ];
                isTrusted := true |});
           alignment := CellStatusbarAlignment.Left;
           priority := MAX_SAFE_INTEGER - 5 |}
  | Some execution, Some startTime, _ =>
      if didPause execution then result.1 = None
      else
        match state execution with
        | NotebookCellExecutionState.Executing =>
            exists item,
              result.1 = Some item /\
              text item =
                displayed (toLocaleTimeString (now e) language)
                  (now e - startTime + adjustment)
        | _ => result.1 = None
        end
  | _, _, _ => result.1 = None
  end.
Proof.
  intros metadata adjustment verbose result displayed. subst result.
  destruct (cellExecution e) as [execution|] eqn:He.
  - destruct (runStartTime metadata) as [startTime|] eqn:Ht.
    + destruct (didPause execution) eqn:Hp.
      { by rewrite (computeTimerItem_paused s e execution). }
      destruct (state execution) eqn:Hs;
        try (rewrite (computeTimerItem_not_started s e execution);
             [done | done | left; congruence]).
      rewrite (computeTimerItem_executing s e execution startTime) by done.
      eexists. split; reflexivity.
    + destruct (didPause execution) eqn:Hp.
      { by rewrite (computeTimerItem_paused s e execution). }
      rewrite (computeTimerItem_not_started s e execution); [done | done | by right].
  - destruct (runStartTime metadata) as [startTime|] eqn:Ht;
      [| rewrite computeTimerItem_idle; [done | done | by left]].
    destruct (runEndTime metadata) as [endTime|] eqn:Hn;
      [| rewrite computeTimerItem_idle; [done | done | by right]].
    rewrite (computeTimerItem_finished s e startTime endTime) by done.
    subst displayed. unfold _getTimeItem, executionText, timerTooltip. simpl.
    by rewrite Z.add_0_r.
Qed.

(** ** The controller: sessions in lockstep with visibility *)

#[local] Set Warnings "-clear-no-such-hyp".

Section Lockstep.
Import NotebookStatusBarController.

Lemma removeCell_inv (h : Z) (s : t * Editor) :
  sessionsOfMap s →
  sessionsOfMap (exec (removeCell h) s) ∧
  dom (_visibleCells (exec (removeCell h) s).1) = dom (_visibleCells s.1) ∖ {[h]} ∧
  hasViewModel (exec (removeCell h) s).2 = hasViewModel s.2.
Proof.
  destruct s as [[cells dis] [vm lv nx]]. intros [HA HB]. simpl in *.
  unfold exec, removeCell, bind, gets, disposeSession, setVisibleCells, modify, ret.
  simpl. destruct (cells !! h) as [sid|] eqn:Hh; simpl.
  - split_and!; [split | |]; simpl.
    + intros sid' h'. rewrite lookup_delete_Some, lookup_delete_Some, HA.
      split; intros [Hne Hl]; split; try done.
      * intros ->. congruence.
      * intros ->. apply HA in Hl. apply HA in Hh. congruence.
    + intros sid' h'. rewrite lookup_delete_Some. intros [_ Hl]. by eapply HB.
    + by rewrite dom_delete_L.
    + done.
  - split_and!; [split | |]; simpl.
    + intros sid' h'. rewrite lookup_delete_Some, HA.
      split; [intros Hl; split; [congruence | done] | by intros [_ ?]].
    + done.
    + by rewrite dom_delete_L.
    + done.
Qed.

Lemma addCell_inv (h : Z) (s : t * Editor) :
  sessionsOfMap s → h ∉ dom (_visibleCells s.1) →
  sessionsOfMap (exec (addCell h) s) ∧
  dom (_visibleCells (exec (addCell h) s).1) = dom (_visibleCells s.1) ∪ {[h]} ∧
  hasViewModel (exec (addCell h) s).2 = hasViewModel s.2.
Proof.
  destruct s as [[cells dis] [vm lv nx]]. intros [HA HB] Hh. simpl in *.
  apply not_elem_of_dom in Hh.
  unfold exec, addCell, bind, gets, _itemFactory, setVisibleCells, modify, ret.
  simpl. split_and!; [split | |]; simpl.
  - intros sid' h'. rewrite !lookup_insert_Some, HA.
    split; intros [[-> ->] | [Hne Hl]]; auto.
    + right. split; [congruence | done].
    + right. split; [| done]. intros ->. apply HA in Hl. apply HB in Hl. lia.
  - intros sid' h'. rewrite lookup_insert_Some.
    intros [[<- _] | [_ Hl]]; [lia |]. apply HB in Hl. lia.
  - rewrite dom_insert_L. set_solver.
  - done.
Qed.

Lemma removeCells_inv (l : list Z) (s : t * Editor) :
  sessionsOfMap s →
  sessionsOfMap (exec (forEach l removeCell) s) ∧
  dom (_visibleCells (exec (forEach l removeCell) s).1)
    = dom (_visibleCells s.1) ∖ list_to_set l ∧
  hasViewModel (exec (forEach l removeCell) s).2 = hasViewModel s.2.
Proof.
  revert s. induction l as [|h l IH]; intros s Hs; simpl.
  - split_and!; [done | set_solver | done].
  - destruct (removeCell_inv h s Hs) as (H1 & H2 & H3).
    destruct (IH _ H1) as (H4 & H5 & H6).
    unfold exec, bind in *. destruct (removeCell h s) as [[] s1]. simpl in *.
    split_and!; [done | | congruence]. rewrite H5, H2. set_solver.
Qed.

Lemma addCells_inv (l : list Z) (s : t * Editor) :
  sessionsOfMap s → NoDup l → (∀ h, h ∈ l → h ∉ dom (_visibleCells s.1)) →
  sessionsOfMap (exec (forEach l addCell) s) ∧
  dom (_visibleCells (exec (forEach l addCell) s).1)
    = dom (_visibleCells s.1) ∪ list_to_set l ∧
  hasViewModel (exec (forEach l addCell) s).2 = hasViewModel s.2.
Proof.
  revert s. induction l as [|h l IH]; intros s Hs Hnd Hfresh; simpl.
  - split_and!; [done | set_solver | done].
  - apply NoDup_cons in Hnd as [Hh Hnd].
    destruct (addCell_inv h s Hs) as (H1 & H2 & H3).
    { apply Hfresh. by left. }
    destruct (IH (exec (addCell h) s) H1 Hnd) as (H4 & H5 & H6).
    { intros h' Hin. rewrite H2. specialize (Hfresh h' ltac:(by right)).
      set_solver. }
    unfold exec, bind in *. destruct (addCell h s) as [[] s1]. simpl in *.
    split_and!; [done | | congruence]. rewrite H5, H2. set_solver.
Qed.

Lemma updateVisibleCells_eq (e : ICellVisibilityChangeEvent) (s : t * Editor) :
  hasViewModel s.2 = true →
  exec (_updateVisibleCells e) s
    = exec (forEach (added e) addCell) (exec (forEach (removed e) removeCell) s).
Proof.
  intros Hvm. unfold exec, _updateVisibleCells, bind, gets. simpl. rewrite Hvm. simpl.
  by destruct (forEach (removed e) removeCell s) as [[] s1].
Qed.

Lemma updateVisibleCells_lockstep (V : gset Z) (e : ICellVisibilityChangeEvent)
    (s : t * Editor) :
  hasViewModel s.2 = true → sessionsOfMap s → dom (_visibleCells s.1) = V →
  deltaOf V e →
  let s' := exec (_updateVisibleCells e) s in
  hasViewModel s'.2 = true ∧ sessionsOfMap s' ∧
  dom (_visibleCells s'.1) = applyDelta V e.
Proof.
  intros Hvm Hs Hdom [Hnd Hnew] s'. subst s'.
  rewrite updateVisibleCells_eq by done.
  destruct (removeCells_inv (removed e) s Hs) as (H1 & H2 & H3).
  destruct (addCells_inv (added e) _ H1 Hnd) as (H4 & H5 & H6).
  { intros h Hin. rewrite H2, Hdom. specialize (Hnew h Hin). set_solver. }
  split_and!; [congruence | done |]. rewrite H5, H2, Hdom. done.
Qed.

Lemma removeCell_isDisposed (h : Z) (s : t * Editor) :
  _isDisposed (exec (removeCell h) s).1 = _isDisposed s.1 ∧
  nextSession (exec (removeCell h) s).2 = nextSession s.2.
Proof.
  unfold exec, removeCell, bind, gets, disposeSession, setVisibleCells, modify, ret.
  simpl. by destruct (_visibleCells s.1 !! h).
Qed.

Lemma removeCells_isDisposed (l : list Z) (s : t * Editor) :
  _isDisposed (exec (forEach l removeCell) s).1 = _isDisposed s.1 ∧
  nextSession (exec (forEach l removeCell) s).2 = nextSession s.2.
Proof.
  revert s. induction l as [|h l IH]; intros s; [done |].
  destruct (removeCell_isDisposed h s) as [H1 H2].
  destruct (IH (exec (removeCell h) s)) as [H3 H4].
  simpl. unfold exec, bind in *. destruct (removeCell h s) as [[] s1]. simpl in *.
  split; congruence.
Qed.

Lemma addCells_isDisposed (l : list Z) (s : t * Editor) :
  _isDisposed (exec (forEach l addCell) s).1 = _isDisposed s.1 ∧
  (nextSession s.2 ≤ nextSession (exec (forEach l addCell) s).2)%nat.
Proof.
  revert s. induction l as [|h l IH]; intros s; [done |].
  destruct (IH (exec (addCell h) s)) as [H3 H4].
  simpl. unfold exec, bind in *. destruct (addCell h s) as [[] s1] eqn:Hs1.
  simpl in *. unfold addCell, bind, gets, _itemFactory, setVisibleCells, modify in Hs1.
  simpl in Hs1. injection Hs1 as <-. simpl in *. split; [done | lia].
Qed.

Lemma updateVisibleCells_isDisposed (e : ICellVisibilityChangeEvent) (s : t * Editor) :
  _isDisposed (exec (_updateVisibleCells e) s).1 = _isDisposed s.1.
Proof.
  destruct (hasViewModel s.2) eqn:Hvm.
  - rewrite updateVisibleCells_eq by done.
    destruct (addCells_isDisposed (added e) (exec (forEach (removed e) removeCell) s))
      as [-> _].
    by destruct (removeCells_isDisposed (removed e) s) as [-> _].
  - unfold exec, _updateVisibleCells, bind, gets. simpl. by rewrite Hvm.
Qed.

(** While the listener is registered a delta runs [_updateVisibleCells];
    after the disposal of the controller it runs nothing. *)
Lemma notify_eq (e : ICellVisibilityChangeEvent) (s : t * Editor) :
  exec (notify e) s
    = if _isDisposed s.1 then s else exec (_updateVisibleCells e) s.
Proof.
  unfold notify, exec, bind, gets. simpl. by destruct (_isDisposed s.1).
Qed.

Lemma run_lockstep (V : gset Z) (es : list ICellVisibilityChangeEvent)
    (s : t * Editor) :
  _isDisposed s.1 = false →
  hasViewModel s.2 = true → sessionsOfMap s → dom (_visibleCells s.1) = V →
  deltasOf V es →
  lockstep (visibleAfter V es) (run es s) ∧
  _isDisposed (run es s).1 = false ∧ hasViewModel (run es s).2 = true ∧
  sessionsOfMap (run es s).
Proof.
  revert V s. induction es as [|e es IH]; intros V s Hd Hvm Hs Hdom Hes; simpl.
  - split_and!; try done. split; [done | apply Hs].
  - destruct Hes as [He Hes].
    destruct (updateVisibleCells_lockstep V e s Hvm Hs Hdom He) as (H1 & H2 & H3).
    rewrite notify_eq, Hd. apply IH; try done.
    by rewrite updateVisibleCells_isDisposed.
Qed.

Lemma deltasOf_take (V : gset Z) (es : list ICellVisibilityChangeEvent) (k : nat) :
  deltasOf V es → deltasOf V (take k es).
Proof.
  revert V k. induction es as [|e es IH]; intros V [|k]; simpl; try done.
  intros [He Hes]. split; [done | by apply IH].
Qed.

Lemma new_eq (visibleCells : list Z) (ed : Editor) :
  new visibleCells ed
    = exec (_updateVisibleCells {| added := visibleCells; removed := [] |})
        ({| _visibleCells := ∅; _isDisposed := false |}, ed).
Proof.
  unfold new, _updateEverything, disposeAll, exec, bind, gets, setVisibleCells, modify.
  simpl. rewrite map_to_list_empty. reflexivity.
Qed.

Lemma new_lockstep (visibleCells : list Z) :
  NoDup visibleCells →
  let s := new visibleCells editorWithViewModel in
  hasViewModel s.2 = true ∧ sessionsOfMap s ∧
  dom (_visibleCells s.1) = list_to_set visibleCells.
Proof.
  intros Hnd s. subst s. rewrite new_eq.
  set (s0 := ({| _visibleCells := ∅; _isDisposed := false |}, editorWithViewModel)).
  assert (Hs0 : sessionsOfMap s0).
  { split; intros sid h; simpl; rewrite ?lookup_empty; done. }
  destruct (updateVisibleCells_lockstep ∅ {| added := visibleCells; removed := [] |}
              s0 eq_refl Hs0) as (H1 & H2 & H3).
  { simpl. apply dom_empty_L. }
  { split; [done | set_solver]. }
  split_and!; [done | done |]. rewrite H3. unfold applyDelta. simpl. set_solver.
Qed.

Lemma new_isDisposed (visibleCells : list Z) (ed : Editor) :
  _isDisposed (new visibleCells ed).1 = false.
Proof. rewrite new_eq. by rewrite updateVisibleCells_isDisposed. Qed.

(** C6 as it is stated fails: a delta that arrives while the editor has no
    view model is dropped by the guard of line 63, so the session of a cell
    that left the visible set stays alive and stays in the map. *)
Lemma removal_without_view_model_keeps_session :
  let s1 := new [1] editorWithViewModel in
  let detached :=
    {| hasViewModel := false; live := live s1.2; nextSession := nextSession s1.2 |} in
  let e := {| added := []; removed := [1] |} in
  let s2 := exec (_updateVisibleCells e) (s1.1, detached) in
  lockstep {[1]} s1 ∧
  _visibleCells s2.1 !! 1 = Some 0%nat ∧
  (live s2.2) !! 0%nat = Some 1%Z ∧
  (1 ∉ applyDelta {[1]} e) ∧
  ¬ lockstep (applyDelta {[1]} e) s2.
Proof.
  intros s1 detached e s2.
  assert (Hcell : _visibleCells s2.1 !! 1 = Some 0%nat) by by vm_compute.
  assert (Hout : 1 ∉ (applyDelta {[1]} e)) by (unfold applyDelta; set_solver).
  split_and!; try done.
  - destruct (new_lockstep [1]) as (_ & [HA _] & Hdom); [apply NoDup_singleton |].
    split; [| done]. subst s1. rewrite Hdom. set_solver.
  - intros [Hdom _]. apply Hout. rewrite <- Hdom. apply elem_of_dom. by eexists.
Qed.

End Lockstep.

(** ** The status bar of the view model *)

Lemma omap_ext_in {A B} (f g : A → option B) (l : list A) :
  (∀ x, x ∈ l → f x = g x) → omap f l = omap g l.
Proof.
  induction l as [|x l IH]; intros Hfg; [reflexivity |].
  assert (omap f l = omap g l) as Hl.
  { apply IH. intros y Hy. apply Hfg. by right. }
  assert (f x = g x) as Hx by (apply Hfg; by left).
  cbn. rewrite Hx. fold (omap f l) (omap g l). by rewrite Hl.
Qed.

Lemma dom_foldr_delete {V} (m : gmap nat V) (l : list nat) :
  dom (foldr delete m l) = dom m ∖ list_to_set l.
Proof.
  induction l as [|x l IH]; simpl; [set_solver |].
  rewrite dom_delete_L, IH. set_solver.
Qed.

Lemma foldr_delete_empty_dom {V} (m : gmap nat V) (l : list nat) :
  dom m ⊆ list_to_set l → foldr delete m l = ∅.
Proof.
  intros Hsub. apply dom_empty_iff_L. rewrite dom_foldr_delete. set_solver.
Qed.

Section StatusBar.
Context (handle : Z).

Lemma dom_attach entries m :
  dom (attach handle entries m) = list_to_set entries.*1 ∪ dom m.
Proof.
  induction entries as [|[i x] entries IH]; simpl; [set_solver |].
  rewrite dom_insert_L, IH. set_solver.
Qed.

Lemma attach_lookup_seq (items : list INotebookCellStatusBarItem) (n : nat) m :
  omap (fun i => snd <$> attach handle (zip (seq n (length items)) items) m !! i)
    (seq n (length items)) = items.
Proof.
  revert n. induction items as [|x items IH]; intros n; simpl; [reflexivity |].
  rewrite lookup_insert_eq. simpl. f_equal.
  rewrite <- (IH (S n)) at 2. apply omap_ext_in.
  intros i Hi. apply elem_of_seq in Hi. rewrite lookup_insert_ne by lia. reflexivity.
Qed.

End StatusBar.

Lemma delta_result (old : list nat) (handle : Z)
    (items : list INotebookCellStatusBarItem) (e : Env) :
  let r := deltaCellStatusBarItems old handle items e in
  r.1 = seq (nextItemId e) (length items) ∧
  pushes r.2 = (handle, items) :: pushes e ∧
  timeouts r.2 = timeouts e ∧ nextTimeout r.2 = nextTimeout e ∧
  now r.2 = now e ∧ cellExecution r.2 = cellExecution e ∧
  internalMetadata r.2 = internalMetadata e ∧
  cellExecutionTimeVerbosity r.2 = cellExecutionTimeVerbosity e ∧
  dom (statusBarItems r.2)
    = (dom (statusBarItems e) ∖ list_to_set old) ∪ list_to_set r.1 ∧
  attachedItems r.1 r.2 = items.
Proof.
  simpl. split_and!; try reflexivity.
  - rewrite dom_attach, dom_foldr_delete, fst_zip; [set_solver |].
    by rewrite length_seq.
  - unfold attachedItems. simpl. apply (attach_lookup_seq handle).
Qed.

(** ** The execution state indicator *)

Section ExecutionState.
Context `{Workbench}.
Import ExecutionStateCellStatusBarItem.

Ltac unfold_state :=
  unfold _update, _getItemsForCell, setTimerValue, clearTimer, timerValue,
    bind, ret, gets, modify, when, onEnv, getThis, setThis, getCellExecution,
    Date_now, setTimeout, clearTimeout, exec in *.

(** The cell is executing and no display start is recorded: it is recorded
    and the items of the state are returned. *)
Lemma getItemsForCell_start (s : t) (e : Env) :
  isExecuting (cellExecution e) = true → _showedExecutingStateTime s = None →
  _getItemsForCell (s, e)
    = (Some (_getItemForState (cellExecution e) (internalMetadata e)),
       (set_showedExecutingStateTime (Some (now e)) s, e)).
Proof. intros He Hs. unfold_state. simpl. by rewrite He, Hs. Qed.

(** Neither branch of the minimum time applies. *)
Lemma getItemsForCell_plain (s : t) (e : Env) :
  isExecuting (cellExecution e) = bool_decide (is_Some (_showedExecutingStateTime s)) →
  _getItemsForCell (s, e)
    = (Some (_getItemForState (cellExecution e) (internalMetadata e)), (s, e)).
Proof.
  intros He. unfold_state. simpl. rewrite He.
  by destruct (bool_decide (is_Some (_showedExecutingStateTime s))).
Qed.

(** The spinner is held and a timer is pending: nothing changes. *)
Lemma getItemsForCell_hold_pending (s : t) (e : Env) (showed : Z) (id : nat) :
  isExecuting (cellExecution e) = false →
  _showedExecutingStateTime s = Some showed →
  now e - showed < MIN_SPINNER_TIME →
  _clearExecutingStateTimer s = {| _value := Some id; _mutableIsDisposed := false |} →
  _getItemsForCell (s, e) = (None, (s, e)).
Proof.
  intros He Hs Hlt Ht. unfold_state. simpl. rewrite He, Hs. simpl.
  destruct (Z.ltb_spec 0 (MIN_SPINNER_TIME - (now e - showed))); [| lia].
  simpl. by rewrite Ht.
Qed.

(** The spinner is held and no timer is pending: one is set for the
    remaining time. *)
Lemma getItemsForCell_hold_schedule (s : t) (e : Env) (showed : Z) :
  isExecuting (cellExecution e) = false →
  _showedExecutingStateTime s = Some showed →
  now e - showed < MIN_SPINNER_TIME →
  _clearExecutingStateTimer s = {| _value := None; _mutableIsDisposed := false |} →
  _getItemsForCell (s, e)
    = (None,
       (set_clearExecutingStateTimer
          {| _value := Some (nextTimeout e); _mutableIsDisposed := false |} s,
        set_timeouts
          (<[nextTimeout e :=
               (now e + (MIN_SPINNER_TIME - (now e - showed)), ClearExecutingState)]>
             (timeouts e))
          (S (nextTimeout e)) e)).
Proof.
  intros He Hs Hlt Ht. unfold_state. simpl. rewrite He, Hs. simpl.
  destruct (Z.ltb_spec 0 (MIN_SPINNER_TIME - (now e - showed))); [| lia].
  simpl. rewrite Ht. simpl. by rewrite Ht.
Qed.

(** The minimum time has passed: the display start is cleared and the items
    of the state are returned; no timer is set. *)
Lemma getItemsForCell_expired (s : t) (e : Env) (showed : Z) :
  isExecuting (cellExecution e) = false →
  _showedExecutingStateTime s = Some showed →
  MIN_SPINNER_TIME <= now e - showed →
  _getItemsForCell (s, e)
    = (Some (_getItemForState (cellExecution e) (internalMetadata e)),
       (set_showedExecutingStateTime None s, e)).
Proof.
  intros He Hs Hge. unfold_state. simpl. rewrite He, Hs. simpl.
  destruct (Z.ltb_spec 0 (MIN_SPINNER_TIME - (now e - showed))); [lia | reflexivity].
Qed.

(** [_update] after [_getItemsForCell]. *)
Lemma update_result (s : t) (e : Env) :
  exec _update (s, e) =
    match _getItemsForCell (s, e) with
    | (Some items, (s', e')) =>
        let r := deltaCellStatusBarItems (_currentItemIds s') (_handle s') items e' in
        (set_currentItemIds r.1 s', r.2)
    | (None, w) => w
    end.
Proof.
  unfold _update, bind, exec.
  destruct (_getItemsForCell (s, e)) as [[items|] [s' e']]; reflexivity.
Qed.

(** While the spinner is held with its timer pending, an event changes
    the clock, the run state, the metadata or the configuration, and nothing
    of the session, the status bar or the timeouts. *)
Lemma hold_step (showed : Z) (id : nat) (s : t) (e : Env) (ev : Event) :
  _showedExecutingStateTime s = Some showed →
  _clearExecutingStateTimer s = {| _value := Some id; _mutableIsDisposed := false |} →
  _isDisposed s = false →
  (∀ id' pending, timeouts e !! id' = Some pending →
     pending = (showed + MIN_SPINNER_TIME, ClearExecutingState)) →
  isExecuting (cellExecution e) = false → now e < showed + MIN_SPINNER_TIME →
  holdEvent (showed + MIN_SPINNER_TIME) ev = true →
  ∃ e', exec (step ev) (s, e) = (s, e') ∧
    statusBarItems e' = statusBarItems e ∧ pushes e' = pushes e ∧
    timeouts e' = timeouts e ∧ nextTimeout e' = nextTimeout e ∧
    nextItemId e' = nextItemId e ∧
    isExecuting (cellExecution e') = false ∧
    now e' < showed + MIN_SPINNER_TIME ∧ now e <= now e'.
Proof.
  intros Hs Ht Hd Hto He Hnow Hev.
  assert (Hup : ∀ e1, isExecuting (cellExecution e1) = false →
                 now e1 < showed + MIN_SPINNER_TIME →
                 exec notify (s, e1) = (s, e1)).
  { intros e1 He1 Hn1. unfold notify, bind, getThis, gets, exec. simpl. rewrite Hd.
    fold (exec _update (s, e1)). rewrite update_result.
    rewrite (getItemsForCell_hold_pending s e1 showed id); [done | done | done | lia | done]. }
  destruct ev as [t' | id' | runState | metadata | verbosity |]; simpl in Hev.
  - exists (set_now (Z.max (now e) t') e). simpl.
    split_and!; try done; lia.
  - exists e. split_and!; try done; try lia.
    unfold step, fireTimeout, bind, onEnv, gets, Date_now, exec. simpl.
    destruct (timeouts e !! id') as [[due h]|] eqn:Hl; [| done].
    apply Hto in Hl. injection Hl as -> ->.
    destruct (Z.leb_spec (showed + MIN_SPINNER_TIME) (now e)); [lia | done].
  - exists (set_cellExecution runState e).
    assert (isExecuting runState = false) as Hr by by destruct (isExecuting runState).
    split_and!; try done; try (simpl; lia).
    unfold step, bind, onEnv, modify, exec. simpl.
    fold (exec notify (s, set_cellExecution runState e)). by apply Hup.
  - exists (set_internalMetadata metadata e).
    split_and!; try done; try (simpl; lia).
    unfold step, bind, onEnv, modify, exec. simpl.
    fold (exec notify (s, set_internalMetadata metadata e)). by apply Hup.
  - exists (set_cellExecutionTimeVerbosity verbosity e).
    split_and!; try done; simpl; lia.
  - done.
Qed.

Lemma hold_run (showed : Z) (id : nat) (s : t) (evs : list Event) (e : Env) :
  _showedExecutingStateTime s = Some showed →
  _clearExecutingStateTimer s = {| _value := Some id; _mutableIsDisposed := false |} →
  _isDisposed s = false →
  (∀ id' pending, timeouts e !! id' = Some pending →
     pending = (showed + MIN_SPINNER_TIME, ClearExecutingState)) →
  isExecuting (cellExecution e) = false → now e < showed + MIN_SPINNER_TIME →
  forallb (holdEvent (showed + MIN_SPINNER_TIME)) evs = true →
  ∃ e', run evs (s, e) = (s, e') ∧
    statusBarItems e' = statusBarItems e ∧ pushes e' = pushes e ∧
    timeouts e' = timeouts e ∧ nextTimeout e' = nextTimeout e ∧
    nextItemId e' = nextItemId e ∧
    isExecuting (cellExecution e') = false ∧
    now e' < showed + MIN_SPINNER_TIME ∧ now e <= now e'.
Proof.
  intros Hs Ht Hd. revert e.
  induction evs as [|ev evs IH]; intros e Hto He Hnow Hevs.
  - exists e. split_and!; try done; lia.
  - simpl in Hevs. apply andb_true_iff in Hevs as [Hev Hevs].
    destruct (hold_step showed id s e ev Hs Ht Hd Hto He Hnow Hev)
      as (e1 & Hstep & H1 & H2 & H3 & H4 & H5 & H6 & H7 & H8).
    destruct (IH e1) as (e2 & Hrun & G1 & G2 & G3 & G4 & G5 & G6 & G7 & G8);
      [by rewrite H3 | done | done | done |].
    exists e2. simpl. rewrite Hstep.
    split_and!; try done; try congruence; lia.
Qed.

End ExecutionState.

Section SpinnerScenario.
Context `{Workbench}.
Import ExecutionStateCellStatusBarItem.

Lemma step_notify (s : t) (e : Env) :
  exec notify (s, e) = if _isDisposed s then (s, e) else exec _update (s, e).
Proof.
  unfold notify, bind, getThis, gets, exec. simpl. by destruct (_isDisposed s).
Qed.

Lemma step_execution (s : t) (e : Env) (runState : option INotebookCellExecution) :
  exec (step (DidChangeExecution runState)) (s, e)
    = exec notify (s, set_cellExecution runState e).
Proof. reflexivity. Qed.

Lemma step_metadata (s : t) (e : Env) (metadata : NotebookCellInternalMetadata) :
  exec (step (DidChangeInternalMetadata metadata)) (s, e)
    = exec notify (s, set_internalMetadata metadata e).
Proof. reflexivity. Qed.

Lemma run_cons (ev : Event) (evs : list Event) (w : t * Env) :
  run (ev :: evs) w = run evs (exec (step ev) w).
Proof. reflexivity. Qed.

Lemma new_executing (handle : Z) (paused : bool)
    (metadata : NotebookCellInternalMetadata) (t0 : Z) :
  let execution :=
    {| state := NotebookCellExecutionState.Executing; didPause := paused |} in
  let spinner := _getItemForState (Some execution) metadata in
  new handle (initialEnv t0 (Some execution) metadata)
    = ({| _handle := handle; _currentItemIds := [0%nat];
          _showedExecutingStateTime := Some t0;
          _clearExecutingStateTimer := {| _value := None; _mutableIsDisposed := false |};
          _isDisposed := false |},
       {| now := t0; cellExecution := Some execution; internalMetadata := metadata;
          cellExecutionTimeVerbosity := "default";
          statusBarItems := attach handle (zip [0%nat] spinner) ∅;
          nextItemId := 1; pushes := [(handle, spinner)];
          timeouts := ∅; nextTimeout := 0 |}).
Proof.
  intros execution spinner. unfold new. rewrite update_result.
  rewrite getItemsForCell_start by done.
  reflexivity.
Qed.

(** The timeout of the minimum time fires: the display start and the timer
    are cleared, then [_update] runs. *)
Lemma fire_clearExecutingState (s : t) (e : Env) (id : nat) (due : Z) :
  timeouts e !! id = Some (due, ClearExecutingState) → due <= now e →
  _clearExecutingStateTimer s = {| _value := Some id; _mutableIsDisposed := false |} →
  exec (step (Timeout id)) (s, e)
    = exec _update
        (set_clearExecutingStateTimer {| _value := None; _mutableIsDisposed := false |}
           (set_showedExecutingStateTime None s),
         set_timeouts (delete id (timeouts e)) (nextTimeout e) e).
Proof.
  intros Hl Hdue Ht.
  unfold step, fireTimeout, handler, clearTimer, bind, onEnv, getThis, setThis, gets,
    modify, Date_now, clearTimeout, exec.
  simpl. rewrite Hl. destruct (Z.leb_spec due (now e)); [| lia].
  simpl. rewrite Ht. simpl.
  replace (delete id (delete id (timeouts e))) with (delete id (timeouts e)); [done |].
  apply map_eq. intros i. destruct (decide (i = id)) as [->|Hne].
  - by rewrite !lookup_delete_eq.
  - by rewrite !lookup_delete_ne.
Qed.

Lemma spinner_scenario (handle : Z) (paused : bool)
    (metadata : NotebookCellInternalMetadata) (t0 t1 t2 : Z)
    (runState : option INotebookCellExecution) (evs : list Event) :
  t0 <= t1 → t1 < t0 + MIN_SPINNER_TIME → isExecuting runState = false →
  forallb (holdEvent (t0 + MIN_SPINNER_TIME)) evs = true →
  t0 + MIN_SPINNER_TIME <= t2 →
  let execution :=
    {| state := NotebookCellExecutionState.Executing; didPause := paused |} in
  let spinner := _getItemForState (Some execution) metadata in
  let w0 := new handle (initialEnv t0 (Some execution) metadata) in
  let w1 := run (Tick t1 :: DidChangeExecution runState :: evs) w0 in
  let w2 := run [Tick t2; Timeout 0] w1 in
  let items := _getItemForState (cellExecution w1.2) (internalMetadata w1.2) in
  (pushes w0.2 = [(handle, spinner)] ∧
   attachedItems (_currentItemIds w0.1) w0.2 = spinner) ∧
  (pushes w1.2 = [(handle, spinner)] ∧
   statusBarItems w1.2 = statusBarItems w0.2 ∧
   _currentItemIds w1.1 = _currentItemIds w0.1 ∧
   timeouts w1.2 = {[ 0%nat := (t0 + MIN_SPINNER_TIME, ClearExecutingState) ]} ∧
   now w1.2 < t0 + MIN_SPINNER_TIME) ∧
  (pushes w2.2 = [(handle, items); (handle, spinner)] ∧
   attachedItems (_currentItemIds w2.1) w2.2 = items ∧
   dom (statusBarItems w2.2) = list_to_set (_currentItemIds w2.1) ∧
   _showedExecutingStateTime w2.1 = None ∧
   timeouts w2.2 = ∅).
Proof.
  intros Ht1 Ht1' Hrs Hevs Ht2 execution spinner w0 w1 w2 items.
  subst w2 items w1 w0 spinner execution. rewrite new_executing.
  set (execution :=
    {| state := NotebookCellExecutionState.Executing; didPause := paused |}).
  set (spinner := _getItemForState (Some execution) metadata).
  set (s0 := {| _handle := handle; _currentItemIds := [0%nat];
                _showedExecutingStateTime := Some t0;
                _clearExecutingStateTimer :=
                  {| _value := None; _mutableIsDisposed := false |};
                _isDisposed := false |}).
  set (e0 := {| now := t0; cellExecution := Some execution;
                internalMetadata := metadata;
                cellExecutionTimeVerbosity := "default";
                statusBarItems := attach handle (zip [0%nat] spinner) ∅;
                nextItemId := 1; pushes := [(handle, spinner)];
                timeouts := ∅; nextTimeout := 0 |}).
  split.
  { split; [done |]. by destruct paused. }
  (* the execution ends at [t1] *)
  set (e1 := set_cellExecution runState (set_now (Z.max t0 t1) e0)).
  set (s1 := set_clearExecutingStateTimer
               {| _value := Some 0%nat; _mutableIsDisposed := false |} s0).
  assert (Hstart :
    run (Tick t1 :: DidChangeExecution runState :: evs) (s0, e0)
      = run evs (s1,
          set_timeouts {[ 0%nat := (t0 + MIN_SPINNER_TIME, ClearExecutingState) ]} 1 e1)).
  { rewrite !run_cons. f_equal.
    change (exec (step (Tick t1)) (s0, e0)) with (s0, set_now (Z.max t0 t1) e0).
    rewrite step_execution, step_notify. fold e1.
    change (_isDisposed s0) with false. cbv iota.
    rewrite update_result.
    rewrite (getItemsForCell_hold_schedule s0 e1 t0);
      [| done | done | simpl; lia | done].
    f_equal. unfold set_timeouts. simpl. f_equal.
    rewrite insert_empty. f_equal. f_equal. lia. }
  rewrite Hstart. clear Hstart.
  set (e1' := set_timeouts _ 1 e1).
  destruct (hold_run t0 0%nat s1 evs e1') as
    (e2 & Hrun & H1 & H2 & H3 & H4 & H5 & H6 & H7 & H8); try done.
  { intros id' pending. simpl. rewrite lookup_singleton_Some. by intros [_ <-]. }
  { simpl. lia. }
  rewrite Hrun. rewrite !run_cons.
  change (exec (step (Tick t2)) (s1, e2)) with (s1, set_now (Z.max (now e2) t2) e2).
  unfold run.
  split.
  { by split_and!. }
  (* the timer fires at [t2] *)
  rewrite (fire_clearExecutingState _ _ 0%nat (t0 + MIN_SPINNER_TIME));
    [| simpl; rewrite H3; apply lookup_singleton_eq | simpl; lia | done].
  rewrite update_result. rewrite getItemsForCell_plain by (simpl; by rewrite H6).
  cbv zeta.
  set (r := deltaCellStatusBarItems _ _ _ _).
  destruct (delta_result [0%nat] handle
              (_getItemForState (cellExecution e2) (internalMetadata e2))
              (set_timeouts (delete 0%nat (timeouts e2)) (nextTimeout e2)
                 (set_now (Z.max (now e2) t2) e2)))
    as (D1 & D2 & D3 & D4 & D5 & D6 & D7 & D8 & D9 & D10).
  change (deltaCellStatusBarItems [0%nat] handle
            (_getItemForState (cellExecution e2) (internalMetadata e2))
            (set_timeouts (delete 0%nat (timeouts e2)) (nextTimeout e2)
               (set_now (Z.max (now e2) t2) e2)))
    with r in D1, D2, D3, D4, D5, D6, D7, D8, D9, D10.
  change ((set_currentItemIds r.1
             (set_clearExecutingStateTimer
                {| _value := None; _mutableIsDisposed := false |}
                (set_showedExecutingStateTime None s1)), r.2).2) with r.2.
  change (_currentItemIds
            (set_currentItemIds r.1
               (set_clearExecutingStateTimer
                  {| _value := None; _mutableIsDisposed := false |}
                  (set_showedExecutingStateTime None s1)), r.2).1) with r.1.
  split_and!.
  - rewrite D2. simpl. by rewrite H2.
  - exact D10.
  - rewrite D9.
    change (statusBarItems e1') with (attach handle (zip [0%nat] spinner) ∅) in H1.
    change (statusBarItems (set_timeouts (delete 0%nat (timeouts e2)) (nextTimeout e2)
              (set_now (Z.max (now e2) t2) e2))) with (statusBarItems e2).
    rewrite H1, dom_attach.
    destruct paused; simpl; set_solver.
  - done.
  - rewrite D3. simpl. rewrite H3. apply delete_singleton_eq.
Qed.

End SpinnerScenario.

(** X16. A recomputation of the execution state indicator with a display
    start recorded and a cell that is not executing. Before 500 ms have
    passed it returns no change: nothing is pushed, the items stay attached,
    and when no clear timer is pending one timeout is added, due after the
    remaining time, whose handler clears the display start and recomputes.
    From 500 ms on the display start is cleared and the items of the state
    are pushed at once, with no timeout added. For a session built on a
    cell that is executing at [t0], in a workbench with no timeout pending,
    whose execution ends at [t1], less than 500 ms later: whatever happens
    before [t0 + 500] (clock, run state other than executing, metadata,
    configuration), the only push is the one of the spinner, which stays
    attached, and the only timeout is due at [t0 + 500]; when it fires, the
    items of the state are pushed, once, and no timeout is left. *)
Theorem spinner_minimum_time `{Workbench} :
  (∀ (s : ExecutionStateCellStatusBarItem.t) (e : Env) (showed : Z),
     ExecutionStateCellStatusBarItem._showedExecutingStateTime s = Some showed →
     isExecuting (cellExecution e) = false →
     _mutableIsDisposed (ExecutionStateCellStatusBarItem._clearExecutingStateTimer s) = false →
     now e - showed < ExecutionStateCellStatusBarItem.MIN_SPINNER_TIME →
     let remaining :=
       ExecutionStateCellStatusBarItem.MIN_SPINNER_TIME - (now e - showed) in
     let w := exec ExecutionStateCellStatusBarItem._update (s, e) in
     (ExecutionStateCellStatusBarItem._getItemsForCell (s, e)).1 = None ∧
     pushes w.2 = pushes e ∧ statusBarItems w.2 = statusBarItems e ∧
     ExecutionStateCellStatusBarItem._currentItemIds w.1
       = ExecutionStateCellStatusBarItem._currentItemIds s ∧
     ExecutionStateCellStatusBarItem._showedExecutingStateTime w.1 = Some showed ∧
     match ExecutionStateCellStatusBarItem.timerValue s with
     | Some _ => w = (s, e)
     | None =>
         ExecutionStateCellStatusBarItem.timerValue w.1 = Some (nextTimeout e) ∧
         timeouts w.2
           = <[nextTimeout e := (now e + remaining, ClearExecutingState)]> (timeouts e)
     end) ∧
  (∀ (s : ExecutionStateCellStatusBarItem.t) (e : Env) (showed : Z),
     ExecutionStateCellStatusBarItem._showedExecutingStateTime s = Some showed →
     isExecuting (cellExecution e) = false →
     ExecutionStateCellStatusBarItem.MIN_SPINNER_TIME <= now e - showed →
     let items := _getItemForState (cellExecution e) (internalMetadata e) in
     let w := exec ExecutionStateCellStatusBarItem._update (s, e) in
     (ExecutionStateCellStatusBarItem._getItemsForCell (s, e)).1 = Some items ∧
     ExecutionStateCellStatusBarItem._showedExecutingStateTime w.1 = None ∧
     timeouts w.2 = timeouts e ∧
     pushes w.2 = (ExecutionStateCellStatusBarItem._handle s, items) :: pushes e ∧
     attachedItems (ExecutionStateCellStatusBarItem._currentItemIds w.1) w.2 = items) ∧
  (∀ (handle : Z) (paused : bool) (metadata : NotebookCellInternalMetadata)
     (t0 t1 t2 : Z) (runState : option INotebookCellExecution) (evs : list Event),
     t0 <= t1 → t1 < t0 + 500 → isExecuting runState = false →
     forallb (holdEvent (t0 + 500)) evs = true →
     t0 + 500 <= t2 →
     let execution :=
       {| state := NotebookCellExecutionState.Executing; didPause := paused |} in
     let spinner := _getItemForState (Some execution) metadata in
     let w0 :=
       ExecutionStateCellStatusBarItem.new handle
         (initialEnv t0 (Some execution) metadata) in
     let w1 :=
       ExecutionStateCellStatusBarItem.run
         (Tick t1 :: DidChangeExecution runState :: evs) w0 in
     let w2 := ExecutionStateCellStatusBarItem.run [Tick t2; Timeout 0] w1 in
     let items := _getItemForState (cellExecution w1.2) (internalMetadata w1.2) in
     (pushes w0.2 = [(handle, spinner)] ∧
      attachedItems (ExecutionStateCellStatusBarItem._currentItemIds w0.1) w0.2
        = spinner) ∧
     (pushes w1.2 = [(handle, spinner)] ∧
      statusBarItems w1.2 = statusBarItems w0.2 ∧
      ExecutionStateCellStatusBarItem._currentItemIds w1.1
        = ExecutionStateCellStatusBarItem._currentItemIds w0.1 ∧
      timeouts w1.2 = {[ 0%nat := (t0 + 500, ClearExecutingState) ]} ∧
      now w1.2 < t0 + 500) ∧
     (pushes w2.2 = [(handle, items); (handle, spinner)] ∧
      attachedItems (ExecutionStateCellStatusBarItem._currentItemIds w2.1) w2.2
        = items ∧
      dom (statusBarItems w2.2)
        = list_to_set (ExecutionStateCellStatusBarItem._currentItemIds w2.1) ∧
      ExecutionStateCellStatusBarItem._showedExecutingStateTime w2.1 = None ∧
      timeouts w2.2 = ∅)).
Proof.
  split_and!.
  - intros s e showed Hs He Hd Hlt remaining w. subst w.
    rewrite update_result. unfold ExecutionStateCellStatusBarItem.timerValue.
    rewrite Hd.
    destruct (ExecutionStateCellStatusBarItem._clearExecutingStateTimer s)
      as [[id|] dis] eqn:Ht; simpl in Hd; subst dis; simpl.
    + rewrite (getItemsForCell_hold_pending s e showed id) by done. done.
    + rewrite (getItemsForCell_hold_schedule s e showed) by done. done.
  - intros s e showed Hs He Hge items w. subst w.
    rewrite update_result, (getItemsForCell_expired s e showed) by done.
    cbv zeta.
    destruct (delta_result
                (ExecutionStateCellStatusBarItem._currentItemIds
                   (ExecutionStateCellStatusBarItem.set_showedExecutingStateTime None s))
                (ExecutionStateCellStatusBarItem._handle
                   (ExecutionStateCellStatusBarItem.set_showedExecutingStateTime None s))
                items e)
      as (D1 & D2 & D3 & D4 & D5 & D6 & D7 & D8 & D9 & D10).
    split_and!; done.
  - intros handle paused metadata t0 t1 t2 runState evs Ht1 Ht1' Hrs Hevs Ht2.
    by apply spinner_scenario.
Qed.

Lemma spinner_minimum_time_witness :
  let held :=
    ({| ExecutionStateCellStatusBarItem._handle := 7;
        ExecutionStateCellStatusBarItem._currentItemIds := [0%nat];
        ExecutionStateCellStatusBarItem._showedExecutingStateTime := Some 0;
        ExecutionStateCellStatusBarItem._clearExecutingStateTimer :=
          {| _value := None; _mutableIsDisposed := false |};
        ExecutionStateCellStatusBarItem._isDisposed := false |}) in
  (ExecutionStateCellStatusBarItem._getItemsForCell (H := exampleWorkbench)
     (held, initialEnv 100 None noMetadata)).1 = None ∧
  (ExecutionStateCellStatusBarItem._getItemsForCell (H := exampleWorkbench)
     (held, initialEnv 600 None noMetadata)).1 = Some [] ∧
  pushes
    (ExecutionStateCellStatusBarItem.run (H := exampleWorkbench)
       [Tick 100; DidChangeExecution None; Tick 300;
        DidChangeInternalMetadata noMetadata; Timeout 0; Tick 499]
       (ExecutionStateCellStatusBarItem.new (H := exampleWorkbench) 7
          (initialEnv 0
             (Some {| state := NotebookCellExecutionState.Executing;
                      didPause := false |})
             noMetadata))).2
    = [(7, _getItemForState (H := exampleWorkbench)
             (Some {| state := NotebookCellExecutionState.Executing;
                      didPause := false |})
             noMetadata)].
Proof.
  intros held.
  destruct (@spinner_minimum_time exampleWorkbench) as (Hheld & Hexpired & Hscenario).
  split_and!.
  - apply (Hheld held (initialEnv 100 None noMetadata) 0);
      [reflexivity .. | by vm_compute].
  - apply (Hexpired held (initialEnv 600 None noMetadata) 0);
      [reflexivity | reflexivity | by vm_compute].
  - apply (Hscenario 7 false noMetadata 0 100 500 None
             [Tick 300; DidChangeInternalMetadata noMetadata; Timeout 0; Tick 499]);
      [lia | lia | reflexivity | reflexivity | lia].
Defined.

(** C1. The minimum display time of the executing state is not kept when a
    clear timeout of an earlier display is still pending: the branch that
    drops the display start after 500 ms leaves the timeout in its holder,
    and the next display neither replaces it nor sets one of its own. A
    cell executes from 0 to 100 ms (the timeout is set for 500 ms), then
    from 200 to 505 ms; at 505 ms the callback of the timeout has not run
    yet, the display start is dropped and the items of the idle cell are
    pushed. The cell executes again at 511 ms, the spinner is shown; the
    execution ends at 512 ms and the spinner is held, with no timeout due
    at 1011 ms; at 513 ms the overdue callback runs and replaces the
    spinner, 2 ms after it was shown. *)
Theorem stale_clear_timer_cuts_display_short :
  let executing :=
    Some {| state := NotebookCellExecutionState.Executing; didPause := false |} in
  let succeeded :=
    {| lastRunSuccess := Some true; runStartTime := None;
       runStartTimeAdjustment := None; runEndTime := None;
       renderDuration := None |} in
  let spinner := _getItemForState (H := exampleWorkbench) executing succeeded in
  let idle := _getItemForState (H := exampleWorkbench) None succeeded in
  let attached (w : ExecutionStateCellStatusBarItem.t * Env) :=
    attachedItems (ExecutionStateCellStatusBarItem._currentItemIds w.1) w.2 in
  let w0 := ExecutionStateCellStatusBarItem.new (H := exampleWorkbench) 7
              (initialEnv 0 executing succeeded) in
  let w1 := ExecutionStateCellStatusBarItem.run (H := exampleWorkbench)
              [Tick 100; DidChangeExecution None;
               Tick 200; DidChangeExecution executing;
               Tick 505; DidChangeExecution None] w0 in
  let w2 := ExecutionStateCellStatusBarItem.run (H := exampleWorkbench)
              [Tick 511; DidChangeExecution executing] w1 in
  let w3 := ExecutionStateCellStatusBarItem.run (H := exampleWorkbench)
              [Tick 512; DidChangeExecution None] w2 in
  let w4 := ExecutionStateCellStatusBarItem.run (H := exampleWorkbench)
              [Tick 513; Timeout 0] w3 in
  spinner ≠ idle ∧
  (attached w1 = idle ∧
   ExecutionStateCellStatusBarItem._showedExecutingStateTime w1.1 = None ∧
   ExecutionStateCellStatusBarItem.timerValue w1.1 = Some 0%nat ∧
   timeouts w1.2 = {[ 0%nat := (500, ClearExecutingState) ]}) ∧
  (attached w2 = spinner ∧
   ExecutionStateCellStatusBarItem._showedExecutingStateTime w2.1 = Some 511) ∧
  (attached w3 = spinner ∧ pushes w3.2 = pushes w2.2 ∧
   ExecutionStateCellStatusBarItem._showedExecutingStateTime w3.1 = Some 511 ∧
   timeouts w3.2 = {[ 0%nat := (500, ClearExecutingState) ]}) ∧
  (now w4.2 = 513 ∧ attached w4 = idle ∧
   pushes w4.2 = (7, idle) :: pushes w3.2 ∧
   ExecutionStateCellStatusBarItem._showedExecutingStateTime w4.1 = None ∧
   timeouts w4.2 = ∅).
Proof.
  vm_compute. split_and!; try reflexivity. discriminate.
Qed.

(** ** Disposal of a session of the execution state indicator *)

Section ExecutionStateDisposal.
Context `{Workbench}.
Import ExecutionStateCellStatusBarItem.

Lemma getItemsForCell_ok (s : t) (e : Env) :
  executionStateSessionOk (s, e) →
  ∃ r s' e', _getItemsForCell (s, e) = (r, (s', e')) ∧
    executionStateSessionOk (s', e') ∧ _handle s' = _handle s ∧
    _currentItemIds s' = _currentItemIds s ∧ pushes e' = pushes e.
Proof.
  intros (Hd & Hm & Hdom & Hto).
  destruct (isExecuting (cellExecution e)) eqn:He;
    destruct (_showedExecutingStateTime s) as [showed|] eqn:Hs.
  - eexists _, _, _. split; [by apply getItemsForCell_plain; rewrite He, Hs |].
    by split_and!.
  - eexists _, _, _. split; [by apply getItemsForCell_start |].
    by split_and!.
  - destruct (Z.lt_ge_cases (now e - showed) MIN_SPINNER_TIME) as [Hlt | Hge].
    + simpl in Hm, Hto.
      destruct (_clearExecutingStateTimer s) as [[id|] dis] eqn:Ht;
        simpl in Hm; subst dis.
      * eexists _, _, _.
        split; [by apply (getItemsForCell_hold_pending s e showed id) |].
        split_and!; try done.
        split_and!; try done; simpl; rewrite Ht; done.
      * eexists _, _, _.
        split; [by apply (getItemsForCell_hold_schedule s e showed) |].
        split_and!; try done. split_and!; try done. simpl. intros id [x Hx].
        apply lookup_insert_Some in Hx as [[<- _] | [_ Hx]]; [done |].
        specialize (Hto id ltac:(by eexists)). simpl in Hto. discriminate.
    + eexists _, _, _. split; [by apply (getItemsForCell_expired s e showed) |].
      by split_and!.
  - eexists _, _, _. split; [by apply getItemsForCell_plain; rewrite He, Hs |].
    by split_and!.
Qed.

Lemma update_ok (s : t) (e : Env) :
  executionStateSessionOk (s, e) →
  executionStateSessionOk (exec _update (s, e)) ∧
  _handle (exec _update (s, e)).1 = _handle s.
Proof.
  intros Hok. rewrite update_result.
  destruct (getItemsForCell_ok s e Hok) as (r & s' & e' & -> & Hok' & Hh & Hids & Hp).
  destruct r as [items|]; [| done].
  destruct Hok' as (Hd & Hm & Hdom & Hto). simpl in Hd, Hm, Hdom, Hto.
  pose proof (delta_result (_currentItemIds s') (_handle s') items e') as D.
  cbv zeta in D |- *.
  set (r := deltaCellStatusBarItems (_currentItemIds s') (_handle s') items e') in *.
  clearbody r. destruct D as (D1 & D2 & D3 & D4 & D5 & D6 & D7 & D8 & D9 & D10).
  split; [| done]. split_and!; try done; simpl.
  - rewrite D9, Hdom. set_solver.
  - intros id. rewrite D3. apply Hto.
Qed.

Lemma dispose_gone (w : t * Env) :
  executionStateSessionOk w ∨ executionStateSessionGone w →
  executionStateSessionGone (exec dispose w) ∧
  pushes (exec dispose w).2 = (_handle w.1, []) :: pushes w.2 ∧
  _handle (exec dispose w).1 = _handle w.1.
Proof.
  destruct w as [s e]. intros Hw.
  assert (Hto : ∀ id, is_Some (timeouts e !! id) →
                  _value (_clearExecutingStateTimer s) = Some id).
  { destruct Hw as [(_ & _ & _ & Hto) | (_ & _ & Hto)]; [done |].
    simpl in Hto. intros id. rewrite Hto, lookup_empty. by intros [? ?]. }
  assert (Hsb : dom (statusBarItems e) ⊆ list_to_set (_currentItemIds s)).
  { destruct Hw as [(_ & _ & Hdom & _) | (_ & Hsb & _)]; simpl in *.
    - by rewrite Hdom.
    - rewrite Hsb. set_solver. }
  unfold dispose, super_dispose, bind, ret, onEnv, getThis, setThis, gets, modify,
    clearTimeout, exec.
  simpl.
  destruct (_value (_clearExecutingStateTimer s)) as [id|] eqn:Hv; simpl.
  - split_and!; try done. split_and!; try done; simpl.
    + by apply foldr_delete_empty_dom.
    + apply map_empty. intros i. destruct (decide (i = id)) as [->|Hne].
      * apply lookup_delete_eq.
      * rewrite lookup_delete_ne by done.
        destruct (timeouts e !! i) eqn:Hi; [| done].
        specialize (Hto i ltac:(by eexists)). congruence.
  - split_and!; try done. split_and!; try done; simpl.
    + by apply foldr_delete_empty_dom.
    + apply map_empty. intros i.
      destruct (timeouts e !! i) eqn:Hi; [| done].
      specialize (Hto i ltac:(by eexists)). congruence.
Qed.

Lemma step_ok (ev : Event) (w : t * Env) :
  executionStateSessionOk w ∨ executionStateSessionGone w →
  (executionStateSessionOk (exec (step ev) w)
   ∨ executionStateSessionGone (exec (step ev) w)) ∧
  _handle (exec (step ev) w).1 = _handle w.1.
Proof.
  destruct w as [s e]. intros Hw.
  assert (Hnotify : ∀ e1,
            statusBarItems e1 = statusBarItems e → timeouts e1 = timeouts e →
            (executionStateSessionOk (exec notify (s, e1))
             ∨ executionStateSessionGone (exec notify (s, e1))) ∧
            _handle (exec notify (s, e1)).1 = _handle s).
  { intros e1 Hsb Hto. rewrite step_notify.
    destruct Hw as [Hok | Hgone].
    - assert (executionStateSessionOk (s, e1)) as Hok1.
      { destruct Hok as (? & ? & ? & ?).
        split_and!; try done; simpl in *; rewrite ?Hsb, ?Hto; done. }
      pose proof Hok1 as (Hd & _). simpl in Hd. rewrite Hd.
      destruct (update_ok s e1 Hok1) as [? ?]. split; [by left | done].
    - destruct Hgone as (Hd & ? & ?). simpl in *. rewrite Hd.
      split; [right | done]. split_and!; simpl; congruence. }
  destruct ev as [t' | id | runState | metadata | verbosity |].
  - split; [| done].
    destruct Hw as [(? & ? & ? & ?) | (? & ? & ?)]; [left | right]; by split_and!.
  - destruct Hw as [Hok | Hgone].
    + unfold step.
      destruct (timeouts e !! id) as [[due h]|] eqn:Hl.
      2:{ unfold fireTimeout, bind, onEnv, gets, Date_now, exec. simpl. rewrite Hl.
          split; [by left | done]. }
      destruct (Z.leb_spec due (now e)) as [Hdue | Hdue].
      2:{ unfold fireTimeout, bind, onEnv, gets, Date_now, exec. simpl. rewrite Hl.
          destruct (Z.leb_spec due (now e)); [lia |]. split; [by left | done]. }
      destruct Hok as (Hd & Hm & Hdom & Hto). simpl in *.
      assert (Hempty : delete id (timeouts e) = ∅).
      { apply map_empty. intros i. destruct (decide (i = id)) as [->|Hne].
        - apply lookup_delete_eq.
        - rewrite lookup_delete_ne by done.
          destruct (timeouts e !! i) eqn:Hi; [| done].
          pose proof (Hto i ltac:(by eexists)) as H1.
          pose proof (Hto id ltac:(by eexists)) as H2. congruence. }
      destruct h as [|items|].
      * fold (step (Timeout id)).
        rewrite (fire_clearExecutingState s e id due); [| done | done |].
        2:{ pose proof (Hto id ltac:(by eexists)) as Hv.
            destruct (_clearExecutingStateTimer s) as [v dis]. simpl in *. congruence. }
        destruct (update_ok
                    (set_clearExecutingStateTimer
                       {| _value := None; _mutableIsDisposed := false |}
                       (set_showedExecutingStateTime None s))
                    (set_timeouts (delete id (timeouts e)) (nextTimeout e) e))
          as [? ?].
        { split_and!; try done. simpl. intros i. rewrite Hempty, lookup_empty.
          by intros [? ?]. }
        split; [by left | done].
      * unfold fireTimeout, handler, bind, ret, onEnv, gets, modify, Date_now,
          clearTimeout, exec. simpl. rewrite Hl.
        destruct (Z.leb_spec due (now e)); [| lia]. simpl.
        split; [left | done]. split_and!; try done. simpl.
        intros i. rewrite Hempty, lookup_empty. by intros [? ?].
      * unfold fireTimeout, handler, bind, ret, onEnv, gets, modify, Date_now,
          clearTimeout, exec. simpl. rewrite Hl.
        destruct (Z.leb_spec due (now e)); [| lia]. simpl.
        split; [left | done]. split_and!; try done. simpl.
        intros i. rewrite Hempty, lookup_empty. by intros [? ?].
    + destruct Hgone as (Hd & Hsb & Hto). simpl in *.
      unfold step, fireTimeout, bind, onEnv, gets, Date_now, exec. simpl.
      rewrite Hto, lookup_empty. split; [right | done]. by split_and!.
  - rewrite step_execution. by apply Hnotify.
  - rewrite step_metadata. by apply Hnotify.
  - split; [| done].
    destruct Hw as [(? & ? & ? & ?) | (? & ? & ?)]; [left | right]; by split_and!.
  - destruct (dispose_gone (s, e) Hw) as (? & ? & ?). split; [by right | done].
Qed.

Lemma run_ok (evs : list Event) (w : t * Env) :
  executionStateSessionOk w ∨ executionStateSessionGone w →
  (executionStateSessionOk (run evs w) ∨ executionStateSessionGone (run evs w)) ∧
  _handle (run evs w).1 = _handle w.1.
Proof.
  revert w. induction evs as [|ev evs IH]; intros w Hw; [done |].
  rewrite run_cons. destruct (step_ok ev w Hw) as [H1 H2].
  destruct (IH _ H1) as [H3 H4]. split; [done | congruence].
Qed.

Lemma new_ok (handle : Z) (time : Z) (runState : option INotebookCellExecution)
    (metadata : NotebookCellInternalMetadata) :
  executionStateSessionOk (new handle (initialEnv time runState metadata)) ∧
  _handle (new handle (initialEnv time runState metadata)).1 = handle.
Proof.
  unfold new. apply update_ok. split_and!; try done; simpl.
  intros id. rewrite lookup_empty. by intros [? ?].
Qed.

End ExecutionStateDisposal.

(** ** The timer indicator *)

Section TimerUpdate.
Context `{Workbench}.
Import TimerCellStatusBarItem.

Lemma update_result_timer (s : t) (e : Env) :
  exec _update (s, e) =
    exec (applyTimerItem (computeTimerItem (s, e)).1) (computeTimerItem (s, e)).2.
Proof.
  unfold _update, bind, exec. by destruct (computeTimerItem (s, e)) as [item w].
Qed.

(** What [computeTimerItem] does to the session and the workbench: nothing,
    or a new run of the scheduler; an item is computed exactly when
    [timerItemDue] holds. *)
Lemma computeTimerItem_effect (s : t) (e : Env) :
  (timerItemDue e = false ∧ computeTimerItem (s, e) = (None, (s, e))) ∨
  (timerItemDue e = true ∧ ∃ item,
     (computeTimerItem (s, e)).1 = Some item ∧
     priority item = MAX_SAFE_INTEGER - 5 ∧
     ((computeTimerItem (s, e)).2 = (s, e)
      ∨ (computeTimerItem (s, e)).2 = exec scheduler_schedule (s, e))).
Proof.
  unfold timerItemDue.
  destruct (cellExecution e) as [execution|] eqn:He.
  - destruct (didPause execution) eqn:Hp; simpl.
    { left. split; [done |]. by apply computeTimerItem_paused with execution. }
    destruct (state execution) eqn:Hs; simpl;
      try (left; split; [done |];
           apply computeTimerItem_not_started with execution;
           [done | left; congruence]).
    destruct (runStartTime (internalMetadata e)) as [startTime|] eqn:Ht; simpl.
    + right. split; [done |].
      rewrite (computeTimerItem_executing s e execution startTime) by done.
      eexists. split_and!; [done | done | by right].
    + left. split; [done |].
      apply computeTimerItem_not_started with execution; [done | by right].
  - destruct (runStartTime (internalMetadata e)) as [startTime|] eqn:Ht; simpl.
    2:{ left. split; [done |]. apply computeTimerItem_idle; [done | by left]. }
    destruct (runEndTime (internalMetadata e)) as [endTime|] eqn:Hn; simpl.
    2:{ left. split; [done |]. apply computeTimerItem_idle; [done | by right]. }
    right. split; [done |].
    rewrite (computeTimerItem_finished s e startTime endTime) by done.
    eexists. split_and!; [done | done | by left].
Qed.

(** The grace period starts: a deferred update is set and registered. *)
Lemma applyTimerItem_defer (s : t) (e : Env) :
  is_Some (cellExecution e) → _deferredUpdate s = None →
  exec (applyTimerItem None) (s, e)
    = (set_deferredUpdate (Some (nextTimeout e))
         (set_store (_store s ++ [nextTimeout e]) s),
       set_timeouts
         (<[nextTimeout e := (now e + UPDATE_TIMER_GRACE_PERIOD, DeferredUpdate [])]>
            (timeouts e))
         (S (nextTimeout e)) e).
Proof.
  intros [execution He] Hd.
  unfold applyTimerItem, disposableTimeout, bind, ret, when, onEnv, getThis, setThis,
    gets, modify, getCellExecution, setTimeout, exec.
  simpl. rewrite He. simpl. rewrite Hd. simpl. reflexivity.
Qed.

(** The grace period runs: nothing changes. *)
Lemma applyTimerItem_deferred (s : t) (e : Env) (id : nat) :
  is_Some (cellExecution e) → _deferredUpdate s = Some id →
  exec (applyTimerItem None) (s, e) = (s, e).
Proof.
  intros [execution He] Hd.
  unfold applyTimerItem, bind, ret, when, onEnv, getThis, gets, getCellExecution, exec.
  simpl. rewrite He. simpl. by rewrite Hd.
Qed.

Lemma cancelDeferredUpdate_result (s : t) (e : Env) :
  exec cancelDeferredUpdate (s, e)
    = (set_deferredUpdate None
         (match _deferredUpdate s with
          | Some id => set_store (filter (fun j => j ≠ id) (_store s)) s
          | None => s
          end),
       match _deferredUpdate s with
       | Some id => set_timeouts (delete id (timeouts e)) (nextTimeout e) e
       | None => e
       end).
Proof.
  unfold cancelDeferredUpdate, disposeDeferredUpdate, disposeTimeout, bind, ret,
    onEnv, getThis, setThis, gets, modify, clearTimeout, exec.
  simpl. destruct (_deferredUpdate s) as [id|]; reflexivity.
Qed.

(** Otherwise a pending deferred update is disposed and the items are
    pushed. *)
Lemma applyTimerItem_push (s : t) (e : Env)
    (timerItem : option INotebookCellStatusBarItem) :
  is_Some timerItem ∨ cellExecution e = None →
  exec (applyTimerItem timerItem) (s, e)
    = exec (pushItems (option_list timerItem)) (exec cancelDeferredUpdate (s, e)).
Proof.
  intros Hc.
  unfold applyTimerItem, bind, onEnv, gets, getCellExecution, exec.
  simpl.
  assert (((length (match timerItem with Some item => [item] | None => [] end) =? 0)%nat
           && bool_decide (is_Some (cellExecution e))) = false) as ->.
  { destruct Hc as [[item ->] | ->]; [done |].
    rewrite bool_decide_eq_false_2; [apply andb_false_r | by intros [? ?]]. }
  destruct (cancelDeferredUpdate (s, e)) as [[] w]. simpl.
  by destruct timerItem.
Qed.

Lemma pushItems_result (items : list INotebookCellStatusBarItem) (s : t) (e : Env) :
  exec (pushItems items) (s, e)
    = (set_currentItemIds
         (deltaCellStatusBarItems (_currentItemIds s) (_handle s) items e).1 s,
       (deltaCellStatusBarItems (_currentItemIds s) (_handle s) items e).2).
Proof. reflexivity. Qed.

End TimerUpdate.

Lemma lookup_foldr_delete {V} (m : gmap nat V) (l : list nat) (i : nat) :
  foldr delete m l !! i = if decide (i ∈ l) then None else m !! i.
Proof.
  induction l as [|x l IH]; simpl; [done |].
  destruct (decide (i = x)) as [->|Hne].
  - rewrite lookup_delete_eq. rewrite decide_True; [done | by left].
  - rewrite lookup_delete_ne by done. rewrite IH.
    destruct (decide (i ∈ l)) as [Hin | Hin].
    + rewrite decide_True; [done | by right].
    + rewrite decide_False; [done |]. intros Hx. apply elem_of_cons in Hx as [|]; done.
Qed.

Section TimerInvariant.
Context `{Workbench}.
Import TimerCellStatusBarItem.

Lemma scheduler_schedule_ok (s : t) (e : Env) :
  timerSessionOk (s, e) → timerSessionOk (exec scheduler_schedule (s, e)).
Proof.
  intros (Hd & Hdom & Hto). rewrite scheduler_schedule_result.
  split_and!; try done. simpl in *.
  intros id due h Hl. apply lookup_insert_Some in Hl as [[<- Hl] | [Hne Hl]].
  - injection Hl as <- <-. split; [lia | done].
  - assert (timeouts e !! id = Some (due, h) ∧ _scheduler s ≠ Some id) as [Hl' Hs].
    { destruct (_scheduler s) as [old|]; [| done].
      apply lookup_delete_Some in Hl as [? ?]. split; [done | congruence]. }
    destruct (Hto id due h Hl') as [Hlt Hh]. split; [lia |].
    destruct h; done.
Qed.

Lemma computeTimerItem_ok (s : t) (e : Env) :
  timerSessionOk (s, e) →
  let w := (computeTimerItem (s, e)).2 in
  timerSessionOk w ∧ _handle w.1 = _handle s ∧
  _currentItemIds w.1 = _currentItemIds s ∧
  _deferredUpdate w.1 = _deferredUpdate s ∧ _isVerbose w.1 = _isVerbose s ∧
  sameCell e w.2 ∧ pushes w.2 = pushes e ∧ statusBarItems w.2 = statusBarItems e ∧
  cellExecutionTimeVerbosity w.2 = cellExecutionTimeVerbosity e.
Proof.
  intros Hok w. subst w.
  destruct (computeTimerItem_effect s e) as [[_ ->] | [_ (item & _ & _ & [-> | ->])]];
    try by split_and!.
  split; [by apply scheduler_schedule_ok |].
  rewrite scheduler_schedule_result. by split_and!.
Qed.

Lemma cancelDeferredUpdate_ok (s : t) (e : Env) :
  timerSessionOk (s, e) →
  let w := exec cancelDeferredUpdate (s, e) in
  timerSessionOk w ∧ _deferredUpdate w.1 = None ∧
  _handle w.1 = _handle s ∧ _isVerbose w.1 = _isVerbose s ∧
  _currentItemIds w.1 = _currentItemIds s ∧
  sameCell e w.2 ∧ pushes w.2 = pushes e ∧
  cellExecutionTimeVerbosity w.2 = cellExecutionTimeVerbosity e ∧
  (∀ id, _deferredUpdate s = Some id → timeouts w.2 !! id = None).
Proof.
  intros (Hd & Hdom & Hto) w. subst w. simpl in Hd, Hdom, Hto.
  rewrite cancelDeferredUpdate_result.
  destruct (_deferredUpdate s) as [old|] eqn:Hdef; simpl.
  - split_and!; try done.
    + split_and!; try done. simpl. intros id due h Hl.
      apply lookup_delete_Some in Hl as [Hne Hl].
      destruct (Hto id due h Hl) as [Hlt Hh]. split; [done |].
      destruct h; try done. destruct Hh as (_ & ? & _). congruence.
    + intros id [= <-]. apply lookup_delete_eq.
  - split_and!; done.
Qed.

Lemma pushItems_ok (items : list INotebookCellStatusBarItem) (s : t) (e : Env) :
  timerSessionOk (s, e) →
  let w := exec (pushItems items) (s, e) in
  timerSessionOk w ∧ _deferredUpdate w.1 = _deferredUpdate s ∧
  _handle w.1 = _handle s ∧ _isVerbose w.1 = _isVerbose s ∧
  sameCell e w.2 ∧ pushes w.2 = (_handle s, items) :: pushes e ∧
  cellExecutionTimeVerbosity w.2 = cellExecutionTimeVerbosity e ∧
  timeouts w.2 = timeouts e ∧
  attachedItems (_currentItemIds w.1) w.2 = items.
Proof.
  intros (Hd & Hdom & Hto) w. subst w. simpl in Hd, Hdom, Hto.
  rewrite pushItems_result.
  pose proof (delta_result (_currentItemIds s) (_handle s) items e) as D.
  cbv zeta in D.
  set (r := deltaCellStatusBarItems (_currentItemIds s) (_handle s) items e) in *.
  clearbody r. destruct D as (D1 & D2 & D3 & D4 & D5 & D6 & D7 & D8 & D9 & D10).
  split_and!; try done.
  split_and!; try done; simpl.
  - rewrite D9, Hdom. set_solver.
  - intros id due h. rewrite D3, D4. apply Hto.
Qed.

Lemma applyTimerItem_ok (timerItem : option INotebookCellStatusBarItem)
    (s : t) (e : Env) :
  timerSessionOk (s, e) →
  let w := exec (applyTimerItem timerItem) (s, e) in
  timerSessionOk w ∧ _handle w.1 = _handle s ∧ _isVerbose w.1 = _isVerbose s ∧
  sameCell e w.2 ∧
  cellExecutionTimeVerbosity w.2 = cellExecutionTimeVerbosity e.
Proof.
  intros Hok w. subst w.
  assert (Hpush : is_Some timerItem ∨ cellExecution e = None →
    let w := exec (applyTimerItem timerItem) (s, e) in
    timerSessionOk w ∧ _handle w.1 = _handle s ∧ _isVerbose w.1 = _isVerbose s ∧
    sameCell e w.2 ∧ cellExecutionTimeVerbosity w.2 = cellExecutionTimeVerbosity e).
  { intros Hc w. subst w. rewrite applyTimerItem_push by done.
    destruct (cancelDeferredUpdate_ok s e Hok)
      as (C1 & C2 & C3 & C4 & C5 & (C6 & C7 & C8) & C9 & C10 & C11).
    destruct (exec cancelDeferredUpdate (s, e)) as [s1 e1]. cbn [fst snd] in *.
    destruct (pushItems_ok (option_list timerItem) s1 e1 C1)
      as (P1 & P2 & P3 & P4 & (P5 & P6 & P7) & P8 & P9 & P10 & P11).
    cbn [fst snd] in *.
    split_and!; [done | congruence | congruence | | congruence].
    split_and!; congruence. }
  destruct timerItem as [item|]; [apply Hpush; left; by eexists |].
  destruct (cellExecution e) as [execution|] eqn:He; [| apply Hpush; by right].
  pose proof Hok as (Hd & Hdom & Hto). simpl in Hd, Hdom, Hto.
  destruct (_deferredUpdate s) as [id|] eqn:Hdef.
  - rewrite (applyTimerItem_deferred s e id) by (done || by eexists).
    by split_and!.
  - rewrite applyTimerItem_defer by (done || by eexists).
    split_and!; try done. split_and!; try done. simpl.
    intros id due h Hl. apply lookup_insert_Some in Hl as [[<- Hl] | [Hne Hl]].
    + injection Hl as <- <-. split; [lia |].
      split_and!; [done | done |]. apply elem_of_app. right. by left.
    + destruct (Hto id due h Hl) as [Hlt Hh]. split; [lia |].
      destruct h; try done. destruct Hh as (_ & ? & _). congruence.
Qed.

Lemma update_ok_timer (s : t) (e : Env) :
  timerSessionOk (s, e) →
  let w := exec _update (s, e) in
  timerSessionOk w ∧ _handle w.1 = _handle s ∧ _isVerbose w.1 = _isVerbose s ∧
  sameCell e w.2 ∧
  cellExecutionTimeVerbosity w.2 = cellExecutionTimeVerbosity e.
Proof.
  intros Hok w. subst w. rewrite update_result_timer.
  destruct (computeTimerItem_ok s e Hok)
    as (C1 & C2 & C3 & C4 & C5 & (C6 & C7 & C8) & C9 & C10 & C11).
  destruct (computeTimerItem (s, e)) as [item [s1 e1]]. cbn [fst snd] in *.
  destruct (applyTimerItem_ok item s1 e1 C1) as (A1 & A2 & A3 & (A4 & A5 & A6) & A7).
  split_and!; [done | congruence | congruence | | congruence].
  split_and!; congruence.
Qed.

End TimerInvariant.

Section TimerSteps.
Context `{Workbench}.
Import TimerCellStatusBarItem.

Lemma run_cons_timer (ev : Event) (evs : list Event) (w : t * Env) :
  run (ev :: evs) w = run evs (exec (step ev) w).
Proof. reflexivity. Qed.

Lemma notify_timer (s : t) (e : Env) :
  exec notify (s, e) = if _isDisposed s then (s, e) else exec _update (s, e).
Proof.
  unfold notify, bind, getThis, gets, exec. simpl. by destruct (_isDisposed s).
Qed.

Lemma step_metadata_timer (s : t) (e : Env) (metadata : NotebookCellInternalMetadata) :
  exec (step (DidChangeInternalMetadata metadata)) (s, e)
    = exec notify (s, set_internalMetadata metadata e).
Proof. reflexivity. Qed.

Lemma step_configuration_timer (s : t) (e : Env) (verbosity : string) :
  exec (step (DidChangeConfiguration verbosity)) (s, e)
    = if _isDisposed s then (s, set_cellExecutionTimeVerbosity verbosity e)
      else exec _update
             (set_isVerbose (isVerbose (set_cellExecutionTimeVerbosity verbosity e)) s,
              set_cellExecutionTimeVerbosity verbosity e).
Proof.
  unfold step, bind, ret, onEnv, getThis, setThis, gets, modify, exec. simpl.
  by destruct (_isDisposed s).
Qed.

Lemma fire_none (s : t) (e : Env) (id : nat) :
  timeouts e !! id = None → exec (step (Timeout id)) (s, e) = (s, e).
Proof.
  intros Hl. unfold step, fireTimeout, bind, onEnv, gets, Date_now, exec. simpl.
  by rewrite Hl.
Qed.

Lemma fire_not_due (s : t) (e : Env) (id : nat) (due : Z) (h : Handler) :
  timeouts e !! id = Some (due, h) → now e < due →
  exec (step (Timeout id)) (s, e) = (s, e).
Proof.
  intros Hl Hdue. unfold step, fireTimeout, bind, onEnv, gets, Date_now, exec. simpl.
  rewrite Hl. destruct (Z.leb_spec due (now e)); [lia | done].
Qed.

(** The timeout of the scheduler fires: [_update] runs. *)
Lemma fire_schedulerRun (s : t) (e : Env) (id : nat) (due : Z) :
  timeouts e !! id = Some (due, SchedulerRun) → due <= now e →
  exec (step (Timeout id)) (s, e)
    = exec _update
        (set_scheduler None s,
         set_timeouts (delete id (timeouts e)) (nextTimeout e) e).
Proof.
  intros Hl Hdue.
  unfold step, fireTimeout, handler, bind, onEnv, setThis, gets, modify, Date_now,
    clearTimeout, exec.
  simpl. rewrite Hl. destruct (Z.leb_spec due (now e)); [done | lia].
Qed.

(** The deferred update fires: the captured items are pushed, then the
    timeout leaves the store. *)
Lemma fire_deferredUpdate (s : t) (e : Env) (id : nat) (due : Z)
    (items : list INotebookCellStatusBarItem) :
  timeouts e !! id = Some (due, DeferredUpdate items) → due <= now e →
  exec (step (Timeout id)) (s, e)
    = exec (disposeTimeout id)
        (exec (pushItems items)
           (set_deferredUpdate None s,
            set_timeouts (delete id (timeouts e)) (nextTimeout e) e)).
Proof.
  intros Hl Hdue.
  unfold step, fireTimeout, handler, bind, onEnv, setThis, gets, modify, Date_now,
    clearTimeout, exec.
  simpl. rewrite Hl. destruct (Z.leb_spec due (now e)); [| lia].
  reflexivity.
Qed.

Lemma disposeTimeout_result (id : nat) (s : t) (e : Env) :
  exec (disposeTimeout id) (s, e)
    = (set_store (filter (fun j => j ≠ id) (_store s)) s,
       set_timeouts (delete id (timeouts e)) (nextTimeout e) e).
Proof. reflexivity. Qed.

(** Removing a timeout that fired keeps the session in order, once the
    session no longer refers to it. *)
Lemma fired_ok (s s' : t) (e : Env) (id : nat) :
  timerSessionOk (s, e) →
  _isDisposed s' = false → _currentItemIds s' = _currentItemIds s →
  (∀ j, j ≠ id → _scheduler s = Some j → _scheduler s' = Some j) →
  (∀ j, j ≠ id → _deferredUpdate s = Some j → _deferredUpdate s' = Some j) →
  (∀ j, j ≠ id → j ∈ _store s → j ∈ _store s') →
  timerSessionOk (s', set_timeouts (delete id (timeouts e)) (nextTimeout e) e).
Proof.
  intros (Hd & Hdom & Hto) Hd' Hids Hsch Hdef Hst. simpl in *.
  split_and!; simpl; [done | congruence |].
  intros j due h Hl. apply lookup_delete_Some in Hl as [Hne Hl].
  destruct (Hto j due h Hl) as [Hlt Hh]. split; [done |].
  destruct h; [done | | by apply Hsch].
  destruct Hh as (? & ? & ?). split_and!; [done | by apply Hdef | by apply Hst].
Qed.

Lemma dispose_gone_timer (w : t * Env) :
  timerSessionOk w ∨ timerSessionGone w →
  timerSessionGone (exec dispose w) ∧
  pushes (exec dispose w).2 = (_handle w.1, []) :: pushes w.2 ∧
  _handle (exec dispose w).1 = _handle w.1.
Proof.
  destruct w as [s e]. intros Hw.
  assert (Hto : ∀ id due h, timeouts e !! id = Some (due, h) →
                  _scheduler s = Some id ∨ id ∈ _store s).
  { destruct Hw as [(_ & _ & Hto) | (_ & _ & Hto)]; simpl in Hto.
    - intros id due h Hl. destruct (Hto id due h Hl) as [_ Hh].
      destruct h; [done | right; by destruct Hh as (_ & _ & ?) | by left].
    - intros id due h. by rewrite Hto, lookup_empty. }
  assert (Hsb : dom (statusBarItems e) ⊆ list_to_set (_currentItemIds s)).
  { destruct Hw as [(_ & Hdom & _) | (_ & Hsb & _)]; simpl in *.
    - by rewrite Hdom.
    - rewrite Hsb. set_solver. }
  unfold dispose, super_dispose, scheduler_cancel, disposeDeferredUpdate,
    disposeTimeout, bind, ret, onEnv, getThis, setThis, gets, modify,
    clearTimeout, exec.
  simpl.
  set (cancelled := match _scheduler s with
                    | Some id => delete id (timeouts e)
                    | None => timeouts e
                    end).
  assert (Hgone : foldr delete cancelled (_store s) = ∅).
  { apply map_empty. intros i. rewrite lookup_foldr_delete.
    destruct (decide (i ∈ _store s)) as [Hin | Hin]; [done |].
    subst cancelled. destruct (timeouts e !! i) as [[due h]|] eqn:Hl.
    - destruct (Hto i due h Hl) as [Hs | Hs]; [| done].
      rewrite Hs. apply lookup_delete_eq.
    - destruct (_scheduler s) as [old|]; [| done].
      destruct (decide (i = old)) as [->|Hne];
        [apply lookup_delete_eq | by rewrite lookup_delete_ne]. }
  destruct (_scheduler s) as [tok|] eqn:Hs; simpl;
    destruct (_deferredUpdate s) as [def|] eqn:Hdef; simpl;
    fold cancelled; rewrite Hgone; rewrite ?delete_empty;
    (split_and!; [split_and!; [done | by apply foldr_delete_empty_dom | done]
                 | done | done]).
Qed.

End TimerSteps.

Section TimerRun.
Context `{Workbench}.
Import TimerCellStatusBarItem.

Lemma env_change_ok (s s' : t) (e e' : Env) :
  timerSessionOk (s, e) →
  _isDisposed s' = false → _currentItemIds s' = _currentItemIds s →
  _scheduler s' = _scheduler s → _deferredUpdate s' = _deferredUpdate s →
  _store s' = _store s →
  statusBarItems e' = statusBarItems e → timeouts e' = timeouts e →
  nextTimeout e' = nextTimeout e →
  timerSessionOk (s', e').
Proof.
  intros (Hd & Hdom & Hto) H1 H2 H3 H4 H5 H6 H7 H8. simpl in *.
  split_and!; simpl; [done | by rewrite H6, H2 |].
  rewrite H7, H8, H3, H4, H5. exact Hto.
Qed.

Lemma gone_change (s : t) (e e' : Env) :
  timerSessionGone (s, e) →
  statusBarItems e' = statusBarItems e → timeouts e' = timeouts e →
  timerSessionGone (s, e').
Proof.
  intros (Hd & Hsb & Hto) H1 H2. simpl in *. split_and!; simpl; congruence.
Qed.

Lemma fire_ok (s : t) (e : Env) (id : nat) :
  timerSessionOk (s, e) →
  timerSessionOk (exec (step (Timeout id)) (s, e)) ∧
  _handle (exec (step (Timeout id)) (s, e)).1 = _handle s.
Proof.
  intros Hok.
  destruct (timeouts e !! id) as [[due h]|] eqn:Hl;
    [| by rewrite fire_none].
  destruct (Z.lt_ge_cases (now e) due) as [Hlt | Hge];
    [by rewrite (fire_not_due s e id due h) |].
  pose proof Hok as (Hd & Hdom & Hto). simpl in Hd, Hdom, Hto.
  destruct (Hto id due h Hl) as [Hfresh Hh].
  destruct h as [|items|]; [done | |].
  - destruct Hh as (-> & Hdef & Hst).
    rewrite (fire_deferredUpdate s e id due []) by done.
    assert (timerSessionOk
              (set_deferredUpdate None s,
               set_timeouts (delete id (timeouts e)) (nextTimeout e) e)) as Hok1.
    { apply (fired_ok s); try done. simpl. intros j Hne. congruence. }
    destruct (pushItems_ok [] _ _ Hok1)
      as (P1 & P2 & P3 & P4 & P5 & P6 & P7 & P8 & P9).
    destruct (exec (pushItems []) _) as [s2 e2]. cbn [fst snd] in *.
    rewrite disposeTimeout_result. split; [| done].
    pose proof P1 as (Hd2 & Hdom2 & Hto2). simpl in Hd2, Hdom2, Hto2.
    apply (fired_ok s2); try done.
    intros j Hne Hin. apply list_elem_of_filter. by split.
  - rewrite (fire_schedulerRun s e id due) by done.
    assert (timerSessionOk
              (set_scheduler None s,
               set_timeouts (delete id (timeouts e)) (nextTimeout e) e)) as Hok1.
    { apply (fired_ok s); try done. simpl. intros j Hne. congruence. }
    destruct (update_ok_timer _ _ Hok1) as (U1 & U2 & U3 & U4 & U5).
    split; done.
Qed.

Lemma step_ok_timer (ev : Event) (w : t * Env) :
  timerSessionOk w ∨ timerSessionGone w →
  (timerSessionOk (exec (step ev) w) ∨ timerSessionGone (exec (step ev) w)) ∧
  _handle (exec (step ev) w).1 = _handle w.1.
Proof.
  destruct w as [s e]. intros [Hok | Hgone].
  - pose proof Hok as (Hd & Hdom & Hto). simpl in Hd, Hdom, Hto.
    destruct ev as [t' | id | runState | metadata | verbosity |].
    + split; [left | done]. by apply (env_change_ok s s e).
    + destruct (fire_ok s e id Hok). split; [by left | done].
    + split; [left | done]. by apply (env_change_ok s s e).
    + rewrite step_metadata_timer, notify_timer, Hd.
      destruct (update_ok_timer s (set_internalMetadata metadata e))
        as (U1 & U2 & U3 & U4 & U5); [by apply (env_change_ok s s e) |].
      split; [by left | done].
    + rewrite step_configuration_timer, Hd.
      destruct (update_ok_timer
                  (set_isVerbose
                     (isVerbose (set_cellExecutionTimeVerbosity verbosity e)) s)
                  (set_cellExecutionTimeVerbosity verbosity e))
        as (U1 & U2 & U3 & U4 & U5); [by apply (env_change_ok s _ e) |].
      split; [by left | done].
    + destruct (dispose_gone_timer (s, e)) as (G1 & G2 & G3); [by left |].
      split; [by right | done].
  - pose proof Hgone as (Hd & Hsb & Hto). simpl in Hd, Hsb, Hto.
    destruct ev as [t' | id | runState | metadata | verbosity |].
    + split; [right | done]. by apply (gone_change s e).
    + rewrite fire_none by (by rewrite Hto). split; [by right | done].
    + split; [right | done]. by apply (gone_change s e).
    + rewrite step_metadata_timer, notify_timer, Hd.
      split; [right | done]. by apply (gone_change s e).
    + rewrite step_configuration_timer, Hd.
      split; [right | done]. by apply (gone_change s e).
    + destruct (dispose_gone_timer (s, e)) as (G1 & G2 & G3); [by right |].
      split; [by right | done].
Qed.

Lemma run_ok_timer (evs : list Event) (w : t * Env) :
  timerSessionOk w ∨ timerSessionGone w →
  (timerSessionOk (run evs w) ∨ timerSessionGone (run evs w)) ∧
  _handle (run evs w).1 = _handle w.1.
Proof.
  revert w. induction evs as [|ev evs IH]; intros w Hw; [done |].
  rewrite run_cons_timer. destruct (step_ok_timer ev w Hw) as [H1 H2].
  destruct (IH _ H1) as [H3 H4]. split; [done | congruence].
Qed.

Lemma new_ok_timer (handle : Z) (time : Z) (runState : option INotebookCellExecution)
    (metadata : NotebookCellInternalMetadata) :
  timerSessionOk (new handle (initialEnv time runState metadata)) ∧
  _handle (new handle (initialEnv time runState metadata)).1 = handle.
Proof.
  unfold new.
  destruct (update_ok_timer
              {| _handle := handle; _currentItemIds := []; _scheduler := None;
                 _deferredUpdate := None;
                 _isVerbose := isVerbose (initialEnv time runState metadata);
                 _store := []; _isDisposed := false |}
              (initialEnv time runState metadata))
    as (U1 & U2 & U3 & U4 & U5); [| done].
  split_and!; done.
Qed.

End TimerRun.

Section GracePeriod.
Context `{Workbench}.
Import TimerCellStatusBarItem.

Lemma inGracePeriod_sameCell (e e' : Env) :
  sameCell e e' → inGracePeriod e' = inGracePeriod e ∧ timerItemDue e' = timerItemDue e.
Proof.
  intros (_ & Hc & Hm). unfold inGracePeriod, timerItemDue. by rewrite Hc, Hm.
Qed.

Lemma inGracePeriod_true (e : Env) :
  inGracePeriod e = true → is_Some (cellExecution e) ∧ timerItemDue e = false.
Proof.
  unfold inGracePeriod. intros [Hs Hd]%andb_true_iff.
  split; [by apply bool_decide_eq_true in Hs | by apply negb_true_iff].
Qed.

Lemma inGracePeriod_false (e : Env) :
  inGracePeriod e = false → cellExecution e = None ∨ timerItemDue e = true.
Proof.
  unfold inGracePeriod. intros [Hs | Hd]%andb_false_iff.
  - left. apply bool_decide_eq_false in Hs.
    destruct (cellExecution e); [exfalso; apply Hs; by eexists | done].
  - right. by apply negb_false_iff.
Qed.

(** In the grace period with a deferred update pending, [_update] changes
    nothing. *)
Lemma update_in_grace (s : t) (e : Env) (id : nat) :
  inGracePeriod e = true → _deferredUpdate s = Some id →
  exec _update (s, e) = (s, e).
Proof.
  intros [Hs Hd]%inGracePeriod_true Hdef. rewrite update_result_timer.
  destruct (computeTimerItem_effect s e) as [[_ ->] | [Hdue _]]; [| congruence].
  by apply applyTimerItem_deferred with id.
Qed.

(** In the grace period with no deferred update pending, [_update] sets
    one, due [UPDATE_TIMER_GRACE_PERIOD] later, and pushes nothing. *)
Lemma update_grace_start (s : t) (e : Env) :
  inGracePeriod e = true → _deferredUpdate s = None →
  exec _update (s, e)
    = (set_deferredUpdate (Some (nextTimeout e))
         (set_store (_store s ++ [nextTimeout e]) s),
       set_timeouts
         (<[nextTimeout e := (now e + UPDATE_TIMER_GRACE_PERIOD, DeferredUpdate [])]>
            (timeouts e))
         (S (nextTimeout e)) e).
Proof.
  intros [Hs Hd]%inGracePeriod_true Hdef. rewrite update_result_timer.
  destruct (computeTimerItem_effect s e) as [[_ ->] | [Hdue _]]; [| congruence].
  by apply applyTimerItem_defer.
Qed.

(** Outside the grace period [_update] cancels a pending deferred update
    and pushes the items. *)
Lemma update_push (s : t) (e : Env) :
  timerSessionOk (s, e) → inGracePeriod e = false →
  let w := exec _update (s, e) in
  timerSessionOk w ∧
  pushes w.2 = (_handle s, option_list (computeTimerItem (s, e)).1) :: pushes e ∧
  attachedItems (_currentItemIds w.1) w.2 = option_list (computeTimerItem (s, e)).1 ∧
  _deferredUpdate w.1 = None ∧
  (∀ id, _deferredUpdate s = Some id → timeouts w.2 !! id = None).
Proof.
  intros Hok Hg w. subst w. rewrite update_result_timer.
  destruct (computeTimerItem_ok s e Hok)
    as (C1 & C2 & C3 & C4 & C5 & C6 & C7 & C8 & C9).
  assert (is_Some (computeTimerItem (s, e)).1 ∨ cellExecution e = None) as Hc.
  { destruct (inGracePeriod_false e Hg) as [Hn | Hdue]; [by right |].
    destruct (computeTimerItem_effect s e) as [[? _] | [_ (item & -> & _)]];
      [congruence | left; by eexists]. }
  destruct (computeTimerItem (s, e)) as [item [s1 e1]]. cbn [fst snd] in *.
  rewrite applyTimerItem_push
    by (destruct Hc as [? | Hn]; [by left | right; destruct C6 as (_ & -> & _); done]).
  destruct (cancelDeferredUpdate_ok s1 e1 C1)
    as (D1 & D2 & D3 & D4 & D5 & D6 & D7 & D8 & D9).
  destruct (exec cancelDeferredUpdate (s1, e1)) as [s2 e2]. cbn [fst snd] in *.
  destruct (pushItems_ok (option_list item) s2 e2 D1)
    as (P1 & P2 & P3 & P4 & P5 & P6 & P7 & P8 & P9).
  split_and!; [done | | done | congruence |].
  - rewrite P6. congruence.
  - intros id Hid. rewrite P8. apply D9. congruence.
Qed.

(** One event of an episode of the grace period: the deferred update stays
    pending and nothing is pushed. *)
Lemma grace_step (ev : Event) (s : t) (e : Env) (id : nat) (deadline : Z) :
  timerSessionOk (s, e) → _deferredUpdate s = Some id →
  timeouts e !! id = Some (deadline, DeferredUpdate []) → now e < deadline →
  ev ≠ Dispose →
  (runsTimerUpdate ev e = true → inGracePeriod (exec (step ev) (s, e)).2 = true) →
  let w := exec (step ev) (s, e) in
  timerSessionOk w ∧ _deferredUpdate w.1 = Some id ∧
  timeouts w.2 !! id = Some (deadline, DeferredUpdate []) ∧
  pushes w.2 = pushes e ∧ statusBarItems w.2 = statusBarItems e ∧
  _currentItemIds w.1 = _currentItemIds s ∧ _handle w.1 = _handle s.
Proof.
  intros Hok Hdef Hl Hnow Hev Hg.
  pose proof Hok as (Hd & Hdom & Hto). simpl in Hd, Hdom, Hto.
  assert (Hup : ∀ s1 e1, timerSessionOk (s1, e1) → _deferredUpdate s1 = Some id →
                 inGracePeriod (exec _update (s1, e1)).2 = true →
                 exec _update (s1, e1) = (s1, e1)).
  { intros s1 e1 Hok1 Hdef1 Hg1. apply update_in_grace with id; [| done].
    destruct (update_ok_timer s1 e1 Hok1) as (_ & _ & _ & Hsame & _).
    destruct (inGracePeriod_sameCell _ _ Hsame) as [<- _]. done. }
  destruct ev as [t' | k | runState | metadata | verbosity |]; [| | | | | done].
  - simpl. split_and!; try done; by apply (env_change_ok s s e).
  - destruct (timeouts e !! k) as [[due h]|] eqn:Hk;
      [| rewrite fire_none by done; by split_and!].
    destruct (Z.lt_ge_cases (now e) due) as [Hlt | Hge];
      [rewrite (fire_not_due s e k due h) by done; by split_and! |].
    destruct (Hto k due h Hk) as [Hfresh Hh].
    destruct h as [|items|]; [done | |].
    + destruct Hh as (_ & Hk' & _). assert (k = id) as -> by congruence.
      rewrite Hl in Hk. injection Hk as <-. lia.
    + assert (Hruns : runsTimerUpdate (Timeout k) e = true).
      { simpl. rewrite Hk. by apply Z.leb_le. }
      specialize (Hg Hruns).
      rewrite (fire_schedulerRun s e k due) in Hg |- * by done.
      assert (k ≠ id) as Hne by (intros ->; congruence).
      assert (timerSessionOk
                (set_scheduler None s,
                 set_timeouts (delete k (timeouts e)) (nextTimeout e) e)) as Hok1.
      { apply (fired_ok s); try done. simpl. intros j Hj. congruence. }
      rewrite Hup in Hg |- * by done.
      split_and!; try done; simpl; by rewrite lookup_delete_ne.
  - simpl. split_and!; try done; by apply (env_change_ok s s e).
  - specialize (Hg eq_refl).
    rewrite step_metadata_timer, notify_timer, Hd in Hg |- *.
    assert (timerSessionOk (s, set_internalMetadata metadata e)) as Hok1
      by by apply (env_change_ok s s e).
    rewrite Hup in Hg |- * by done. by split_and!.
  - specialize (Hg eq_refl).
    rewrite step_configuration_timer, Hd in Hg |- *.
    assert (timerSessionOk
              (set_isVerbose (isVerbose (set_cellExecutionTimeVerbosity verbosity e)) s,
               set_cellExecutionTimeVerbosity verbosity e)) as Hok1
      by by apply (env_change_ok s _ e).
    rewrite Hup in Hg |- * by done. by split_and!.
Qed.

Lemma grace_run (evs : list Event) (w : t * Env) (id : nat) (deadline : Z) :
  timerSessionOk w → _deferredUpdate w.1 = Some id →
  timeouts w.2 !! id = Some (deadline, DeferredUpdate []) → now w.2 < deadline →
  graceEpisode deadline evs w →
  let w' := run evs w in
  timerSessionOk w' ∧ _deferredUpdate w'.1 = Some id ∧
  timeouts w'.2 !! id = Some (deadline, DeferredUpdate []) ∧
  pushes w'.2 = pushes w.2 ∧ statusBarItems w'.2 = statusBarItems w.2 ∧
  _currentItemIds w'.1 = _currentItemIds w.1 ∧ _handle w'.1 = _handle w.1.
Proof.
  revert w. induction evs as [|ev evs IH]; intros w Hok Hdef Hl Hnow Hep; [done |].
  destruct Hep as (Hev & Hg & Hnow' & Hep). destruct w as [s e].
  destruct (grace_step ev s e id deadline Hok Hdef Hl Hnow Hev Hg)
    as (G1 & G2 & G3 & G4 & G5 & G6 & G7).
  destruct (IH _ G1 G2 G3 Hnow' Hep) as (I1 & I2 & I3 & I4 & I5 & I6 & I7).
  rewrite run_cons_timer. cbn [fst snd] in *.
  split_and!; [done | done | done | by rewrite I4 | by rewrite I5 | by rewrite I6
              | by rewrite I7].
Qed.

(** An event that runs [_update] on a session that is not disposed. *)
Lemma runs_update (ev : Event) (s : t) (e : Env) :
  timerSessionOk (s, e) → runsTimerUpdate ev e = true →
  ∃ s1 e1, exec (step ev) (s, e) = exec _update (s1, e1) ∧
    timerSessionOk (s1, e1) ∧ _handle s1 = _handle s ∧
    _deferredUpdate s1 = _deferredUpdate s ∧ pushes e1 = pushes e ∧
    now e1 = now e ∧ nextTimeout e1 = nextTimeout e ∧
    (∀ id due items, timeouts e !! id = Some (due, DeferredUpdate items) →
       timeouts e1 !! id = Some (due, DeferredUpdate items)).
Proof.
  intros Hok Hruns.
  pose proof Hok as (Hd & Hdom & Hto). simpl in Hd, Hdom, Hto.
  destruct ev as [t' | k | runState | metadata | verbosity |];
    [done | | done | | | done].
  - simpl in Hruns. destruct (timeouts e !! k) as [[due h]|] eqn:Hk; [| done].
    destruct h; try done. apply Z.leb_le in Hruns.
    eexists _, _. split; [by apply (fire_schedulerRun s e k due) |].
    split_and!; try done.
    + apply (fired_ok s); try done. simpl. intros j Hne Hj.
      destruct (Hto k due SchedulerRun Hk) as [_ Hs]. simpl in Hs. congruence.
    + intros id due' items Hl. simpl. rewrite lookup_delete_ne; [done |].
      intros ->. congruence.
  - eexists _, _. split; [by rewrite step_metadata_timer, notify_timer, Hd |].
    split_and!; try done; by apply (env_change_ok s s e).
  - eexists _, _. split; [by rewrite step_configuration_timer, Hd |].
    split_and!; try done; by apply (env_change_ok s _ e).
Qed.

(** A timeout that is gone stays gone: the identifiers of new timeouts are
    fresh. *)
Lemma update_timeout_gone (s : t) (e : Env) (id : nat) :
  (id < nextTimeout e)%nat → timeouts e !! id = None →
  (id < nextTimeout (exec _update (s, e)).2)%nat ∧
  timeouts (exec _update (s, e)).2 !! id = None.
Proof.
  intros Hlt Hl. rewrite update_result_timer.
  assert (Hc : (id < nextTimeout (computeTimerItem (s, e)).2.2)%nat ∧
               timeouts (computeTimerItem (s, e)).2.2 !! id = None).
  { destruct (computeTimerItem_effect s e) as [[_ ->] | [_ (item & _ & _ & [-> | ->])]];
      [done | done |].
    rewrite scheduler_schedule_result. simpl. split; [lia |].
    rewrite lookup_insert_ne by lia.
    destruct (_scheduler s) as [old|]; [| done].
    apply lookup_delete_None. by right. }
  destruct (computeTimerItem (s, e)) as [timerItem [s1 e1]]. cbn [fst snd] in *.
  destruct Hc as [Hlt1 Hl1].
  assert (Hpush : is_Some timerItem ∨ cellExecution e1 = None →
            (id < nextTimeout (exec (applyTimerItem timerItem) (s1, e1)).2)%nat ∧
            timeouts (exec (applyTimerItem timerItem) (s1, e1)).2 !! id = None).
  { intros Hc. rewrite applyTimerItem_push by done.
    rewrite cancelDeferredUpdate_result, pushItems_result.
    destruct (_deferredUpdate s1) as [old|]; simpl; (split; [done |]); [| done].
    apply lookup_delete_None. by right. }
  destruct timerItem as [item|]; [apply Hpush; left; by eexists |].
  destruct (cellExecution e1) as [execution|] eqn:He; [| apply Hpush; by right].
  destruct (_deferredUpdate s1) as [old|] eqn:Hdef.
  - by rewrite (applyTimerItem_deferred s1 e1 old) by (done || by eexists).
  - rewrite applyTimerItem_defer by (done || by eexists). simpl.
    split; [lia |]. rewrite lookup_insert_ne by lia. done.
Qed.

Lemma update_nextTimeout (s : t) (e : Env) :
  (nextTimeout e ≤ nextTimeout (exec _update (s, e)).2)%nat.
Proof.
  rewrite update_result_timer.
  assert (Hc : (nextTimeout e ≤ nextTimeout (computeTimerItem (s, e)).2.2)%nat).
  { destruct (computeTimerItem_effect s e) as [[_ ->] | [_ (item & _ & _ & [-> | ->])]];
      [done | done |].
    rewrite scheduler_schedule_result. simpl. lia. }
  destruct (computeTimerItem (s, e)) as [timerItem [s1 e1]]. cbn [fst snd] in *.
  assert (Hpush : is_Some timerItem ∨ cellExecution e1 = None →
            (nextTimeout e ≤ nextTimeout (exec (applyTimerItem timerItem) (s1, e1)).2)%nat).
  { intros Hc'. rewrite applyTimerItem_push by done.
    rewrite cancelDeferredUpdate_result, pushItems_result.
    by destruct (_deferredUpdate s1) as [old|]; simpl. }
  destruct timerItem as [item|]; [apply Hpush; left; by eexists |].
  destruct (cellExecution e1) as [execution|] eqn:He; [| apply Hpush; by right].
  destruct (_deferredUpdate s1) as [old|] eqn:Hdef.
  - by rewrite (applyTimerItem_deferred s1 e1 old) by (done || by eexists).
  - rewrite applyTimerItem_defer by (done || by eexists). simpl. lia.
Qed.

Lemma step_timeout_gone (ev : Event) (w : t * Env) (id : nat) :
  (id < nextTimeout w.2)%nat → timeouts w.2 !! id = None →
  (id < nextTimeout (exec (step ev) w).2)%nat ∧
  timeouts (exec (step ev) w).2 !! id = None.
Proof.
  destruct w as [s e]. cbn [fst snd]. intros Hlt Hl.
  destruct ev as [t' | k | runState | metadata | verbosity |].
  - done.
  - destruct (timeouts e !! k) as [[due h]|] eqn:Hk; [| by rewrite fire_none].
    destruct (Z.lt_ge_cases (now e) due) as [Hnd | Hge];
      [by rewrite (fire_not_due s e k due h) |].
    destruct h as [|items|].
    + unfold step, fireTimeout, handler, bind, ret, onEnv, gets, modify, Date_now,
        clearTimeout, exec. simpl. rewrite Hk.
      destruct (Z.leb_spec due (now e)); [| lia]. simpl.
      split; [done |]. apply lookup_delete_None. by right.
    + rewrite (fire_deferredUpdate s e k due items) by done.
      rewrite pushItems_result, disposeTimeout_result. simpl.
      split; [done |]. apply lookup_delete_None. right.
      apply lookup_delete_None. by right.
    + rewrite (fire_schedulerRun s e k due) by done.
      apply update_timeout_gone; simpl; [done |].
      apply lookup_delete_None. by right.
  - done.
  - rewrite step_metadata_timer, notify_timer.
    destruct (_isDisposed s); [done | by apply update_timeout_gone].
  - rewrite step_configuration_timer.
    destruct (_isDisposed s); [done | by apply update_timeout_gone].
  - unfold step, dispose, super_dispose, scheduler_cancel, disposeDeferredUpdate,
      disposeTimeout, bind, ret, onEnv, getThis, setThis, gets, modify,
      clearTimeout, exec.
    simpl.
    assert (Hc : match _scheduler s with
                 | Some old => delete old (timeouts e)
                 | None => timeouts e
                 end !! id = None).
    { destruct (_scheduler s); [apply lookup_delete_None; by right | done]. }
    destruct (_scheduler s) as [tok|]; simpl;
      destruct (_deferredUpdate s) as [def|]; simpl;
      (split; [done |]);
      try (apply lookup_delete_None; right);
      rewrite lookup_foldr_delete; by destruct (decide (id ∈ _store s)).
Qed.

Lemma run_timeout_gone (evs : list Event) (w : t * Env) (id : nat) :
  (id < nextTimeout w.2)%nat → timeouts w.2 !! id = None →
  timeouts (run evs w).2 !! id = None.
Proof.
  revert w. induction evs as [|ev evs IH]; intros w Hlt Hl; [done |].
  rewrite run_cons_timer. destruct (step_timeout_gone ev w id Hlt Hl). by apply IH.
Qed.

End GracePeriod.

(** C2, as amended. The update of the timer indicator. When the list of
    items is empty and a run state exists, nothing is pushed; a deferred
    update, due 200 ms later and carrying the empty list, is set unless one
    is pending. In every other case a pending deferred update is cancelled
    and the items are pushed at once. The empty list of a grace period is
    pushed by the deferred update when it fires. Hence, from any state of a
    session that is not disposed in which a deferred update is pending and
    not yet due: as long as every update that runs (on a change of the
    metadata or of the configuration, or by the scheduler) finds the
    condition and the clock stays below the due time, nothing is pushed and
    the deferred update stays pending; and the first update that finds an
    item, or no run state, pushes its list, cancels the deferred update and
    leaves none pending, so that this deferred update never pushes the
    empty list, whatever happens later. *)
Theorem timer_grace_period `{Workbench} :
  (∀ (s : TimerCellStatusBarItem.t) (e : Env),
     inGracePeriod e = true →
     let w := exec TimerCellStatusBarItem._update (s, e) in
     pushes w.2 = pushes e ∧ statusBarItems w.2 = statusBarItems e ∧
     TimerCellStatusBarItem._currentItemIds w.1
       = TimerCellStatusBarItem._currentItemIds s ∧
     match TimerCellStatusBarItem._deferredUpdate s with
     | Some _ => w = (s, e)
     | None =>
         TimerCellStatusBarItem._deferredUpdate w.1 = Some (nextTimeout e) ∧
         timeouts w.2
           = <[nextTimeout e := (now e + 200, DeferredUpdate [])]> (timeouts e)
     end) ∧
  (∀ (s : TimerCellStatusBarItem.t) (e : Env),
     timerSessionOk (s, e) → inGracePeriod e = false →
     let w := exec TimerCellStatusBarItem._update (s, e) in
     pushes w.2
       = (TimerCellStatusBarItem._handle s,
          option_list (TimerCellStatusBarItem.computeTimerItem (s, e)).1)
         :: pushes e ∧
     TimerCellStatusBarItem._deferredUpdate w.1 = None ∧
     (∀ id, TimerCellStatusBarItem._deferredUpdate s = Some id →
            timeouts w.2 !! id = None) ∧
     noDeferredUpdatePending w.2) ∧
  (∀ (s : TimerCellStatusBarItem.t) (e : Env) (id : nat) (due : Z)
     (items : list INotebookCellStatusBarItem),
     timerSessionOk (s, e) →
     timeouts e !! id = Some (due, DeferredUpdate items) → due <= now e →
     let w := exec (TimerCellStatusBarItem.step (Timeout id)) (s, e) in
     items = [] ∧
     pushes w.2 = (TimerCellStatusBarItem._handle s, []) :: pushes e ∧
     TimerCellStatusBarItem._deferredUpdate w.1 = None) ∧
  (∀ (handle time : Z) (runState : option INotebookCellExecution)
     (metadata : NotebookCellInternalMetadata) (before : list Event),
     let w0 :=
       TimerCellStatusBarItem.run before
         (TimerCellStatusBarItem.new handle (initialEnv time runState metadata)) in
     TimerCellStatusBarItem._isDisposed w0.1 = false → timerSessionOk w0) ∧
  (∀ (w : TimerCellStatusBarItem.t * Env) (id : nat) (due : Z)
     (evs : list Event) (ev : Event),
     timerSessionOk w →
     TimerCellStatusBarItem._deferredUpdate w.1 = Some id →
     timeouts w.2 !! id = Some (due, DeferredUpdate []) →
     now w.2 < due →
     graceEpisode due evs w →
     let w1 := TimerCellStatusBarItem.run evs w in
     let w2 := exec (TimerCellStatusBarItem.step ev) w1 in
     runsTimerUpdate ev w1.2 = true →
     inGracePeriod w2.2 = false →
     (pushes w1.2 = pushes w.2 ∧
      timeouts w1.2 !! id = Some (due, DeferredUpdate [])) ∧
     (∃ items,
        pushes w2.2 = (TimerCellStatusBarItem._handle w.1, items) :: pushes w.2 ∧
        attachedItems (TimerCellStatusBarItem._currentItemIds w2.1) w2.2 = items ∧
        (timerItemDue w2.2 = true → ∃ item, items = [item]) ∧
        (timerItemDue w2.2 = false → items = [])) ∧
     TimerCellStatusBarItem._deferredUpdate w2.1 = None ∧
     noDeferredUpdatePending w2.2 ∧
     ∀ later, timeouts (TimerCellStatusBarItem.run later w2).2 !! id = None).
Proof.
  assert (Hnone : ∀ w, timerSessionOk w →
            TimerCellStatusBarItem._deferredUpdate w.1 = None →
            noDeferredUpdatePending w.2).
  { intros [s e] (_ & _ & Hto) Hdef id due items Hl. simpl in *.
    destruct (Hto id due (DeferredUpdate items) Hl) as (_ & _ & ? & _). congruence. }
  assert (Hreach : ∀ handle time runState metadata before,
            let w0 :=
              TimerCellStatusBarItem.run before
                (TimerCellStatusBarItem.new handle (initialEnv time runState metadata)) in
            TimerCellStatusBarItem._isDisposed w0.1 = false →
            timerSessionOk w0 ∧ TimerCellStatusBarItem._handle w0.1 = handle).
  { intros handle time runState metadata before w0 Hd. subst w0.
    destruct (new_ok_timer handle time runState metadata) as [N1 N2].
    destruct (run_ok_timer before _ (or_introl N1)) as [[R | (R & _)] R2].
    - split; [done | congruence].
    - congruence. }
  split_and!.
  - intros s e Hg w. subst w.
    destruct (TimerCellStatusBarItem._deferredUpdate s) as [id|] eqn:Hdef.
    + by rewrite (update_in_grace s e id).
    + by rewrite update_grace_start.
  - intros s e Hok Hg w.
    destruct (update_push s e Hok Hg) as (U1 & U2 & U3 & U4 & U5).
    split_and!; try done. by apply Hnone.
  - intros s e id due items Hok Hl Hdue w. subst w.
    pose proof Hok as (Hd & Hdom & Hto). simpl in Hd, Hdom, Hto.
    destruct (Hto id due _ Hl) as (_ & -> & Hdef & _).
    rewrite (fire_deferredUpdate s e id due []) by done.
    by split_and!.
  - intros handle time runState metadata before w0 Hd. by apply Hreach.
  - intros w id due evs ev Hok Hdef Hl Hnow Hep w1 w2 Hruns Hg2.
    destruct (grace_run evs w id due Hok Hdef Hl Hnow Hep)
      as (G1 & G2 & G3 & G4 & _ & _ & G7).
    fold w1 in G1, G2, G3, G4, G7. destruct w1 as [s1 e1]. cbn [fst snd] in *.
    destruct (runs_update ev s1 e1 G1 Hruns)
      as (s1' & e1' & Heq & Hok' & Hh & Hdef' & Hp & _ & _ & Hkeep).
    subst w2. rewrite Heq in Hg2 |- *.
    destruct (update_ok_timer s1' e1' Hok') as (_ & _ & _ & Hsame & _).
    destruct (inGracePeriod_sameCell _ _ Hsame) as [Hg Hdue].
    rewrite Hg in Hg2. rewrite Hdue.
    destruct (update_push s1' e1' Hok' Hg2) as (U1 & U2 & U3 & U4 & U5).
    pose proof (Hkeep id due [] G3) as Hl'.
    assert (Hfresh : (id < nextTimeout e1')%nat).
    { destruct Hok' as (_ & _ & Hto'). by destruct (Hto' id due _ Hl') as [? _]. }
    split_and!; try done.
    + exists (option_list (TimerCellStatusBarItem.computeTimerItem (s1', e1')).1).
      split_and!; [rewrite U2; congruence | done | |].
      * intros Hd'.
        destruct (computeTimerItem_effect s1' e1') as [[? _] | [_ (item & -> & _)]];
          [congruence | by eexists].
      * intros Hd'.
        destruct (computeTimerItem_effect s1' e1') as [[_ ->] | [? _]];
          [done | congruence].
    + by apply Hnone.
    + intros later. apply run_timeout_gone.
      * pose proof (update_nextTimeout s1' e1'). lia.
      * apply U5. congruence.
Qed.

Lemma timer_grace_period_witness :
  let pending :=
    Some {| state := NotebookCellExecutionState.Pending; didPause := false |} in
  let idle :=
    {| TimerCellStatusBarItem._handle := 7;
       TimerCellStatusBarItem._currentItemIds := [];
       TimerCellStatusBarItem._scheduler := None;
       TimerCellStatusBarItem._deferredUpdate := None;
       TimerCellStatusBarItem._isVerbose := false;
       TimerCellStatusBarItem._store := [];
       TimerCellStatusBarItem._isDisposed := false |} in
  let deferred :=
    {| TimerCellStatusBarItem._handle := 7;
       TimerCellStatusBarItem._currentItemIds := [];
       TimerCellStatusBarItem._scheduler := None;
       TimerCellStatusBarItem._deferredUpdate := Some 0%nat;
       TimerCellStatusBarItem._isVerbose := false;
       TimerCellStatusBarItem._store := [0%nat];
       TimerCellStatusBarItem._isDisposed := false |} in
  let waiting (time : Z) :=
    set_timeouts {[ 0%nat := (200, DeferredUpdate []) ]} 1
      (initialEnv time pending noMetadata) in
  let started :=
    {| lastRunSuccess := None; runStartTime := Some 100;
       runStartTimeAdjustment := None; runEndTime := None;
       renderDuration := None |} in
  let w := (deferred, waiting 40) in
  let w1 :=
    TimerCellStatusBarItem.run (H := exampleWorkbench)
      [Tick 50;
       DidChangeExecution
         (Some {| state := NotebookCellExecutionState.Executing; didPause := false |});
       Timeout 0; DidChangeConfiguration "verbose"; Tick 150] w in
  let w2 :=
    exec (TimerCellStatusBarItem.step (H := exampleWorkbench)
            (DidChangeInternalMetadata started)) w1 in
  pushes
    (exec (TimerCellStatusBarItem._update (H := exampleWorkbench))
       (idle, initialEnv 0 pending noMetadata)).2 = [] ∧
  TimerCellStatusBarItem._deferredUpdate
    (exec (TimerCellStatusBarItem._update (H := exampleWorkbench))
       (deferred, set_cellExecution None (waiting 250))).1 = None ∧
  pushes
    (exec (TimerCellStatusBarItem.step (H := exampleWorkbench) (Timeout 0))
       (deferred, waiting 250)).2 = [(7, [])] ∧
  timerSessionOk
    (TimerCellStatusBarItem.run (H := exampleWorkbench)
       [DidChangeExecution pending]
       (TimerCellStatusBarItem.new (H := exampleWorkbench) 7
          (initialEnv 0 None noMetadata))) ∧
  (pushes w1.2 = pushes w.2 ∧
   timeouts w1.2 !! 0%nat = Some (200, DeferredUpdate [])) ∧
  (∃ items,
     pushes w2.2 = (7, items) :: pushes w.2 ∧
     attachedItems (TimerCellStatusBarItem._currentItemIds w2.1) w2.2 = items ∧
     (timerItemDue w2.2 = true → ∃ item, items = [item]) ∧
     (timerItemDue w2.2 = false → items = [])) ∧
  TimerCellStatusBarItem._deferredUpdate w2.1 = None ∧
  noDeferredUpdatePending w2.2 ∧
  ∀ later,
    timeouts (TimerCellStatusBarItem.run (H := exampleWorkbench) later w2).2 !! 0%nat
      = None.
Proof.
  intros pending idle deferred waiting started w w1 w2.
  destruct (@timer_grace_period exampleWorkbench) as (P1 & P2 & P3 & P4 & P5).
  assert (Hok : ∀ e, timeouts e = {[ 0%nat := (200, DeferredUpdate []) ]} →
                 nextTimeout e = 1%nat → statusBarItems e = ∅ →
                 timerSessionOk (deferred, e)).
  { intros e Hto Hnext Hsb. split_and!; simpl.
    - reflexivity.
    - rewrite Hsb. apply dom_empty_L.
    - intros id due h. rewrite Hto, Hnext. intros Hl.
      apply lookup_singleton_Some in Hl as [<- [= <- <-]].
      split_and!; [lia | reflexivity | reflexivity | by left]. }
  split; [| split; [| split; [| split]]].
  - apply (P1 idle (initialEnv 0 pending noMetadata)). reflexivity.
  - apply (P2 deferred (set_cellExecution None (waiting 250)));
      [apply Hok; reflexivity | reflexivity].
  - apply (P3 deferred (waiting 250) 0%nat 200 []);
      [apply Hok; reflexivity | reflexivity | by vm_compute].
  - apply (P4 7 0 None noMetadata [DidChangeExecution pending]). reflexivity.
  - apply (P5 w 0%nat 200
             [Tick 50;
              DidChangeExecution
                (Some {| state := NotebookCellExecutionState.Executing;
                         didPause := false |});
              Timeout 0; DidChangeConfiguration "verbose"; Tick 150]
             (DidChangeInternalMetadata started));
      [apply Hok; reflexivity | reflexivity | reflexivity | reflexivity | |
       reflexivity | reflexivity].
    simpl. split_and!; try discriminate; try reflexivity; done.
Defined.

(** C2 as it is stated fails. The class does not listen to the execution
    state service. A finished cell shows its item; at 10 ms a run state
    appears (pending) and the metadata changes: the condition holds and the
    deferred update is set for 210 ms. At 20 ms the run state goes away
    again, with no update: from then on the recomputation yields an item,
    after 10 ms of the condition. At 210 ms the deferred update still
    pushes the empty list, and the item is removed. *)
Lemma silent_item_does_not_cancel_clear :
  let pending :=
    Some {| state := NotebookCellExecutionState.Pending; didPause := false |} in
  let finished :=
    {| lastRunSuccess := Some true; runStartTime := Some 0;
       runStartTimeAdjustment := None; runEndTime := Some 5;
       renderDuration := None |} in
  let w0 := TimerCellStatusBarItem.new (H := exampleWorkbench) 7
              (initialEnv 8 None finished) in
  let w1 := TimerCellStatusBarItem.run (H := exampleWorkbench)
              [Tick 10; DidChangeExecution pending;
               DidChangeInternalMetadata finished] w0 in
  let w2 := TimerCellStatusBarItem.run (H := exampleWorkbench)
              [Tick 20; DidChangeExecution None] w1 in
  let w3 := TimerCellStatusBarItem.run (H := exampleWorkbench)
              [Tick 210; Timeout 0] w2 in
  (∃ item, pushes w0.2 = [(7, [item])]) ∧
  (inGracePeriod w1.2 = true ∧ now w1.2 = 10 ∧ pushes w1.2 = pushes w0.2 ∧
   timeouts w1.2 = {[ 0%nat := (210, DeferredUpdate []) ]}) ∧
  (inGracePeriod w2.2 = false ∧ now w2.2 = 20 ∧
   ∃ item, (TimerCellStatusBarItem.computeTimerItem (H := exampleWorkbench) w2).1
             = Some item) ∧
  (now w3.2 = 210 ∧ pushes w3.2 = (7, []) :: pushes w0.2 ∧
   attachedItems (TimerCellStatusBarItem._currentItemIds w3.1) w3.2 = [] ∧
   ∃ item, (TimerCellStatusBarItem.computeTimerItem (H := exampleWorkbench) w3).1
             = Some item).
Proof.
  vm_compute. split_and!; try reflexivity; eexists; reflexivity.
Qed.

(** ** Disposal of the sessions *)

Lemma execution_state_gone_forever `{Workbench} (evs : list Event)
    (w : ExecutionStateCellStatusBarItem.t * Env) :
  executionStateSessionGone w →
  executionStateSessionGone (ExecutionStateCellStatusBarItem.run evs w).
Proof.
  revert w. induction evs as [|ev evs IH]; intros [s e] Hw; [done |].
  rewrite run_cons. apply IH.
  pose proof Hw as (Hd & Hsb & Hto). simpl in Hd, Hsb, Hto.
  destruct ev as [t' | id | runState | metadata | verbosity |].
  - by split_and!.
  - unfold ExecutionStateCellStatusBarItem.step, fireTimeout, bind, onEnv, gets,
      Date_now, exec.
    simpl. by rewrite Hto, lookup_empty.
  - rewrite step_execution, step_notify, Hd. by split_and!.
  - rewrite step_metadata, step_notify, Hd. by split_and!.
  - by split_and!.
  - by destruct (dispose_gone (s, e) (or_intror Hw)) as (? & _).
Qed.

Lemma timer_gone_forever `{Workbench} (evs : list Event)
    (w : TimerCellStatusBarItem.t * Env) :
  timerSessionGone w → timerSessionGone (TimerCellStatusBarItem.run evs w).
Proof.
  revert w. induction evs as [|ev evs IH]; intros [s e] Hw; [done |].
  rewrite run_cons_timer. apply IH.
  pose proof Hw as (Hd & Hsb & Hto). simpl in Hd, Hsb, Hto.
  destruct ev as [t' | id | runState | metadata | verbosity |].
  - by split_and!.
  - rewrite fire_none; [done | by rewrite Hto].
  - by split_and!.
  - rewrite step_metadata_timer, notify_timer, Hd. by split_and!.
  - rewrite step_configuration_timer, Hd. by split_and!.
  - by destruct (dispose_gone_timer (s, e) (or_intror Hw)) as (? & _).
Qed.

(** C7. Disposing a session of either indicator, in whatever state the
    session is after any sequence of events (so also while the timeout of
    the minimum display time, of the scheduler or of the grace period is
    pending): the last push replaces the items of the cell by the empty
    list, no item of the session is left in the status bar, no timeout of
    the session is left pending, and that stays so whatever happens
    afterwards. *)
Theorem disposal_clears `{Workbench} (handle time : Z)
    (runState : option INotebookCellExecution)
    (metadata : NotebookCellInternalMetadata) (evs later : list Event) :
  let e0 := initialEnv time runState metadata in
  let w := ExecutionStateCellStatusBarItem.run evs
             (ExecutionStateCellStatusBarItem.new handle e0) in
  let w' := exec ExecutionStateCellStatusBarItem.dispose w in
  let v := TimerCellStatusBarItem.run evs (TimerCellStatusBarItem.new handle e0) in
  let v' := exec TimerCellStatusBarItem.dispose v in
  (pushes w'.2 = (handle, []) :: pushes w.2 ∧
   statusBarItems w'.2 = ∅ ∧ timeouts w'.2 = ∅ ∧
   statusBarItems (ExecutionStateCellStatusBarItem.run later w').2 = ∅ ∧
   timeouts (ExecutionStateCellStatusBarItem.run later w').2 = ∅) ∧
  (pushes v'.2 = (handle, []) :: pushes v.2 ∧
   statusBarItems v'.2 = ∅ ∧ timeouts v'.2 = ∅ ∧
   statusBarItems (TimerCellStatusBarItem.run later v').2 = ∅ ∧
   timeouts (TimerCellStatusBarItem.run later v').2 = ∅).
Proof.
  intros e0 w w' v v'. subst e0. split.
  - destruct (new_ok handle time runState metadata) as [N1 N2].
    destruct (run_ok evs _ (or_introl N1)) as [R1 R2]. fold w in R1, R2.
    destruct (dispose_gone w R1) as (G1 & G2 & G3). fold w' in G1, G2, G3.
    pose proof (execution_state_gone_forever later w' G1) as (_ & L1 & L2).
    destruct G1 as (_ & G4 & G5).
    split_and!; try done. by rewrite G2, R2, N2.
  - destruct (new_ok_timer handle time runState metadata) as [N1 N2].
    destruct (run_ok_timer evs _ (or_introl N1)) as [R1 R2]. fold v in R1, R2.
    destruct (dispose_gone_timer v R1) as (G1 & G2 & G3). fold v' in G1, G2, G3.
    pose proof (timer_gone_forever later v' G1) as (_ & L1 & L2).
    destruct G1 as (_ & G4 & G5).
    split_and!; try done. by rewrite G2, R2, N2.
Qed.

(** A session of each kind disposed while its timeout is pending. *)
Example dispose_while_timeout_pending :
  let executing :=
    Some {| state := NotebookCellExecutionState.Executing; didPause := false |} in
  let pending :=
    Some {| state := NotebookCellExecutionState.Pending; didPause := false |} in
  let w :=
    ExecutionStateCellStatusBarItem.run (H := exampleWorkbench)
      [Tick 100; DidChangeExecution None]
      (ExecutionStateCellStatusBarItem.new (H := exampleWorkbench) 7
         (initialEnv 0 executing noMetadata)) in
  let v :=
    TimerCellStatusBarItem.new (H := exampleWorkbench) 7
      (initialEnv 0 pending noMetadata) in
  (timeouts w.2 !! 0%nat = Some (500, ClearExecutingState) ∧
   size (statusBarItems w.2) = 1%nat ∧
   timeouts (exec ExecutionStateCellStatusBarItem.dispose w).2 = ∅ ∧
   statusBarItems (exec ExecutionStateCellStatusBarItem.dispose w).2 = ∅) ∧
  (timeouts v.2 !! 0%nat = Some (200, DeferredUpdate []) ∧
   timeouts (exec TimerCellStatusBarItem.dispose v).2 = ∅ ∧
   pushes (exec TimerCellStatusBarItem.dispose v).2 = [(7, [])]).
Proof. by vm_compute. Qed.

(** * Further properties of the code *)

(** ** The controller: rebuilding and disposing *)

Section ControllerDisposal.
Import NotebookStatusBarController.

(** Disposing the sessions of a list of map entries: a session stays alive
    exactly when it is not among them. *)
Lemma disposeEntries_result (l : list (Z * nat)) (s : t * Editor) :
  let s' := exec (forEach l (fun entry => disposeSession entry.2)) s in
  s'.1 = s.1 ∧ hasViewModel s'.2 = hasViewModel s.2 ∧
  nextSession s'.2 = nextSession s.2 ∧
  ∀ sid, live s'.2 !! sid = if decide (sid ∈ l.*2) then None else live s.2 !! sid.
Proof.
  revert s. induction l as [|[h x] l IH]; intros s; simpl.
  - split_and!; done.
  - unfold exec, bind. simpl.
    set (s1 := (s.1, {| hasViewModel := hasViewModel s.2;
                        live := delete x (live s.2);
                        nextSession := nextSession s.2 |})).
    destruct (IH s1) as (I1 & I2 & I3 & I4). unfold exec in I1, I2, I3, I4.
    split_and!; try done. intros sid. rewrite I4. simpl.
    destruct (decide (sid ∈ l.*2)) as [Hin | Hin].
    + rewrite decide_True; [done | by right].
    + destruct (decide (sid = x)) as [-> | Hne].
      * rewrite lookup_delete_eq. rewrite decide_True; [done | by left].
      * rewrite lookup_delete_ne by done. rewrite decide_False; [done |].
        intros Hx. apply elem_of_cons in Hx as [|]; done.
Qed.

Lemma disposeAll_result (s : t * Editor) :
  let s' := exec disposeAll s in
  _visibleCells s'.1 = ∅ ∧ hasViewModel s'.2 = hasViewModel s.2 ∧
  nextSession s'.2 = nextSession s.2 ∧
  (∀ sid h, _visibleCells s.1 !! h = Some sid → live s'.2 !! sid = None) ∧
  (∀ sid, (∀ h, _visibleCells s.1 !! h ≠ Some sid) →
          live s'.2 !! sid = live s.2 !! sid).
Proof.
  unfold disposeAll, exec, bind, gets, setVisibleCells, modify. simpl.
  destruct (disposeEntries_result (map_to_list (_visibleCells s.1)) s)
    as (D1 & D2 & D3 & D4).
  unfold exec in D1, D2, D3, D4.
  destruct (forEach (map_to_list (_visibleCells s.1))
              (fun entry => disposeSession entry.2) s) as [[] s1].
  simpl in *. split_and!; try done.
  - intros sid h Hh. rewrite D4. rewrite decide_True; [done |].
    apply list_elem_of_fmap. exists (h, sid). split; [done |].
    by apply elem_of_map_to_list.
  - intros sid Hout. rewrite D4. rewrite decide_False; [done |].
    intros Hin. apply list_elem_of_fmap in Hin as ([h x] & -> & Hin).
    apply (Hout h). by apply elem_of_map_to_list.
Qed.

Lemma disposeAll_clears (s : t * Editor) :
  sessionsOfMap s →
  live (exec disposeAll s).2 = ∅ ∧ _visibleCells (exec disposeAll s).1 = ∅ ∧
  hasViewModel (exec disposeAll s).2 = hasViewModel s.2 ∧
  nextSession (exec disposeAll s).2 = nextSession s.2.
Proof.
  intros [HA _]. destruct (disposeAll_result s) as (D1 & D2 & D3 & D4 & D5).
  split_and!; try done. apply map_empty. intros sid.
  destruct (live s.2 !! sid) as [h|] eqn:Hl.
  - apply (D4 sid h). by apply HA.
  - rewrite D5; [done |]. intros h Hh. apply HA in Hh. congruence.
Qed.

(** [super.dispose ()] unregisters the listener; the sessions are disposed
    after it. *)
Lemma dispose_eq (s : t * Editor) :
  exec dispose s
    = exec disposeAll
        ({| _visibleCells := _visibleCells s.1; _isDisposed := true |}, s.2).
Proof. reflexivity. Qed.

(** X1. Disposing the controller. Whenever the sessions alive are those of
    the map (as they are after any run of deltas in lockstep), [dispose]
    leaves no session alive and an empty map, with or without a view
    model. *)
Theorem controller_dispose_disposes_all (s : t * Editor) :
  sessionsOfMap s →
  live (exec dispose s).2 = ∅ ∧ _visibleCells (exec dispose s).1 = ∅.
Proof.
  intros Hs. rewrite dispose_eq.
  destruct (disposeAll_clears
              ({| _visibleCells := _visibleCells s.1; _isDisposed := true |}, s.2) Hs)
    as (D1 & D2 & _).
  by split.
Qed.

Lemma controller_dispose_disposes_all_witness :
  live (exec dispose (new [1; 2] editorWithViewModel)).2 = ∅ ∧
  _visibleCells (exec dispose (new [1; 2] editorWithViewModel)).1 = ∅.
Proof.
  apply controller_dispose_disposes_all.
  apply (new_lockstep [1; 2]).
  apply NoDup_cons. split; [| apply NoDup_singleton].
  intros Hin. apply list_elem_of_singleton in Hin. discriminate.
Defined.

End ControllerDisposal.

Section ControllerRebuild.
Import NotebookStatusBarController.

(** The sessions built by the loop over the added cells carry identities
    that were not handed out before. *)
Lemma addCells_fresh (l : list Z) (s : t * Editor) (sid : nat) (h : Z) :
  live (exec (forEach l addCell) s).2 !! sid = Some h →
  live s.2 !! sid = Some h ∨ (nextSession s.2 ≤ sid)%nat.
Proof.
  revert s. induction l as [|x l IH]; intros s; simpl; [by left |].
  unfold exec, bind. simpl.
  set (s1 := ({| _visibleCells := <[x := nextSession s.2]> (_visibleCells s.1);
                 _isDisposed := _isDisposed s.1 |},
              {| hasViewModel := hasViewModel s.2;
                 live := <[nextSession s.2 := x]> (live s.2);
                 nextSession := S (nextSession s.2) |})).
  intros Hl. destruct (IH s1 Hl) as [Hold | Hnew]; simpl in *.
  - apply lookup_insert_Some in Hold as [[<- _] | [_ Hold]]; [right; lia | by left].
  - right. lia.
Qed.

Lemma updateEverything_eq (visibleCells : list Z) (s : t * Editor) :
  exec (_updateEverything visibleCells) s
    = exec (_updateVisibleCells {| added := visibleCells; removed := [] |})
        (exec disposeAll s).
Proof.
  unfold _updateEverything, exec, bind. by destruct (disposeAll s) as [[] s1].
Qed.

(** X2. [_updateEverything] on a controller whose sessions are those of its
    map. With a view model, every previous session is disposed and every
    visible cell gets a new session: the sessions are in lockstep with the
    visible cells and none of the previous sessions is alive. Without a
    view model every session is disposed and none is built, whatever the
    observer reports. *)
Theorem updateEverything_rebuilds (visibleCells : list Z) (s : t * Editor) :
  sessionsOfMap s → NoDup visibleCells →
  let s' := exec (_updateEverything visibleCells) s in
  if hasViewModel s.2 then
    lockstep (list_to_set visibleCells) s' ∧
    (∀ sid h, live s.2 !! sid = Some h → live s'.2 !! sid = None)
  else live s'.2 = ∅ ∧ _visibleCells s'.1 = ∅.
Proof.
  intros Hs Hnd s'. subst s'. rewrite updateEverything_eq.
  destruct (disposeAll_clears s Hs) as (D1 & D2 & D3 & D4).
  set (s1 := exec disposeAll s) in *.
  destruct (hasViewModel s.2) eqn:Hvm.
  - assert (Hs1 : sessionsOfMap s1).
    { split; intros sid h; rewrite D1, ?D2, lookup_empty; [| done].
      rewrite lookup_empty. done. }
    destruct (updateVisibleCells_lockstep ∅ {| added := visibleCells; removed := [] |}
                s1 D3 Hs1) as (U1 & [UA UB] & U3).
    { by rewrite D2, dom_empty_L. }
    { split; [done | set_solver]. }
    split; [split; [| done] |].
    + rewrite U3. unfold applyDelta. simpl. set_solver.
    + intros sid h Hl. destruct Hs as [_ HB]. apply HB in Hl.
      rewrite updateVisibleCells_eq by done. simpl.
      destruct (live (exec (forEach visibleCells addCell) s1).2 !! sid) as [h'|] eqn:Hl';
        [| done].
      apply addCells_fresh in Hl' as [Hold | Hnew].
      * by rewrite D1, lookup_empty in Hold.
      * rewrite D4 in Hnew. lia.
  - unfold exec, _updateVisibleCells, bind, gets. simpl.
    fold (exec disposeAll s). fold s1. rewrite D3. simpl. by split.
Qed.

Lemma updateEverything_rebuilds_witness :
  let s := new [1; 2] editorWithViewModel in
  let s' := exec (_updateEverything [2; 3]) s in
  lockstep (list_to_set [2; 3]) s' ∧
  (∀ sid h, live s.2 !! sid = Some h → live s'.2 !! sid = None).
Proof.
  assert (Hnd : ∀ a b : Z, a ≠ b → NoDup [a; b]).
  { intros a b Hne. apply NoDup_cons. split; [| apply NoDup_singleton].
    intros Hin. by apply list_elem_of_singleton in Hin. }
  apply (updateEverything_rebuilds [2; 3] (new [1; 2] editorWithViewModel)).
  - apply (new_lockstep [1; 2]). by apply Hnd.
  - by apply Hnd.
Defined.

(** X3. A cell that is added while it already has a session (and is not
    removed by the same delta): the map takes the new session and the
    previous one is not disposed. It stays alive, no entry of the map leads
    to it, and the [dispose] of the controller does not reach it. *)
Theorem added_twice_leaks_session (h : Z) (sid : nat) (s : t * Editor) :
  sessionsOfMap s → hasViewModel s.2 = true → _visibleCells s.1 !! h = Some sid →
  let s' := exec (_updateVisibleCells {| added := [h]; removed := [] |}) s in
  _visibleCells s'.1 !! h = Some (nextSession s.2) ∧
  nextSession s.2 ≠ sid ∧
  live s'.2 !! sid = Some h ∧
  (∀ h', _visibleCells s'.1 !! h' ≠ Some sid) ∧
  live (exec dispose s').2 !! sid = Some h.
Proof.
  intros [HA HB] Hvm Hh s'. subst s'. rewrite updateVisibleCells_eq by done.
  destruct s as [[cells dis] [vm lv nx]]. simpl in *.
  assert (Hl : lv !! sid = Some h) by by apply HA.
  assert (Hlt : (sid < nx)%nat) by by apply (HB sid h).
  assert (Hmap : ∀ h', <[h := nx]> cells !! h' ≠ Some sid).
  { intros h' Hh'. apply lookup_insert_Some in Hh' as [[_ ->] | [Hne Hh']]; [lia |].
    apply HA in Hh'. congruence. }
  assert (Hlive : <[nx := h]> lv !! sid = Some h).
  { rewrite lookup_insert_ne by lia. done. }
  set (s1 := ({| _visibleCells := <[h := nx]> cells; _isDisposed := dis |},
              {| hasViewModel := vm; live := <[nx := h]> lv; nextSession := S nx |})).
  change (exec (forEach (added {| added := [h]; removed := [] |}) addCell)
            (exec (forEach (removed {| added := [h]; removed := [] |}) removeCell)
               ({| _visibleCells := cells; _isDisposed := dis |},
                {| hasViewModel := vm; live := lv; nextSession := nx |})))
    with s1.
  split_and!; try done.
  - apply lookup_insert_eq.
  - lia.
  - rewrite dispose_eq.
    destruct (disposeAll_result
                ({| _visibleCells := _visibleCells s1.1; _isDisposed := true |}, s1.2))
      as (_ & _ & _ & _ & D5).
    rewrite D5; done.
Qed.

Lemma added_twice_leaks_session_witness :
  let s := new [1] editorWithViewModel in
  let s' := exec (_updateVisibleCells {| added := [1]; removed := [] |}) s in
  _visibleCells s'.1 !! 1 = Some (nextSession s.2) ∧
  nextSession s.2 ≠ 0%nat ∧
  live s'.2 !! 0%nat = Some 1 ∧
  (∀ h', _visibleCells s'.1 !! h' ≠ Some 0%nat) ∧
  live (exec dispose s').2 !! 0%nat = Some 1.
Proof.
  apply (added_twice_leaks_session 1 0%nat (new [1] editorWithViewModel)).
  - apply (new_lockstep [1]). apply NoDup_singleton.
  - reflexivity.
  - by vm_compute.
Defined.

(** X4. Removing a cell that has no session changes nothing: no session is
    disposed and the map is the same. *)
Theorem remove_unknown_cell_is_noop (h : Z) (s : t * Editor) :
  hasViewModel s.2 = true → _visibleCells s.1 !! h = None →
  exec (_updateVisibleCells {| added := []; removed := [h] |}) s = s.
Proof.
  intros Hvm Hh. rewrite updateVisibleCells_eq by done.
  destruct s as [[cells dis] ed]. simpl in *.
  unfold exec, removeCell, bind, ret, gets, setVisibleCells, modify. simpl.
  rewrite Hh. simpl. by rewrite delete_id.
Qed.

Lemma remove_unknown_cell_is_noop_witness :
  exec (_updateVisibleCells {| added := []; removed := [5] |})
    (new [1] editorWithViewModel)
  = new [1] editorWithViewModel.
Proof.
  apply remove_unknown_cell_is_noop; [reflexivity | by vm_compute].
Defined.

End ControllerRebuild.

Section ControllerKeeps.
Import NotebookStatusBarController.

Lemma forEach_cons {S A} (x : A) (l : list A) (f : A → State S unit) (s : S) :
  exec (forEach (x :: l) f) s = exec (forEach l f) (exec (f x) s).
Proof. unfold exec, bind. simpl. unfold bind. by destruct (f x s) as [[] s1]. Qed.

Lemma removeCells_keep (l : list Z) (s : t * Editor) (h : Z) (sid : nat) :
  sessionsOfMap s → h ∉ l → _visibleCells s.1 !! h = Some sid →
  _visibleCells (exec (forEach l removeCell) s).1 !! h = Some sid.
Proof.
  revert s. induction l as [|x l IH]; intros s Hs Hl Hh; [done |].
  apply not_elem_of_cons in Hl as [Hne Hl].
  rewrite forEach_cons.
  apply IH; [by apply removeCell_inv | done |].
  destruct s as [[cells dis] ed]. simpl in *.
  unfold exec, removeCell, bind, gets, setVisibleCells, modify. simpl.
  destruct (cells !! x); simpl; by rewrite lookup_delete_ne.
Qed.

Lemma addCells_keep (l : list Z) (s : t * Editor) (h : Z) (sid : nat) :
  h ∉ l → _visibleCells s.1 !! h = Some sid → live s.2 !! sid = Some h →
  (sid < nextSession s.2)%nat →
  _visibleCells (exec (forEach l addCell) s).1 !! h = Some sid ∧
  live (exec (forEach l addCell) s).2 !! sid = Some h.
Proof.
  revert s. induction l as [|x l IH]; intros s Hl Hh Hlive Hlt; [done |].
  apply not_elem_of_cons in Hl as [Hne Hl].
  rewrite forEach_cons.
  destruct s as [[cells dis] [vm lv nx]]. simpl in *.
  apply IH; try done; unfold exec, addCell, bind, gets, setVisibleCells, modify,
    _itemFactory; simpl.
  - by rewrite lookup_insert_ne.
  - rewrite lookup_insert_ne by lia. done.
  - lia.
Qed.

(** X5. A visibility delta leaves the session of every cell it does not
    name as it is: the cell keeps the same session, which stays alive (the
    session is not rebuilt), the editor having a view model or not. *)
Theorem untouched_cell_keeps_session (e : ICellVisibilityChangeEvent)
    (s : t * Editor) (h : Z) (sid : nat) :
  sessionsOfMap s → h ∉ removed e → h ∉ added e →
  _visibleCells s.1 !! h = Some sid →
  _visibleCells (exec (_updateVisibleCells e) s).1 !! h = Some sid ∧
  live (exec (_updateVisibleCells e) s).2 !! sid = Some h.
Proof.
  intros Hs Hr Ha Hh. destruct (hasViewModel s.2) eqn:Hvm.
  - rewrite updateVisibleCells_eq by done.
    destruct (removeCells_inv (removed e) s Hs) as ([HA HB] & _ & _).
    pose proof (removeCells_keep (removed e) s h sid Hs Hr Hh) as Hk.
    apply addCells_keep; [done | done | by apply HA |].
    apply (HB sid h). by apply HA.
  - unfold exec, _updateVisibleCells, bind, gets. simpl. rewrite Hvm. simpl.
    split; [done |]. destruct Hs as [HA _]. by apply HA.
Qed.

Lemma untouched_cell_keeps_session_witness :
  let s := new [1; 2] editorWithViewModel in
  let e := {| added := [3]; removed := [2] |} in
  _visibleCells (exec (_updateVisibleCells e) s).1 !! 1 = Some 0%nat ∧
  live (exec (_updateVisibleCells e) s).2 !! 0%nat = Some 1.
Proof.
  apply (untouched_cell_keeps_session {| added := [3]; removed := [2] |}
           (new [1; 2] editorWithViewModel) 1 0%nat).
  - apply (new_lockstep [1; 2]). apply NoDup_cons. split; [| apply NoDup_singleton].
    intros Hin. by apply list_elem_of_singleton in Hin.
  - simpl. intros Hin. by apply list_elem_of_singleton in Hin.
  - simpl. intros Hin. by apply list_elem_of_singleton in Hin.
  - by vm_compute.
Defined.

End ControllerKeeps.

Section VisibilityLockstep.
Import NotebookStatusBarController.

Lemma run_snoc (es : list ICellVisibilityChangeEvent) (e : ICellVisibilityChangeEvent)
    (s : t * Editor) :
  run (es ++ [e]) s = exec (notify e) (run es s).
Proof. revert s. induction es as [|e' es IH]; intros s; [done | apply IH]. Qed.

Lemma deltasOf_lookup (V : gset Z) (es : list ICellVisibilityChangeEvent) (k : nat)
    (e : ICellVisibilityChangeEvent) :
  deltasOf V es → es !! k = Some e → deltaOf (visibleAfter V (take k es)) e.
Proof.
  revert V k. induction es as [|e' es IH]; intros V [|k]; simpl; try done.
  - intros [He _] [= ->]. done.
  - intros [_ Hes] Hk. by apply IH.
Qed.

(** A removal only disposes sessions. *)
Lemma removeCells_live (l : list Z) (s : t * Editor) (sid : nat) :
  live s.2 !! sid = None → live (exec (forEach l removeCell) s).2 !! sid = None.
Proof.
  revert s. induction l as [|x l IH]; intros s Hl; [done |].
  rewrite forEach_cons. apply IH.
  unfold exec, removeCell, bind, gets, disposeSession, setVisibleCells, modify, ret.
  simpl. destruct (_visibleCells s.1 !! x) as [sid'|]; simpl; [| done].
  destruct (decide (sid = sid')) as [-> | Hne];
    [apply lookup_delete_eq | by rewrite lookup_delete_ne].
Qed.

(** The session of a removed cell is disposed. *)
Lemma removeCells_disposed (l : list Z) (s : t * Editor) (h : Z) (sid : nat) :
  sessionsOfMap s → h ∈ l → _visibleCells s.1 !! h = Some sid →
  live (exec (forEach l removeCell) s).2 !! sid = None.
Proof.
  revert s. induction l as [|x l IH]; intros s Hs Hin Hh.
  - by apply elem_of_nil in Hin.
  - rewrite forEach_cons. destruct (decide (x = h)) as [-> | Hne].
    + apply removeCells_live.
      unfold exec, removeCell, bind, gets, disposeSession, setVisibleCells, modify, ret.
      simpl. rewrite Hh. simpl. apply lookup_delete_eq.
    + apply elem_of_cons in Hin as [-> | Hin]; [done |].
      apply IH; [by apply removeCell_inv | done |].
      unfold exec, removeCell, bind, gets, disposeSession, setVisibleCells, modify, ret.
      simpl. destruct (_visibleCells s.1 !! x); simpl; by rewrite lookup_delete_ne.
Qed.

Lemma addCells_lookup_notin (l : list Z) (s : t * Editor) (h : Z) :
  h ∉ l →
  _visibleCells (exec (forEach l addCell) s).1 !! h = _visibleCells s.1 !! h.
Proof.
  revert s. induction l as [|x l IH]; intros s Hl; [done |].
  apply not_elem_of_cons in Hl as [Hne Hl]. rewrite forEach_cons, IH by done.
  unfold exec, addCell, bind, gets, _itemFactory, setVisibleCells, modify. simpl.
  by rewrite lookup_insert_ne.
Qed.

(** The session of an added cell is built by the loop: its identity was not
    handed out before. *)
Lemma addCells_added (l : list Z) (s : t * Editor) (h : Z) :
  h ∈ l →
  ∃ sid, _visibleCells (exec (forEach l addCell) s).1 !! h = Some sid ∧
         (nextSession s.2 ≤ sid)%nat.
Proof.
  revert s. induction l as [|x l IH]; intros s Hin.
  - by apply elem_of_nil in Hin.
  - rewrite forEach_cons. destruct (decide (h ∈ l)) as [Hl | Hl].
    + destruct (IH (exec (addCell x) s) Hl) as (sid & Hsid & Hle).
      exists sid. split; [done |].
      unfold exec, addCell, bind, gets, _itemFactory, setVisibleCells, modify in Hle.
      simpl in Hle. lia.
    + apply elem_of_cons in Hin as [-> | Hin]; [| done].
      exists (nextSession s.2). split; [| done].
      rewrite addCells_lookup_notin by done.
      unfold exec, addCell, bind, gets, _itemFactory, setVisibleCells, modify. simpl.
      apply lookup_insert_eq.
Qed.

(** C6, as amended. A controller is built on the distinct visible cells of
    an editor that has a view model, and the deltas of the tracker reach it
    while the view model is there. After every prefix of the deltas the
    cells of the map are exactly the visible cells and the sessions alive
    are exactly the sessions of the map: one session per visible cell, none
    for a cell that is not visible. The next delta disposes the session of
    each cell it removes, which is no longer the session of the cell in the
    map, and gives each cell it adds a session built for it by that delta
    (alive, and of an identity that did not exist before). A delta that
    arrives while the editor has no view model changes nothing. *)
Theorem visibility_lockstep (visibleCells : list Z)
    (es : list ICellVisibilityChangeEvent) (k : nat) :
  NoDup visibleCells → deltasOf (list_to_set visibleCells) es →
  let s := run (take k es) (new visibleCells editorWithViewModel) in
  lockstep (visibleAfter (list_to_set visibleCells) (take k es)) s ∧
  (∀ e, es !! k = Some e →
     let s' := run (take (S k) es) (new visibleCells editorWithViewModel) in
     (∀ h sid, h ∈ removed e → _visibleCells s.1 !! h = Some sid →
        live s'.2 !! sid = None ∧ _visibleCells s'.1 !! h ≠ Some sid) ∧
     (∀ h, h ∈ added e →
        ∃ sid, _visibleCells s'.1 !! h = Some sid ∧ live s'.2 !! sid = Some h ∧
               live s.2 !! sid = None ∧ (nextSession s.2 ≤ sid)%nat)) ∧
  (∀ (e : ICellVisibilityChangeEvent) (s0 : t * Editor),
     hasViewModel s0.2 = false →
     exec (_updateVisibleCells e) s0 = s0 ∧ run [e] s0 = s0).
Proof.
  intros Hnd Hes s.
  destruct (new_lockstep visibleCells Hnd) as (N1 & N2 & N3).
  destruct (run_lockstep (list_to_set visibleCells) (take k es)
              (new visibleCells editorWithViewModel))
    as (R1 & R2 & R3 & R4);
    [apply new_isDisposed | done | done | done | by apply deltasOf_take |].
  fold s in R1, R2, R3, R4. split_and!; [done | |].
  - intros e Hk s'.
    assert (Hs' : s' = exec (forEach (added e) addCell)
                         (exec (forEach (removed e) removeCell) s)).
    { subst s'. rewrite (take_S_r es k e Hk), run_snoc. fold s.
      rewrite notify_eq, R2. by apply updateVisibleCells_eq. }
    pose proof (deltasOf_lookup _ es k e Hes Hk) as He.
    destruct R1 as [Rdom _].
    destruct (updateVisibleCells_lockstep _ e s R3 R4 Rdom He) as (_ & [UA UB] & Udom).
    rewrite updateVisibleCells_eq in UA, UB, Udom by done. rewrite <- Hs' in UA, UB, Udom.
    destruct R4 as [HA HB].
    destruct (removeCells_isDisposed (removed e) s) as [_ Hnext].
    split.
    + intros h sid Hin Hh.
      assert (Hdead : live s'.2 !! sid = None).
      { destruct (live s'.2 !! sid) as [h'|] eqn:Hl; [| done]. rewrite Hs' in Hl.
        apply addCells_fresh in Hl as [Hold | Hnew].
        - rewrite (removeCells_disposed (removed e) s h sid) in Hold; done.
        - rewrite Hnext in Hnew. apply HA in Hh. apply HB in Hh. lia. }
      split; [done |]. intros Hmap. apply UA in Hmap. congruence.
    + intros h Hin.
      destruct (addCells_added (added e) (exec (forEach (removed e) removeCell) s) h Hin)
        as (sid & Hsid & Hle).
      rewrite <- Hs' in Hsid. rewrite Hnext in Hle.
      exists sid. split_and!; [done | by apply UA | | done].
      destruct (live s.2 !! sid) as [h'|] eqn:Hl; [| done].
      apply HB in Hl. lia.
  - intros e s0 Hvm.
    assert (Hskip : exec (_updateVisibleCells e) s0 = s0).
    { unfold exec, _updateVisibleCells, bind, gets. simpl. by rewrite Hvm. }
    split; [done |]. simpl. rewrite notify_eq, Hskip. by destruct (_isDisposed s0.1).
Qed.

Lemma visibility_lockstep_witness :
  let es := [ {| added := [3]; removed := [1] |};
              {| added := [3]; removed := [3; 2] |} ] in
  let s := run (take 1 es) (new [1; 2] editorWithViewModel) in
  lockstep (visibleAfter (list_to_set [1; 2]) (take 1 es)) s ∧
  (∀ e, es !! 1%nat = Some e →
     let s' := run (take 2 es) (new [1; 2] editorWithViewModel) in
     (∀ h sid, h ∈ removed e → _visibleCells s.1 !! h = Some sid →
        live s'.2 !! sid = None ∧ _visibleCells s'.1 !! h ≠ Some sid) ∧
     (∀ h, h ∈ added e →
        ∃ sid, _visibleCells s'.1 !! h = Some sid ∧ live s'.2 !! sid = Some h ∧
               live s.2 !! sid = None ∧ (nextSession s.2 ≤ sid)%nat)) ∧
  (∀ (e : ICellVisibilityChangeEvent) (s0 : t * Editor),
     hasViewModel s0.2 = false →
     exec (_updateVisibleCells e) s0 = s0 ∧ run [e] s0 = s0).
Proof.
  apply (visibility_lockstep [1; 2]
           [ {| added := [3]; removed := [1] |};
             {| added := [3]; removed := [3; 2] |} ] 1).
  - apply NoDup_cons. split; [| apply NoDup_singleton].
    intros Hin. apply list_elem_of_singleton in Hin. discriminate.
  - simpl. unfold deltaOf. simpl. split_and!; try apply NoDup_singleton; try done.
    + intros h Hin. apply list_elem_of_singleton in Hin. subst h.
      intros Hin. exfalso. revert Hin.
      rewrite !elem_of_union, !elem_of_singleton, elem_of_empty. intros [|[|[]]]; discriminate.
    + intros h Hin. apply list_elem_of_singleton in Hin. subst h.
      intros _. apply elem_of_cons. by left.
Defined.

(** Once the controller is disposed its listener is gone: the deltas of the
    observer reach it no more, and no session is built. *)
Lemma run_after_dispose (es : list ICellVisibilityChangeEvent) (s : t * Editor) :
  run es (exec dispose s) = exec dispose s.
Proof.
  assert (Hd : _isDisposed (exec dispose s).1 = true).
  { rewrite dispose_eq. unfold disposeAll, exec, bind, gets, setVisibleCells, modify.
    simpl.
    destruct (forEach (map_to_list (_visibleCells s.1))
                (fun entry => disposeSession entry.2)
                ({| _visibleCells := _visibleCells s.1; _isDisposed := true |}, s.2))
      as [[] s1] eqn:Hs1.
    simpl.
    destruct (disposeEntries_result (map_to_list (_visibleCells s.1))
                ({| _visibleCells := _visibleCells s.1; _isDisposed := true |}, s.2))
      as (D1 & _).
    unfold exec in D1. rewrite Hs1 in D1. simpl in D1. by rewrite D1. }
  revert Hd. generalize (exec dispose s). clear s.
  induction es as [|e es IH]; intros s Hd; [done |].
  simpl. rewrite notify_eq, Hd. by apply IH.
Qed.

End VisibilityLockstep.

(** ** The duration text *)

Lemma duration_parts_of_tenths (d : Z) :
  0 <= d ->
  d / 60000 = d / 100 / 600 /\ d / 1000 = d / 100 / 10 /\
  (d mod 1000) / 100 = (d / 100) mod 10.
Proof.
  intros Hd. split; [| split].
  - rewrite Z.div_div by lia. reflexivity.
  - rewrite Z.div_div by lia. reflexivity.
  - change 1000 with (100 * 10). rewrite Z.rem_mul_r by lia.
    rewrite (Z.mul_comm 100), Z.div_add by lia.
    rewrite Z.div_small; [lia |]. apply Z.mod_pos_bound. lia.
Qed.

(** X6. Without milliseconds, which is how the timer item calls the helper,
    the text of a duration that is a whole number of milliseconds from 0 to
    [Number.MAX_SAFE_INTEGER] depends on the duration only through its
    number of whole tenths of a second: two such durations in the same
    tenth have the same text. *)
Theorem formatCellDuration_same_tenth (d d' : Z) :
  Number_isSafeInteger d -> Number_isSafeInteger d' ->
  0 <= d -> 0 <= d' -> d / 100 = d' / 100 ->
  formatCellDuration d false = formatCellDuration d' false.
Proof.
  intros _ _ Hd Hd' Heq.
  rewrite !formatCellDuration_long by (try lia; by left).
  destruct (duration_parts_of_tenths d Hd) as (-> & -> & ->).
  destruct (duration_parts_of_tenths d' Hd') as (-> & -> & ->).
  by rewrite Heq.
Qed.

Lemma formatCellDuration_same_tenth_witness :
  formatCellDuration 65200 false = formatCellDuration 65299 false.
Proof.
  apply formatCellDuration_same_tenth;
    try (unfold Number_isSafeInteger, MAX_SAFE_INTEGER; lia).
  reflexivity.
Defined.

(** ** The execution state indicator: the display start and its timeout *)

Section DisplayStart.
Context `{Workbench}.
Import ExecutionStateCellStatusBarItem.

(** A push changes neither the timeouts, the clock nor the run state. *)
Lemma push_accounted (s : t) (e : Env) (items : list INotebookCellStatusBarItem) :
  clearTimerBacked (s, e) → displayStartAccounted (s, e) →
  let r := deltaCellStatusBarItems (_currentItemIds s) (_handle s) items e in
  clearTimerBacked (set_currentItemIds r.1 s, r.2) ∧
  displayStartAccounted (set_currentItemIds r.1 s, r.2).
Proof.
  intros Hb Ha.
  pose proof (delta_result (_currentItemIds s) (_handle s) items e) as D.
  cbv zeta in D |- *.
  set (r := deltaCellStatusBarItems (_currentItemIds s) (_handle s) items e) in *.
  clearbody r. destruct D as (D1 & D2 & D3 & D4 & D5 & D6 & D7 & D8 & D9 & D10).
  unfold clearTimerBacked, displayStartAccounted in *. simpl in *.
  rewrite D3, D5, D6. done.
Qed.

Lemma getItemsForCell_accounted (s : t) (e : Env) :
  executionStateSessionOk (s, e) → clearTimerBacked (s, e) →
  ∃ r s' e', _getItemsForCell (s, e) = (r, (s', e')) ∧
    clearTimerBacked (s', e') ∧ displayStartAccounted (s', e').
Proof.
  intros (Hd & Hm & Hdom & Hto) Hb. unfold clearTimerBacked in Hb. simpl in Hb, Hm.
  destruct (isExecuting (cellExecution e)) eqn:He;
    destruct (_showedExecutingStateTime s) as [showed|] eqn:Hs.
  - eexists _, _, _. split; [by apply getItemsForCell_plain; rewrite He, Hs |].
    unfold clearTimerBacked, displayStartAccounted. simpl. rewrite Hs, He.
    split_and!; try done.
  - eexists _, _, _. split; [by apply getItemsForCell_start |].
    unfold clearTimerBacked, displayStartAccounted. simpl. rewrite He.
    split_and!; try done.
    intros id Hid. destruct (Hb id Hid) as (due & Hl & Hdue).
    exists due. split; [done |]. unfold MIN_SPINNER_TIME. lia.
  - destruct (Z.lt_ge_cases (now e - showed) MIN_SPINNER_TIME) as [Hlt | Hge].
    + destruct (_clearExecutingStateTimer s) as [[id|] dis] eqn:Ht;
        simpl in Hm; subst dis.
      * eexists _, _, _.
        split; [by apply (getItemsForCell_hold_pending s e showed id) |].
        unfold clearTimerBacked, displayStartAccounted. simpl. rewrite Hs, He, Ht.
        simpl. split_and!; try done.
      * eexists _, _, _.
        split; [by apply (getItemsForCell_hold_schedule s e showed) |].
        unfold clearTimerBacked, displayStartAccounted. simpl. rewrite Hs, He.
        split_and!; try done.
        intros id [= <-]. eexists. rewrite lookup_insert_eq. split; [done | lia].
    + eexists _, _, _. split; [by apply (getItemsForCell_expired s e showed) |].
      unfold clearTimerBacked, displayStartAccounted. simpl. rewrite He.
      split_and!; try done; try (by intros _ [? ?]).
      intros id Hid. destruct (Hb id Hid) as (due & Hl & Hdue).
      exists due. split; [done | lia].
  - eexists _, _, _. split; [by apply getItemsForCell_plain; rewrite He, Hs |].
    unfold clearTimerBacked, displayStartAccounted. simpl. rewrite Hs, He.
    split_and!; try done; try (by intros _ [? ?]).
Qed.

Lemma update_accounted (s : t) (e : Env) :
  executionStateSessionOk (s, e) → clearTimerBacked (s, e) →
  clearTimerBacked (exec _update (s, e)) ∧
  displayStartAccounted (exec _update (s, e)).
Proof.
  intros Hok Hb. rewrite update_result.
  destruct (getItemsForCell_accounted s e Hok Hb) as (r & s' & e' & -> & Hb' & Ha').
  destruct r as [items|]; [| done]. by apply push_accounted.
Qed.

Lemma step_accounted (ev : Event) (w : t * Env) :
  executionStateSessionOk w → clearTimerBacked w → displayStartAccounted w →
  executionStateSessionGone (exec (step ev) w) ∨
  (executionStateSessionOk (exec (step ev) w) ∧
   clearTimerBacked (exec (step ev) w) ∧ displayStartAccounted (exec (step ev) w)).
Proof.
  destruct w as [s e]. intros Hok Hb Ha.
  destruct (step_ok ev (s, e) (or_introl Hok)) as [[Hok' | Hgone'] _]; [| by left].
  right. split; [done |].
  pose proof Hok as (Hd & Hm & Hdom & Hto). simpl in Hd, Hm, Hdom, Hto.
  assert (Hnotify : ∀ e1,
            statusBarItems e1 = statusBarItems e → timeouts e1 = timeouts e →
            now e1 = now e →
            clearTimerBacked (exec notify (s, e1)) ∧
            displayStartAccounted (exec notify (s, e1))).
  { intros e1 Hsb Hto1 Hnow. rewrite step_notify, Hd. apply update_accounted.
    - split_and!; try done; simpl; rewrite ?Hsb, ?Hto1; done.
    - unfold clearTimerBacked in *. simpl in *. by rewrite Hto1, Hnow. }
  destruct ev as [t' | id | runState | metadata | verbosity |].
  - split; [| done]. unfold clearTimerBacked in *. simpl in *.
    intros id Hid. destruct (Hb id Hid) as (due & Hl & Hdue).
    exists due. split; [done |].
    destruct (_showedExecutingStateTime s); lia.
  - destruct (timeouts e !! id) as [[due h]|] eqn:Hl.
    2:{ unfold step, fireTimeout, bind, onEnv, gets, Date_now, exec. simpl.
        by rewrite Hl. }
    destruct (Z.leb_spec due (now e)) as [Hdue | Hdue].
    2:{ unfold step, fireTimeout, bind, onEnv, gets, Date_now, exec. simpl. rewrite Hl.
        destruct (Z.leb_spec due (now e)); [lia | done]. }
    pose proof (Hto id ltac:(by eexists)) as Hv.
    destruct (Hb id Hv) as (due' & Hl' & _). simpl in Hl'.
    assert (h = ClearExecutingState) as -> by congruence.
    rewrite (fire_clearExecutingState s e id due); [| done | done |].
    2:{ destruct (_clearExecutingStateTimer s) as [v dis]. simpl in *. congruence. }
    apply update_accounted.
    + split_and!; try done. simpl. intros i [x Hx].
      apply lookup_delete_Some in Hx as [Hne Hx].
      pose proof (Hto i ltac:(by eexists)). congruence.
    + by intros i.
  - rewrite step_execution. by apply Hnotify.
  - rewrite step_metadata. by apply Hnotify.
  - done.
  - destruct (dispose_gone (s, e) (or_introl Hok)) as ((Hd' & _) & _).
    destruct Hok' as (Hd'' & _). unfold step in Hd''. congruence.
Qed.

Lemma run_accounted (evs : list Event) (w : t * Env) :
  executionStateSessionOk w → clearTimerBacked w → displayStartAccounted w →
  executionStateSessionGone (run evs w) ∨
  (executionStateSessionOk (run evs w) ∧
   clearTimerBacked (run evs w) ∧ displayStartAccounted (run evs w)).
Proof.
  revert w. induction evs as [|ev evs IH]; intros w Hok Hb Ha; [by right |].
  rewrite run_cons.
  destruct (step_accounted ev w Hok Hb Ha) as [Hgone | (Hok' & Hb' & Ha')].
  - left. by apply execution_state_gone_forever.
  - by apply IH.
Qed.

Lemma new_accounted (handle : Z) (e : Env) :
  timeouts e = ∅ → statusBarItems e = ∅ →
  executionStateSessionOk (new handle e) ∧
  clearTimerBacked (new handle e) ∧ displayStartAccounted (new handle e).
Proof.
  intros Hto Hsb. unfold new.
  set (s0 := {| _handle := handle; _currentItemIds := [];
                _showedExecutingStateTime := None;
                _clearExecutingStateTimer :=
                  {| _value := None; _mutableIsDisposed := false |};
                _isDisposed := false |}).
  assert (Hok : executionStateSessionOk (s0, e)).
  { split_and!; try done; simpl.
    - rewrite Hsb. set_solver.
    - intros id. rewrite Hto, lookup_empty. by intros [? ?]. }
  assert (Hb : clearTimerBacked (s0, e)) by by intros id.
  split; [by apply update_ok |]. by apply update_accounted.
Qed.

(** X7. In every state a session of the execution state indicator reaches
    and in which it is not disposed: while the cell is executing the start
    of the display is recorded, and when the display outlasts the execution
    (a start is recorded and the cell is not executing) the timeout that
    ends the display is pending and due no later than 500 ms after that
    start. The display of the executing state cannot be left without the
    timeout that ends it. *)
Theorem held_display_has_timeout (handle time : Z)
    (runState : option INotebookCellExecution)
    (metadata : NotebookCellInternalMetadata) (evs : list Event) :
  let w := run evs (new handle (initialEnv time runState metadata)) in
  _isDisposed w.1 = false →
  (isExecuting (cellExecution w.2) = true →
   is_Some (_showedExecutingStateTime w.1)) ∧
  (∀ showed, _showedExecutingStateTime w.1 = Some showed →
     isExecuting (cellExecution w.2) = false →
     ∃ id due, timeouts w.2 !! id = Some (due, ClearExecutingState) ∧
       due <= showed + MIN_SPINNER_TIME).
Proof.
  intros w Hd.
  destruct (new_accounted handle (initialEnv time runState metadata))
    as (Hok & Hb & Ha); [done | done |].
  destruct (run_accounted evs _ Hok Hb Ha) as [(Hd' & _) | (_ & Hb' & Ha1 & Ha2)].
  { fold w in Hd'. congruence. }
  fold w in Hb', Ha1, Ha2. split; [done |].
  intros showed Hs He. destruct (Ha2 He) as [id Hid]; [by rewrite Hs |].
  destruct (Hb' id Hid) as (due & Hl & Hdue). rewrite Hs in Hdue.
  by exists id, due.
Qed.

End DisplayStart.

Lemma held_display_has_timeout_witness :
  let executing :=
    Some {| state := NotebookCellExecutionState.Executing; didPause := false |} in
  let w :=
    ExecutionStateCellStatusBarItem.run (H := exampleWorkbench)
      [Tick 1100; DidChangeExecution None]
      (ExecutionStateCellStatusBarItem.new (H := exampleWorkbench) 7
         (initialEnv 1000 executing noMetadata)) in
  (isExecuting (cellExecution w.2) = true →
   is_Some (ExecutionStateCellStatusBarItem._showedExecutingStateTime w.1)) ∧
  (∀ showed,
     ExecutionStateCellStatusBarItem._showedExecutingStateTime w.1 = Some showed →
     isExecuting (cellExecution w.2) = false →
     ∃ id due, timeouts w.2 !! id = Some (due, ClearExecutingState) ∧
       due <= showed + ExecutionStateCellStatusBarItem.MIN_SPINNER_TIME).
Proof.
  apply (held_display_has_timeout (H := exampleWorkbench)). reflexivity.
Defined.

(** ** The timeouts of a session *)

Lemma size_dom_le_1 {A} (m : gmap nat A) (o : option nat) :
  (∀ id, is_Some (m !! id) → o = Some id) → (size m ≤ 1)%nat.
Proof.
  intros Hm. rewrite <- size_dom.
  destruct o as [i|].
  - rewrite <- (size_singleton (C := gset nat) i).
    apply subseteq_size. intros j Hj. apply elem_of_dom in Hj.
    apply Hm in Hj. injection Hj as ->. by apply elem_of_singleton.
  - replace (dom m) with (∅ : gset nat); [rewrite size_empty; lia |].
    symmetry. apply set_eq. intros j. split; [| by intros ?%not_elem_of_empty].
    intros Hj. apply elem_of_dom in Hj. apply Hm in Hj. done.
Qed.

Lemma size_dom_le_2 {A} (m : gmap nat A) (o1 o2 : option nat) :
  (∀ id, is_Some (m !! id) → o1 = Some id ∨ o2 = Some id) → (size m ≤ 2)%nat.
Proof.
  intros Hm. rewrite <- size_dom.
  set (X := (from_option singleton ∅ o1 : gset nat)).
  set (Y := (from_option singleton ∅ o2 : gset nat)).
  assert (HX : (size X ≤ 1)%nat).
  { subst X. destruct o1 as [a|].
    - change (size ({[a]} : gset nat) ≤ 1)%nat. by rewrite size_singleton.
    - change (size (∅ : gset nat) ≤ 1)%nat. rewrite size_empty. lia. }
  assert (HY : (size Y ≤ 1)%nat).
  { subst Y. destruct o2 as [a|].
    - change (size ({[a]} : gset nat) ≤ 1)%nat. by rewrite size_singleton.
    - change (size (∅ : gset nat) ≤ 1)%nat. rewrite size_empty. lia. }
  transitivity (size (X ∪ Y)).
  - apply subseteq_size. intros j Hj. apply elem_of_dom in Hj.
    apply Hm in Hj as [-> | ->]; subst X Y; simpl; apply elem_of_union;
      [left | right]; by apply elem_of_singleton.
  - pose proof (size_union_alt X Y) as Hu.
    pose proof (subseteq_size (Y ∖ X) Y ltac:(set_solver)). lia.
Qed.

(** X8. A session of the execution state indicator never has more than one
    timeout pending, whatever the events since its construction, and a
    pending timeout is the one that ends the display of the executing
    state. *)
Theorem execution_state_one_timeout `{Workbench} (handle time : Z)
    (runState : option INotebookCellExecution)
    (metadata : NotebookCellInternalMetadata) (evs : list Event) :
  let w := ExecutionStateCellStatusBarItem.run evs
             (ExecutionStateCellStatusBarItem.new handle
                (initialEnv time runState metadata)) in
  (size (timeouts w.2) ≤ 1)%nat ∧
  map_Forall (fun _ pending => pending.2 = ClearExecutingState) (timeouts w.2).
Proof.
  intros w.
  destruct (new_accounted handle (initialEnv time runState metadata))
    as (Hok & Hb & Ha); [done | done |].
  pose proof (run_accounted evs _ Hok Hb Ha) as R. fold w in R.
  destruct R as [(_ & _ & Hto) | (Hok' & Hb' & _)].
  - rewrite Hto. split; [rewrite map_size_empty; lia | apply map_Forall_empty].
  - destruct Hok' as (_ & _ & _ & Hto). split.
    + by apply (size_dom_le_1 _
                  (_value (ExecutionStateCellStatusBarItem._clearExecutingStateTimer w.1))).
    + intros id [due h] Hl. simpl.
      pose proof (Hto id ltac:(by eexists)) as Hv.
      destruct (Hb' id Hv) as (due' & Hl' & _). congruence.
Qed.

(** X9. A session of the timer indicator never has more than two timeouts
    pending, whatever the events since its construction: the one of the
    scheduler and the deferred update of the grace period. The closure of
    the execution state indicator is never among them. *)
Theorem timer_two_timeouts `{Workbench} (handle time : Z)
    (runState : option INotebookCellExecution)
    (metadata : NotebookCellInternalMetadata) (evs : list Event) :
  let w := TimerCellStatusBarItem.run evs
             (TimerCellStatusBarItem.new handle (initialEnv time runState metadata)) in
  (size (timeouts w.2) ≤ 2)%nat ∧
  map_Forall (fun _ pending =>
                pending.2 = SchedulerRun ∨ pending.2 = DeferredUpdate [])
    (timeouts w.2).
Proof.
  intros w.
  destruct (new_ok_timer handle time runState metadata) as [N1 _].
  pose proof (run_ok_timer evs _ (or_introl N1)) as R. fold w in R.
  destruct R as [[Hok | (_ & _ & Hto)] _].
  - destruct Hok as (_ & _ & Hto). split.
    + apply (size_dom_le_2 _ (TimerCellStatusBarItem._scheduler w.1)
               (TimerCellStatusBarItem._deferredUpdate w.1)).
      intros id [[due h] Hl]. destruct (Hto id due h Hl) as [_ Hh].
      destruct h as [| items |]; [done | right; by destruct Hh as (_ & ? & _) | by left].
    + intros id [due h] Hl. simpl. destruct (Hto id due h Hl) as [_ Hh].
      destruct h as [| items |]; [done | right; by destruct Hh as (-> & _) | by left].
  - rewrite Hto. split; [rewrite map_size_empty; lia | apply map_Forall_empty].
Qed.

(** ** The constructors *)

(** X10. The constructor of a session of the execution state indicator, in
    any state of the workbench: the items of the current state are pushed at
    once for the cell of the session (the only push), they are the items
    attached under the tokens the session keeps, the display start is
    recorded exactly when the cell is executing, and no timeout is set. *)
Theorem execution_state_new_shows_state `{Workbench} (handle : Z) (e : Env) :
  let w := ExecutionStateCellStatusBarItem.new handle e in
  let items := _getItemForState (cellExecution e) (internalMetadata e) in
  pushes w.2 = (handle, items) :: pushes e ∧
  attachedItems (ExecutionStateCellStatusBarItem._currentItemIds w.1) w.2 = items ∧
  ExecutionStateCellStatusBarItem._showedExecutingStateTime w.1
    = (if isExecuting (cellExecution e) then Some (now e) else None) ∧
  timeouts w.2 = timeouts e ∧
  ExecutionStateCellStatusBarItem._isDisposed w.1 = false.
Proof.
  intros w items. subst w. unfold ExecutionStateCellStatusBarItem.new.
  rewrite update_result.
  destruct (isExecuting (cellExecution e)) eqn:He.
  - rewrite getItemsForCell_start by done. cbv zeta.
    pose proof (delta_result [] handle items e) as D. cbv zeta in D.
    destruct D as (D1 & D2 & D3 & D4 & D5 & D6 & D7 & D8 & D9 & D10).
    by split_and!.
  - rewrite getItemsForCell_plain by (by rewrite He). cbv zeta.
    pose proof (delta_result [] handle items e) as D. cbv zeta in D.
    destruct D as (D1 & D2 & D3 & D4 & D5 & D6 & D7 & D8 & D9 & D10).
    by split_and!.
Qed.

(** ** The timer indicator: the scheduler *)

Section TimerTicks.
Context `{Workbench}.
Import TimerCellStatusBarItem.

(** The second half of [_update] does not touch the scheduler. *)
Lemma applyTimerItem_scheduler (timerItem : option INotebookCellStatusBarItem)
    (s : t) (e : Env) :
  _scheduler (exec (applyTimerItem timerItem) (s, e)).1 = _scheduler s.
Proof.
  destruct timerItem as [item|].
  - rewrite applyTimerItem_push by (left; by eexists).
    rewrite cancelDeferredUpdate_result, pushItems_result. simpl.
    by destruct (_deferredUpdate s).
  - destruct (cellExecution e) as [execution|] eqn:He.
    + destruct (_deferredUpdate s) as [id|] eqn:Hd.
      * by rewrite (applyTimerItem_deferred s e id) by (by rewrite ?He).
      * by rewrite applyTimerItem_defer by (by rewrite ?He).
    + rewrite applyTimerItem_push by (by right).
      rewrite cancelDeferredUpdate_result, pushItems_result. simpl.
      by destruct (_deferredUpdate s).
Qed.

(** The scheduler fires while the cell is executing with a start time and
    no deferred update is pending. *)
Lemma scheduler_tick (s : t) (e : Env) (id : nat) (due startTime : Z)
    (execution : INotebookCellExecution) :
  timeouts e !! id = Some (due, SchedulerRun) → due <= now e →
  cellExecution e = Some execution → didPause execution = false →
  state execution = NotebookCellExecutionState.Executing →
  runStartTime (internalMetadata e) = Some startTime →
  _deferredUpdate s = None →
  let item :=
    _getTimeItem (_isVerbose s) startTime (now e)
      (Some (default 0 (runStartTimeAdjustment (internalMetadata e)))) None in
  let w := exec (step (Timeout id)) (s, e) in
  pushes w.2 = (_handle s, [item]) :: pushes e ∧
  timeouts w.2
    = <[nextTimeout e := (now e + UPDATE_INTERVAL, SchedulerRun)]>
        (delete id (timeouts e)) ∧
  nextTimeout w.2 = S (nextTimeout e) ∧ now w.2 = now e ∧
  cellExecution w.2 = cellExecution e ∧ internalMetadata w.2 = internalMetadata e ∧
  _scheduler w.1 = Some (nextTimeout e) ∧ _deferredUpdate w.1 = None ∧
  _isVerbose w.1 = _isVerbose s ∧ _handle w.1 = _handle s ∧
  _isDisposed w.1 = _isDisposed s ∧
  attachedItems (_currentItemIds w.1) w.2 = [item].
Proof.
  intros Hl Hdue He Hp Hst Hstart Hdef item w. subst w.
  rewrite (fire_schedulerRun s e id due) by done.
  rewrite update_result_timer.
  rewrite (computeTimerItem_executing _ _ execution startTime) by done.
  cbn [fst snd]. rewrite scheduler_schedule_result.
  rewrite applyTimerItem_push by (left; by eexists).
  rewrite cancelDeferredUpdate_result, pushItems_result. simpl.
  rewrite Hdef. simpl.
  split_and!; try done. by rewrite lookup_insert_eq.
Qed.

Lemma last_cons_default (l : list Z) (a d : Z) :
  List.last (a :: l) d = List.last l a.
Proof.
  revert a d. induction l as [|b l IH]; intros a d; [done |].
  change (List.last (a :: b :: l) d) with (List.last (b :: l) d).
  rewrite IH. symmetry. apply IH.
Qed.

Lemma step_tick (s : t) (e : Env) (time : Z) :
  exec (step (Tick time)) (s, e) = (s, set_now (Z.max (now e) time) e).
Proof. reflexivity. Qed.

Lemma ticks_run (execution : INotebookCellExecution)
    (metadata : NotebookCellInternalMetadata) (startTime : Z)
    (times : list Z) :
  didPause execution = false →
  state execution = NotebookCellExecutionState.Executing →
  runStartTime metadata = Some startTime →
  ∀ (id : nat) (time : Z) (s : t) (e : Env),
    _deferredUpdate s = None →
    now e = time → cellExecution e = Some execution →
    internalMetadata e = metadata →
    timeouts e = {[ id := (time + UPDATE_INTERVAL, SchedulerRun) ]} →
    nextTimeout e = S id →
    spacedBy UPDATE_INTERVAL time times →
    let item (time : Z) :=
      _getTimeItem (_isVerbose s) startTime time
        (Some (default 0 (runStartTimeAdjustment metadata))) None in
    let w := run (schedulerFirings id times) (s, e) in
    pushes w.2 = rev (map (fun time => (_handle s, [item time])) times) ++ pushes e ∧
    timeouts w.2
      = {[ (id + length times)%nat
             := (List.last times time + UPDATE_INTERVAL, SchedulerRun) ]} ∧
    nextTimeout w.2 = S (id + length times) ∧
    now w.2 = List.last times time ∧
    cellExecution w.2 = Some execution ∧ internalMetadata w.2 = metadata ∧
    _scheduler w.1 = (if times is [] then _scheduler s else Some (id + length times)%nat) ∧
    _deferredUpdate w.1 = None ∧
    _isVerbose w.1 = _isVerbose s ∧ _handle w.1 = _handle s ∧
    _isDisposed w.1 = _isDisposed s.
Proof.
  intros Hp Hst Hstart.
  induction times as [|time' times IH]; intros id time s e Hdef Hnow He Hmd Hto Hnext Hsp.
  - simpl. rewrite Nat.add_0_r. by split_and!.
  - destruct Hsp as [Hle Hsp]. cbv zeta.
    change (schedulerFirings id (time' :: times))
      with (Tick time' :: Timeout id :: schedulerFirings (S id) times).
    rewrite !run_cons_timer, step_tick.
    set (e1 := set_now (Z.max (now e) time') e).
    assert (Hnow1 : now e1 = time') by (simpl; unfold UPDATE_INTERVAL in Hle; lia).
    assert (Hto1 : timeouts e1 = {[ id := (time + UPDATE_INTERVAL, SchedulerRun) ]})
      by done.
    assert (He1 : cellExecution e1 = Some execution) by done.
    assert (Hmd1 : internalMetadata e1 = metadata) by done.
    assert (Hnext1 : nextTimeout e1 = S id) by done.
    assert (Hpushes1 : pushes e1 = pushes e) by done.
    clearbody e1.
    destruct (scheduler_tick s e1 id (time + UPDATE_INTERVAL) startTime execution)
      as (T1 & T2 & T3 & T4 & T5 & T6 & T7 & T8 & T9 & T10 & T11 & _);
      try done.
    { by rewrite Hto1, lookup_singleton_eq. }
    { lia. }
    { by rewrite Hmd1. }
    destruct (exec (step (Timeout id)) (s, e1)) as [s1 e2].
    cbn [fst snd] in T1, T2, T3, T4, T5, T6, T7, T8, T9, T10, T11.
    rewrite Hnow1, ?Hmd1 in T1. rewrite Hnow1, Hto1, Hnext1 in T2.
    rewrite Hnext1 in T3, T7. rewrite Hnow1 in T4. rewrite He1 in T5.
    rewrite Hmd1 in T6.
    rewrite delete_singleton_eq, insert_empty in T2.
    destruct (IH (S id) time' s1 e2) as (R1 & R2 & R3 & R4 & R5 & R6 & R7 & R8 & R9 & R10 & R11);
      try done.
    cbv zeta in R1. rewrite T9, T10 in R1. cbn [fst snd].
    replace (S id + length times)%nat with (id + length (time' :: times))%nat in *
      by (simpl; lia).
    split_and!; try done; try congruence.
    + rewrite R1, T1, Hpushes1. simpl. by rewrite <- app_assoc.
    + by rewrite R2, last_cons_default.
    + by rewrite R4, last_cons_default.
    + rewrite R7. destruct times; [| done]. rewrite T7. f_equal. simpl. lia.
Qed.

End TimerTicks.

Section TimerLifecycle.
Context `{Workbench}.
Import TimerCellStatusBarItem.

Lemma run_app_timer (evs evs' : list Event) (w : t * Env) :
  run (evs ++ evs') w = run evs' (run evs w).
Proof. revert w. induction evs as [|ev evs IH]; intros w; [done | apply IH]. Qed.

(** [_update] for a cell with no run state and both a start and an end
    time. *)
Lemma update_finished (s : t) (e : Env) (startTime endTime : Z) :
  cellExecution e = None →
  runStartTime (internalMetadata e) = Some startTime →
  runEndTime (internalMetadata e) = Some endTime →
  let item :=
    _getTimeItem (_isVerbose s) startTime endTime None
      (Some {| RuntimeInformation.timerDuration :=
                 now e - startTime
                   + default 0 (runStartTimeAdjustment (internalMetadata e));
               RuntimeInformation.executionDuration := endTime - startTime;
               RuntimeInformation.renderDuration :=
                 default [] (renderDuration (internalMetadata e)) |}) in
  let w := exec _update (s, e) in
  pushes w.2 = (_handle s, [item]) :: pushes e ∧
  timeouts w.2
    = match _deferredUpdate s with
      | Some id => delete id (timeouts e)
      | None => timeouts e
      end ∧
  nextTimeout w.2 = nextTimeout e ∧ now w.2 = now e ∧
  cellExecution w.2 = cellExecution e ∧ internalMetadata w.2 = internalMetadata e ∧
  _scheduler w.1 = _scheduler s ∧ _deferredUpdate w.1 = None ∧
  _isVerbose w.1 = _isVerbose s ∧ _handle w.1 = _handle s ∧
  _isDisposed w.1 = _isDisposed s ∧
  attachedItems (_currentItemIds w.1) w.2 = [item].
Proof.
  intros He Hstart Hend item w. subst w.
  rewrite update_result_timer.
  rewrite (computeTimerItem_finished _ _ startTime endTime) by done.
  cbn [fst snd]. rewrite applyTimerItem_push by (by right).
  rewrite cancelDeferredUpdate_result, pushItems_result.
  destruct (_deferredUpdate s) as [id|]; simpl;
    (split_and!; try done; by rewrite lookup_insert_eq).
Qed.

Lemma new_executing_timer (handle time startTime : Z)
    (execution : INotebookCellExecution) (metadata : NotebookCellInternalMetadata) :
  didPause execution = false →
  state execution = NotebookCellExecutionState.Executing →
  runStartTime metadata = Some startTime →
  let item :=
    _getTimeItem false startTime time
      (Some (default 0 (runStartTimeAdjustment metadata))) None in
  let w := new handle (initialEnv time (Some execution) metadata) in
  pushes w.2 = [(handle, [item])] ∧
  timeouts w.2 = {[ 0%nat := (time + UPDATE_INTERVAL, SchedulerRun) ]} ∧
  nextTimeout w.2 = 1%nat ∧ now w.2 = time ∧
  cellExecution w.2 = Some execution ∧ internalMetadata w.2 = metadata ∧
  _scheduler w.1 = Some 0%nat ∧ _deferredUpdate w.1 = None ∧
  _isVerbose w.1 = false ∧ _handle w.1 = handle ∧ _isDisposed w.1 = false.
Proof.
  intros Hp Hst Hstart item w. subst w. unfold new.
  rewrite update_result_timer.
  rewrite (computeTimerItem_executing _ _ execution startTime) by done.
  cbn [fst snd]. rewrite scheduler_schedule_result.
  rewrite applyTimerItem_push by (left; by eexists).
  rewrite cancelDeferredUpdate_result, pushItems_result. simpl.
  by split_and!.
Qed.

(** X11. The timer of an executing cell ticks. A session built while the
    cell is executing with a start time, whose scheduler then fires at the
    given times (each at least 100 ms after the one before): the
    construction and every firing push one item for the cell, whose text is
    the time elapsed since the start at that moment plus the adjustment,
    formatted without milliseconds, and after every firing exactly one
    timeout is pending, the scheduler re-armed 100 ms after the last
    firing. *)
Theorem timer_ticks (handle time startTime : Z)
    (execution : INotebookCellExecution) (metadata : NotebookCellInternalMetadata)
    (times : list Z) :
  didPause execution = false →
  state execution = NotebookCellExecutionState.Executing →
  runStartTime metadata = Some startTime →
  spacedBy UPDATE_INTERVAL time times →
  let adjustment := default 0 (runStartTimeAdjustment metadata) in
  let item (now : Z) := _getTimeItem false startTime now (Some adjustment) None in
  let w := run (schedulerFirings 0 times)
             (new handle (initialEnv time (Some execution) metadata)) in
  pushes w.2 = rev (map (fun now => (handle, [item now])) (time :: times)) ∧
  (∀ now, text (item now) = formatCellDuration (now - startTime + adjustment) false) ∧
  timeouts w.2
    = {[ length times := (List.last times time + UPDATE_INTERVAL, SchedulerRun) ]}.
Proof.
  intros Hp Hst Hstart Hsp adjustment item w.
  destruct (new_executing_timer handle time startTime execution metadata Hp Hst Hstart)
    as (N1 & N2 & N3 & N4 & N5 & N6 & N7 & N8 & N9 & N10 & N11).
  destruct (new handle (initialEnv time (Some execution) metadata)) as [s e] eqn:Hnew.
  cbn [fst snd] in *.
  destruct (ticks_run execution metadata startTime times Hp Hst Hstart
              0%nat time s e) as (R1 & R2 & _); try done.
  fold w in R1, R2. cbv zeta in R1. rewrite N9, N10, N1 in R1.
  split_and!; [| done | done].
  by rewrite R1.
Qed.

(** X12. The timer stops after the execution. A session is built while the
    cell is executing and its scheduler fires at the given times; then the
    run state goes away and the metadata gets an end time: the change of
    the metadata pushes the item of the finished run, and the timeout of the
    scheduler is still pending (it is not cancelled). When it fires, the
    item of the finished run is pushed once more, computed at that moment,
    and no timeout is left: the scheduler is not re-armed. *)
Theorem timer_stops_after_execution (handle time startTime endTime lastTime : Z)
    (execution : INotebookCellExecution)
    (metadata finished : NotebookCellInternalMetadata) (times : list Z) :
  didPause execution = false →
  state execution = NotebookCellExecutionState.Executing →
  runStartTime metadata = Some startTime →
  spacedBy UPDATE_INTERVAL time times →
  runStartTime finished = Some startTime → runEndTime finished = Some endTime →
  List.last times time + UPDATE_INTERVAL <= lastTime →
  let item (now : Z) :=
    _getTimeItem false startTime endTime None
      (Some {| RuntimeInformation.timerDuration :=
                 now - startTime + default 0 (runStartTimeAdjustment finished);
               RuntimeInformation.executionDuration := endTime - startTime;
               RuntimeInformation.renderDuration :=
                 default [] (renderDuration finished) |}) in
  let w0 := run (schedulerFirings 0 times)
              (new handle (initialEnv time (Some execution) metadata)) in
  let w1 := run [DidChangeExecution None; DidChangeInternalMetadata finished] w0 in
  let w2 := run [Tick lastTime; Timeout (length times)] w1 in
  (pushes w1.2 = (handle, [item (List.last times time)]) :: pushes w0.2 ∧
   timeouts w1.2
     = {[ length times := (List.last times time + UPDATE_INTERVAL, SchedulerRun) ]}) ∧
  (pushes w2.2 = (handle, [item lastTime]) :: pushes w1.2 ∧
   attachedItems (_currentItemIds w2.1) w2.2 = [item lastTime] ∧
   timeouts w2.2 = ∅).
Proof.
  intros Hp Hst Hstart Hsp Hstart' Hend Hlast item w0 w1 w2.
  destruct (new_executing_timer handle time startTime execution metadata Hp Hst Hstart)
    as (N1 & N2 & N3 & N4 & N5 & N6 & N7 & N8 & N9 & N10 & N11).
  destruct (new handle (initialEnv time (Some execution) metadata)) as [s e] eqn:Hnew.
  cbn [fst snd] in *.
  destruct (ticks_run execution metadata startTime times Hp Hst Hstart
              0%nat time s e)
    as (_ & R2 & R3 & R4 & R5 & R6 & R7 & R8 & R9 & R10 & R11); try done.
  fold w0 in R2, R3, R4, R5, R6, R7, R8, R9, R10, R11.
  rewrite N9 in R9. rewrite N10 in R10. rewrite N11 in R11. simpl in R2, R3.
  subst w1 w2. destruct w0 as [s0 e0]. cbn [fst snd] in *.
  rewrite !run_cons_timer.
  change (exec (step (DidChangeExecution None)) (s0, e0))
    with (s0, set_cellExecution None e0).
  rewrite step_metadata_timer, notify_timer, R11.
  set (e1 := set_internalMetadata finished (set_cellExecution None e0)).
  destruct (update_finished s0 e1 startTime endTime)
    as (U1 & U2 & U3 & U4 & U5 & U6 & U7 & U8 & U9 & U10 & U11 & _); try done.
  rewrite R8 in U2. rewrite R9 in U1. rewrite R10 in U1.
  change (pushes e1) with (pushes e0) in U1.
  change (now e1) with (now e0) in U1, U4. rewrite R4 in U1, U4.
  change (internalMetadata e1) with finished in U1, U6.
  change (timeouts e1) with (timeouts e0) in U2. rewrite R2 in U2.
  change (nextTimeout e1) with (nextTimeout e0) in U3.
  change (cellExecution e1) with (@None INotebookCellExecution) in U5.
  clearbody e1.
  destruct (exec _update (s0, e1)) as [s2 e2]. cbn [fst snd] in *.
  change (run [] (s2, e2)) with (s2, e2).
  rewrite step_tick. cbn [fst snd].
  split; [by split |].
  set (e3 := set_now (Z.max (now e2) lastTime) e2).
  unfold UPDATE_INTERVAL in Hlast.
  assert (Hnow3 : now e3 = lastTime) by (simpl; lia).
  rewrite (fire_schedulerRun s2 e3 (length times)
             (List.last times time + UPDATE_INTERVAL));
    [| by (simpl; rewrite U2, lookup_singleton_eq) | unfold UPDATE_INTERVAL; lia].
  set (e4 := set_timeouts (delete (length times) (timeouts e3)) (nextTimeout e3) e3).
  destruct (update_finished (set_scheduler None s2) e4 startTime endTime)
    as (V1 & V2 & V3 & V4 & V5 & V6 & V7 & V8 & V9 & V10 & V11 & V12);
    try (simpl; congruence).
  set (w4 := exec _update (set_scheduler None s2, e4)) in *.
  change (run [] w4) with w4. clearbody w4.
  subst e4 e3.
  cbn [_isVerbose _handle _deferredUpdate set_scheduler internalMetadata now
       timeouts pushes set_timeouts set_now] in V1, V2, V12.
  rewrite U9, U10, U6, R9, R10 in V1. rewrite U8, U2 in V2.
  rewrite U9, U6, R9 in V12.
  rewrite delete_singleton_eq in V2.
  replace (Z.max (now e2) lastTime) with lastTime in V1, V12 by lia.
  by split_and!.
Qed.

End TimerLifecycle.

Lemma timer_ticks_witness :
  let execution :=
    {| state := NotebookCellExecutionState.Executing; didPause := false |} in
  let metadata :=
    {| lastRunSuccess := None; runStartTime := Some 1000;
       runStartTimeAdjustment := Some 20; runEndTime := None;
       renderDuration := None |} in
  let item (now : Z) :=
    _getTimeItem (H := exampleWorkbench) false 1000 now (Some 20) None in
  let w := TimerCellStatusBarItem.run (H := exampleWorkbench)
             (schedulerFirings 0 [1150; 1250])
             (TimerCellStatusBarItem.new (H := exampleWorkbench) 7
                (initialEnv 1040 (Some execution) metadata)) in
  pushes w.2 = rev (map (fun now => (7, [item now])) [1040; 1150; 1250]) ∧
  (∀ now, text (item now) = formatCellDuration (now - 1000 + 20) false) ∧
  timeouts w.2
    = {[ 2%nat := (1250 + TimerCellStatusBarItem.UPDATE_INTERVAL, SchedulerRun) ]}.
Proof.
  apply (timer_ticks (H := exampleWorkbench) 7 1040 1000
           {| state := NotebookCellExecutionState.Executing; didPause := false |}
           {| lastRunSuccess := None; runStartTime := Some 1000;
              runStartTimeAdjustment := Some 20; runEndTime := None;
              renderDuration := None |}
           [1150; 1250]);
    try reflexivity.
  simpl. unfold TimerCellStatusBarItem.UPDATE_INTERVAL. lia.
Defined.

Lemma timer_stops_after_execution_witness :
  let execution :=
    {| state := NotebookCellExecutionState.Executing; didPause := false |} in
  let metadata :=
    {| lastRunSuccess := None; runStartTime := Some 1000;
       runStartTimeAdjustment := None; runEndTime := None;
       renderDuration := None |} in
  let finished :=
    {| lastRunSuccess := Some true; runStartTime := Some 1000;
       runStartTimeAdjustment := None; runEndTime := Some 1230;
       renderDuration := None |} in
  let item (now : Z) :=
    _getTimeItem (H := exampleWorkbench) false 1000 1230 None
      (Some {| RuntimeInformation.timerDuration := now - 1000 + 0;
               RuntimeInformation.executionDuration := 1230 - 1000;
               RuntimeInformation.renderDuration := [] |}) in
  let w0 := TimerCellStatusBarItem.run (H := exampleWorkbench)
              (schedulerFirings 0 [1150; 1250])
              (TimerCellStatusBarItem.new (H := exampleWorkbench) 7
                 (initialEnv 1040 (Some execution) metadata)) in
  let w1 := TimerCellStatusBarItem.run (H := exampleWorkbench)
              [DidChangeExecution None; DidChangeInternalMetadata finished] w0 in
  let w2 := TimerCellStatusBarItem.run (H := exampleWorkbench)
              [Tick 1360; Timeout 2] w1 in
  (pushes w1.2 = (7, [item 1250]) :: pushes w0.2 ∧
   timeouts w1.2
     = {[ 2%nat := (1250 + TimerCellStatusBarItem.UPDATE_INTERVAL, SchedulerRun) ]}) ∧
  (pushes w2.2 = (7, [item 1360]) :: pushes w1.2 ∧
   attachedItems (TimerCellStatusBarItem._currentItemIds w2.1) w2.2 = [item 1360] ∧
   timeouts w2.2 = ∅).
Proof.
  apply (timer_stops_after_execution (H := exampleWorkbench) 7 1040 1000 1230 1360
           {| state := NotebookCellExecutionState.Executing; didPause := false |}
           {| lastRunSuccess := None; runStartTime := Some 1000;
              runStartTimeAdjustment := None; runEndTime := None;
              renderDuration := None |}
           {| lastRunSuccess := Some true; runStartTime := Some 1000;
              runStartTimeAdjustment := None; runEndTime := Some 1230;
              renderDuration := None |}
           [1150; 1250]);
    try reflexivity.
  - simpl. unfold TimerCellStatusBarItem.UPDATE_INTERVAL. lia.
  - simpl. unfold TimerCellStatusBarItem.UPDATE_INTERVAL. lia.
Defined.

(** ** The timer indicator: the verbosity setting *)

(** X13. A change of the verbosity setting takes effect at once on a
    session of the timer indicator that is not disposed: the setting is read
    again and, for a finished run, the item is pushed again with its text in
    the new form (the message with the time of the last execution when the
    setting is [verbose], the bare duration otherwise). *)
Theorem verbosity_change_applies `{Workbench} (s : TimerCellStatusBarItem.t) (e : Env)
    (verbosity : string) (startTime endTime : Z) :
  TimerCellStatusBarItem._isDisposed s = false →
  cellExecution e = None →
  runStartTime (internalMetadata e) = Some startTime →
  runEndTime (internalMetadata e) = Some endTime →
  let verbose := String.eqb verbosity "verbose" in
  let w := exec (TimerCellStatusBarItem.step (DidChangeConfiguration verbosity)) (s, e) in
  TimerCellStatusBarItem._isVerbose w.1 = verbose ∧
  ∃ item,
    pushes w.2 = (TimerCellStatusBarItem._handle s, [item]) :: pushes e ∧
    attachedItems (TimerCellStatusBarItem._currentItemIds w.1) w.2 = [item] ∧
    text item
      = (if verbose then
           localize "notebook.cell.statusBar.timerVerbose"
             "Last Execution: {0}, Duration: {1}"
             [toLocaleTimeString endTime language;
              formatCellDuration (endTime - startTime) false]
         else formatCellDuration (endTime - startTime) false).
Proof.
  intros Hd He Hstart Hend verbose w. subst w.
  rewrite step_configuration_timer, Hd.
  set (s1 := TimerCellStatusBarItem.set_isVerbose
               (TimerCellStatusBarItem.isVerbose
                  (set_cellExecutionTimeVerbosity verbosity e)) s).
  set (e1 := set_cellExecutionTimeVerbosity verbosity e).
  destruct (update_finished s1 e1 startTime endTime)
    as (U1 & _ & _ & _ & _ & _ & _ & _ & U9 & _ & _ & U12); try done.
  split; [by rewrite U9 |].
  eexists. split_and!; [apply U1 | apply U12 |].
  unfold _getTimeItem, executionText. simpl.
  replace (endTime - startTime + 0) with (endTime - startTime) by lia.
  done.
Qed.

Lemma verbosity_change_applies_witness :
  let finished :=
    {| lastRunSuccess := Some true; runStartTime := Some 1000;
       runStartTimeAdjustment := None; runEndTime := Some 3500;
       renderDuration := None |} in
  let w0 := TimerCellStatusBarItem.new (H := exampleWorkbench) 7
              (initialEnv 4000 None finished) in
  let w := exec (TimerCellStatusBarItem.step (H := exampleWorkbench)
                   (DidChangeConfiguration "verbose")) w0 in
  TimerCellStatusBarItem._isVerbose w.1 = true ∧
  ∃ item,
    pushes w.2 = (7, [item]) :: pushes w0.2 ∧
    attachedItems (TimerCellStatusBarItem._currentItemIds w.1) w.2 = [item] ∧
    text item = "Last Execution: T3500, Duration: 2.5s".
Proof.
  apply (verbosity_change_applies (H := exampleWorkbench)
           (TimerCellStatusBarItem.new (H := exampleWorkbench) 7
              (initialEnv 4000 None
                 {| lastRunSuccess := Some true; runStartTime := Some 1000;
                    runStartTimeAdjustment := None; runEndTime := Some 3500;
                    renderDuration := None |})).1
           (TimerCellStatusBarItem.new (H := exampleWorkbench) 7
              (initialEnv 4000 None
                 {| lastRunSuccess := Some true; runStartTime := Some 1000;
                    runStartTimeAdjustment := None; runEndTime := Some 3500;
                    renderDuration := None |})).2
           "verbose" 1000 3500);
    reflexivity.
Defined.

(** ** The execution state indicator: what the status bar shows *)

Section DisplayUpToDate.
Context `{Workbench}.
Import ExecutionStateCellStatusBarItem.

Lemma push_up_to_date (s : t) (e : Env) :
  let items := _getItemForState (cellExecution e) (internalMetadata e) in
  let r := deltaCellStatusBarItems (_currentItemIds s) (_handle s) items e in
  displayUpToDate (set_currentItemIds r.1 s, r.2).
Proof.
  intros items r _. subst r.
  pose proof (delta_result (_currentItemIds s) (_handle s) items e) as D.
  cbv zeta in D.
  set (r := deltaCellStatusBarItems (_currentItemIds s) (_handle s) items e) in *.
  clearbody r. destruct D as (D1 & D2 & D3 & D4 & D5 & D6 & D7 & D8 & D9 & D10).
  cbn [fst snd _currentItemIds set_currentItemIds]. by rewrite D10, D6, D7.
Qed.

Lemma update_up_to_date (s : t) (e : Env) :
  executionStateSessionOk (s, e) → displayUpToDate (exec _update (s, e)).
Proof.
  intros (Hd & Hm & Hdom & Hto). simpl in Hm. rewrite update_result.
  destruct (isExecuting (cellExecution e)) eqn:He;
    destruct (_showedExecutingStateTime s) as [showed|] eqn:Hs.
  - rewrite getItemsForCell_plain by (by rewrite He, Hs). apply push_up_to_date.
  - rewrite getItemsForCell_start by done.
    apply (push_up_to_date (set_showedExecutingStateTime (Some (now e)) s) e).
  - destruct (Z.lt_ge_cases (now e - showed) MIN_SPINNER_TIME) as [Hlt | Hge].
    + destruct (_clearExecutingStateTimer s) as [[id|] dis] eqn:Ht;
        simpl in Hm; subst dis.
      * rewrite (getItemsForCell_hold_pending s e showed id) by done.
        intros [Hex | Hnone]; simpl in *; congruence.
      * rewrite (getItemsForCell_hold_schedule s e showed) by done.
        intros [Hex | Hnone]; simpl in *; congruence.
    + rewrite (getItemsForCell_expired s e showed) by done.
      apply (push_up_to_date (set_showedExecutingStateTime None s) e).
  - rewrite getItemsForCell_plain by (by rewrite He, Hs). apply push_up_to_date.
Qed.

Lemma step_up_to_date (ev : Event) (w : t * Env) :
  executionStateSessionOk w → clearTimerBacked w → displayUpToDate w →
  executionStateSessionGone (exec (step ev) w) ∨ displayUpToDate (exec (step ev) w).
Proof.
  destruct w as [s e]. intros Hok Hb Hu.
  pose proof Hok as (Hd & Hm & Hdom & Hto). simpl in Hd, Hm, Hdom, Hto.
  assert (Hnotify : ∀ e1,
            statusBarItems e1 = statusBarItems e → timeouts e1 = timeouts e →
            executionStateSessionGone (exec notify (s, e1))
            ∨ displayUpToDate (exec notify (s, e1))).
  { intros e1 Hsb Hto1. right. rewrite step_notify, Hd. apply update_up_to_date.
    split_and!; try done; simpl; rewrite ?Hsb, ?Hto1; done. }
  destruct ev as [t' | id | runState | metadata | verbosity |].
  - by right.
  - right. destruct (timeouts e !! id) as [[due h]|] eqn:Hl.
    2:{ unfold step, fireTimeout, bind, onEnv, gets, Date_now, exec. simpl.
        by rewrite Hl. }
    destruct (Z.leb_spec due (now e)) as [Hdue | Hdue].
    2:{ unfold step, fireTimeout, bind, onEnv, gets, Date_now, exec. simpl. rewrite Hl.
        destruct (Z.leb_spec due (now e)); [lia | done]. }
    pose proof (Hto id ltac:(by eexists)) as Hv.
    destruct (Hb id Hv) as (due' & Hl' & _). simpl in Hl'.
    assert (h = ClearExecutingState) as -> by congruence.
    rewrite (fire_clearExecutingState s e id due); [| done | done |].
    2:{ destruct (_clearExecutingStateTimer s) as [v dis]. simpl in *. congruence. }
    apply update_up_to_date.
    split_and!; try done. simpl. intros i [x Hx].
    apply lookup_delete_Some in Hx as [Hne Hx].
    pose proof (Hto i ltac:(by eexists)). congruence.
  - rewrite step_execution. by apply Hnotify.
  - rewrite step_metadata. by apply Hnotify.
  - by right.
  - left. by destruct (dispose_gone (s, e) (or_introl Hok)) as (? & _).
Qed.

Lemma run_up_to_date (evs : list Event) (w : t * Env) :
  executionStateSessionOk w → clearTimerBacked w → displayStartAccounted w →
  displayUpToDate w →
  executionStateSessionGone (run evs w) ∨ displayUpToDate (run evs w).
Proof.
  revert w. induction evs as [|ev evs IH]; intros w Hok Hb Ha Hu; [by right |].
  rewrite run_cons.
  destruct (step_accounted ev w Hok Hb Ha) as [Hgone | (Hok' & Hb' & Ha')].
  - left. by apply execution_state_gone_forever.
  - destruct (step_up_to_date ev w Hok Hb Hu) as [(Hd & _) | Hu'].
    + destruct Hok' as (Hd' & _). congruence.
    + by apply IH.
Qed.

(** X14. What the status bar shows for the cell. In every state a session of
    the execution state indicator reaches and in which it is not disposed,
    the items attached for the cell are those of its current run state and
    metadata, unless the display of the executing state is being held (a
    display start is recorded and the cell is not executing). *)
Theorem display_is_current (handle time : Z)
    (runState : option INotebookCellExecution)
    (metadata : NotebookCellInternalMetadata) (evs : list Event) :
  let w := run evs (new handle (initialEnv time runState metadata)) in
  _isDisposed w.1 = false →
  isExecuting (cellExecution w.2) = true ∨ _showedExecutingStateTime w.1 = None →
  attachedItems (_currentItemIds w.1) w.2
    = _getItemForState (cellExecution w.2) (internalMetadata w.2).
Proof.
  intros w Hd Hfree.
  destruct (new_accounted handle (initialEnv time runState metadata))
    as (Hok & Hb & Ha); [done | done |].
  assert (Hu : displayUpToDate (new handle (initialEnv time runState metadata))).
  { unfold new. apply update_up_to_date. split_and!; try done. simpl.
    intros id. rewrite lookup_empty. by intros [? ?]. }
  destruct (run_up_to_date evs _ Hok Hb Ha Hu) as [(Hd' & _) | Hu'].
  - fold w in Hd'. congruence.
  - by apply Hu'.
Qed.

End DisplayUpToDate.

Lemma display_is_current_witness :
  let executing :=
    Some {| state := NotebookCellExecutionState.Executing; didPause := false |} in
  let failed :=
    {| lastRunSuccess := Some false; runStartTime := Some 1000;
       runStartTimeAdjustment := None; runEndTime := Some 1700;
       renderDuration := None |} in
  let w :=
    ExecutionStateCellStatusBarItem.run (H := exampleWorkbench)
      [Tick 1700; DidChangeExecution None; DidChangeInternalMetadata failed]
      (ExecutionStateCellStatusBarItem.new (H := exampleWorkbench) 7
         (initialEnv 1000 executing noMetadata)) in
  attachedItems (ExecutionStateCellStatusBarItem._currentItemIds w.1) w.2
    = _getItemForState (H := exampleWorkbench) (cellExecution w.2) (internalMetadata w.2).
Proof.
  apply (display_is_current (H := exampleWorkbench)); [reflexivity | by right].
Defined.

Section UpdateTwice.
Context `{Workbench}.
Import ExecutionStateCellStatusBarItem.

(** [_update] when no display start is to be recorded or dropped. *)
Lemma update_settled (s : t) (e : Env) :
  isExecuting (cellExecution e) = bool_decide (is_Some (_showedExecutingStateTime s)) →
  let w := exec _update (s, e) in
  attachedItems (_currentItemIds w.1) w.2
    = _getItemForState (cellExecution e) (internalMetadata e) ∧
  timeouts w.2 = timeouts e ∧
  _showedExecutingStateTime w.1 = _showedExecutingStateTime s ∧
  _clearExecutingStateTimer w.1 = _clearExecutingStateTimer s.
Proof.
  intros Hplain w. subst w. rewrite update_result, getItemsForCell_plain by done.
  cbv zeta.
  pose proof (delta_result (_currentItemIds s) (_handle s)
                (_getItemForState (cellExecution e) (internalMetadata e)) e) as D.
  cbv zeta in D.
  destruct D as (D1 & D2 & D3 & D4 & D5 & D6 & D7 & D8 & D9 & D10).
  by split_and!.
Qed.

(** After a push the run state, the metadata and the clock are the same. *)
Lemma push_same_cell (s : t) (e : Env) (items : list INotebookCellStatusBarItem) :
  let r := deltaCellStatusBarItems (_currentItemIds s) (_handle s) items e in
  cellExecution r.2 = cellExecution e ∧ internalMetadata r.2 = internalMetadata e ∧
  timeouts r.2 = timeouts e ∧ attachedItems r.1 r.2 = items.
Proof.
  pose proof (delta_result (_currentItemIds s) (_handle s) items e) as D.
  cbv zeta in D |- *.
  destruct D as (D1 & D2 & D3 & D4 & D5 & D6 & D7 & D8 & D9 & D10).
  by split_and!.
Qed.

(** X15. Calling [_update] a second time in the same state of the workbench
    (as when both listeners fire for one change) changes nothing that can be
    seen: the items attached for the cell are the same, no further timeout
    is set, and the display start and the timeout held are the same. *)
Theorem update_twice_same_display (s : t) (e : Env) :
  executionStateSessionOk (s, e) →
  let w1 := exec _update (s, e) in
  let w2 := exec _update w1 in
  attachedItems (_currentItemIds w2.1) w2.2 = attachedItems (_currentItemIds w1.1) w1.2 ∧
  timeouts w2.2 = timeouts w1.2 ∧
  _showedExecutingStateTime w2.1 = _showedExecutingStateTime w1.1 ∧
  _clearExecutingStateTimer w2.1 = _clearExecutingStateTimer w1.1.
Proof.
  intros (Hd & Hm & Hdom & Hto) w1 w2. subst w2 w1. simpl in Hm.
  assert (Hsettled : ∀ s1 : t,
            isExecuting (cellExecution e)
              = bool_decide (is_Some (_showedExecutingStateTime s1)) →
            let items := _getItemForState (cellExecution e) (internalMetadata e) in
            let r := deltaCellStatusBarItems (_currentItemIds s1) (_handle s1) items e in
            let w1 := (set_currentItemIds r.1 s1, r.2) in
            let w2 := exec _update w1 in
            attachedItems (_currentItemIds w2.1) w2.2
              = attachedItems (_currentItemIds w1.1) w1.2 ∧
            timeouts w2.2 = timeouts w1.2 ∧
            _showedExecutingStateTime w2.1 = _showedExecutingStateTime w1.1 ∧
            _clearExecutingStateTimer w2.1 = _clearExecutingStateTimer w1.1).
  { intros s1 Hplain items r w1 w2. subst w2 w1.
    destruct (push_same_cell s1 e items) as (P1 & P2 & P3 & P4). fold r in P1, P2, P3, P4.
    clearbody r.
    destruct (update_settled (set_currentItemIds r.1 s1) r.2) as (S1 & S2 & S3 & S4).
    { by rewrite P1. }
    cbn [fst snd] in *. rewrite S1, S2, S3, S4, P1, P2.
    split_and!; try done; cbn [_currentItemIds set_currentItemIds]; by rewrite P4. }
  rewrite (update_result s e).
  destruct (isExecuting (cellExecution e)) eqn:He;
    destruct (_showedExecutingStateTime s) as [showed|] eqn:Hs.
  - rewrite getItemsForCell_plain by (by rewrite He, Hs).
    apply Hsettled. simpl. by rewrite ?He, ?Hs.
  - rewrite getItemsForCell_start by done.
    by apply (Hsettled (set_showedExecutingStateTime (Some (now e)) s)).
  - destruct (Z.lt_ge_cases (now e - showed) MIN_SPINNER_TIME) as [Hlt | Hge].
    + destruct (_clearExecutingStateTimer s) as [[id|] dis] eqn:Ht;
        simpl in Hm; subst dis.
      * rewrite (getItemsForCell_hold_pending s e showed id) by done.
        rewrite update_result, (getItemsForCell_hold_pending s e showed id) by done.
        done.
      * rewrite (getItemsForCell_hold_schedule s e showed) by done.
        rewrite update_result.
        rewrite (getItemsForCell_hold_pending _ _ showed (nextTimeout e)) by done.
        done.
    + rewrite (getItemsForCell_expired s e showed) by done.
      by apply (Hsettled (set_showedExecutingStateTime None s)).
  - rewrite getItemsForCell_plain by (by rewrite He, Hs).
    apply Hsettled. simpl. by rewrite ?He, ?Hs.
Qed.

End UpdateTwice.

Lemma update_twice_same_display_witness :
  let executing :=
    Some {| state := NotebookCellExecutionState.Executing; didPause := false |} in
  let w0 := ExecutionStateCellStatusBarItem.new (H := exampleWorkbench) 7
              (initialEnv 1000 executing noMetadata) in
  let w := (w0.1, set_cellExecution None (set_now 1200 w0.2)) in
  let w1 := exec (ExecutionStateCellStatusBarItem._update (H := exampleWorkbench)) w in
  let w2 := exec (ExecutionStateCellStatusBarItem._update (H := exampleWorkbench)) w1 in
  attachedItems (ExecutionStateCellStatusBarItem._currentItemIds w2.1) w2.2
    = attachedItems (ExecutionStateCellStatusBarItem._currentItemIds w1.1) w1.2 ∧
  timeouts w2.2 = timeouts w1.2 ∧
  ExecutionStateCellStatusBarItem._showedExecutingStateTime w2.1
    = ExecutionStateCellStatusBarItem._showedExecutingStateTime w1.1 ∧
  ExecutionStateCellStatusBarItem._clearExecutingStateTimer w2.1
    = ExecutionStateCellStatusBarItem._clearExecutingStateTimer w1.1.
Proof.
  apply (update_twice_same_display (H := exampleWorkbench)).
  split_and!; try reflexivity.
  intros id [x Hx]. by vm_compute in Hx.
Defined.
